(** * eda_conover: a shallow embedding of the housing EDA script

    The script [src/datafun_06_eda/eda_conover.py] is a straight-line pandas
    pipeline.  This development embeds it in three layers:

    - cell values, dtypes and frames by value (the content of a table);
    - the pandas operations the script calls, as functions on frames,
      following pandas' behaviour for the default arguments the script
      relies on (float64 arithmetic is IEEE binary64, Rocq's primitive
      floats).  What the script cannot decide and the libraries do not
      fix across versions (the records of the toolkit's header, the order
      of equal counts after a sort, Python's [float] on text, the
      floating-point reductions of a column, the wording of messages) is
      a parameter, the [platform];
    - Python objects: a [DataFrame] is a header with the address of a data
      buffer in a heap, and the script's functions run in a state and
      exception monad over a [world] (heap, log, standard output, files,
      figures).

    The script's own functions keep their names. *)

From Stdlib Require Import String Ascii ZArith List Bool Lia Arith.
From Stdlib Require Import Floats Uint63.
From Stdlib Require Import Permutation Sorted.
Import ListNotations.

Set Implicit Arguments.

(* ================================================================= *)
(** ** Cell values and dtypes *)

(** A cell of a table.  [VNone] is Python's [None]; a float cell may hold
    NaN.  Both are "null" for pandas. *)
Inductive value : Type :=
| VNone
| VBool (b : bool)
| VInt (z : Z)
| VFloat (x : float)
| VStr (s : string).

Inductive dtype : Type := int64 | float64 | bool_ | object_.

(** [str(t)] for a dtype [t]. *)
Definition dtype_str (t : dtype) : string :=
  match t with
  | int64 => "int64"
  | float64 => "float64"
  | bool_ => "bool"
  | object_ => "object"
  end.

Definition is_numeric_dtype (t : dtype) : bool :=
  match t with
  | int64 | float64 => true
  | bool_ | object_ => false
  end.

(** [pd.isna] on a scalar. *)
Definition isna (v : value) : bool :=
  match v with
  | VNone => true
  | VFloat x => PrimFloat.is_nan x
  | _ => false
  end.

Definition notna (v : value) : bool := negb (isna v).

(** int64 to float64, for [z] in the int64 range.  Rocq's machine
    integers have 63 bits: the magnitude of every int64 but the least
    fits, and the least, -2^63, is a float itself. *)
Definition Z2F (z : Z) : float :=
  if (z <? 0)%Z
  then if (z =? - 9223372036854775808)%Z then (- 0x1p+63)%float
       else PrimFloat.opp (PrimFloat.of_uint63 (Uint63.of_Z (- z)))
  else PrimFloat.of_uint63 (Uint63.of_Z z).

Definition nat2F (n : nat) : float := Z2F (Z.of_nat n).

(* ================================================================= *)
(** ** Frames by value *)

(** The content of a table: row labels [I], column labels [C], one dtype
    per column, and the cells row by row. *)
Record frame (I C : Type) : Type := Frame {
  index : list I;
  columns : list C;
  dtypes : list dtype;
  data : list (list value)
}.

Arguments Frame {I C} _ _ _ _.

(** The cell of row [r] at column position [j]. *)
Definition cell (r : list value) (j : nat) : value := nth j r VNone.

(** Every row is as wide as the header, and there is one label per row
    and one dtype per column. *)
Definition wf_frame {I C} (f : frame I C) : Prop :=
  length (index f) = length (data f) /\
  length (dtypes f) = length (columns f) /\
  Forall (fun r => length r = length (columns f)) (data f).

(** Boolean-mask selection, [xs[mask]]. *)
Fixpoint select {A} (mask : list bool) (xs : list A) : list A :=
  match mask, xs with
  | b :: mask', x :: xs' => if b then x :: select mask' xs' else select mask' xs'
  | _, _ => []
  end.

(** Positional selection, [take(indices)]. *)
Definition take (idx : list nat) (r : list value) : list value :=
  map (cell r) idx.

(** Column [j] of the data. *)
Definition column_at (rows : list (list value)) (j : nat) : list value :=
  map (fun r => cell r j) rows.

(** The positions of label [c] in a header, from position [i] on. *)
Fixpoint positions_from (c : string) (hdr : list string) (i : nat) : list nat :=
  match hdr with
  | [] => []
  | h :: hdr' =>
      if String.eqb c h then i :: positions_from c hdr' (S i)
      else positions_from c hdr' (S i)
  end.

Definition positions (c : string) (hdr : list string) : list nat :=
  positions_from c hdr 0.

(** [Index.get_indexer_for]: for each target, its positions; a target that
    is absent has none. *)
Definition get_indexer_for (hdr : list string) (targets : list string)
  : list (string * list nat) :=
  map (fun t => (t, positions t hdr)) targets.

Definition missing_labels (ix : list (string * list nat)) : list string :=
  map fst (filter (fun p => match snd p with [] => true | _ => false end) ix).

Definition indexer_positions (ix : list (string * list nat)) : list nat :=
  concat (map snd ix).

(* ================================================================= *)
(** ** The world: heap, log, standard output, files, figures *)

Definition addr := nat.

(** A data buffer: the cells of a frame, row by row. *)
Definition block := list (list value).

(** A Python [DataFrame] object: labels and dtypes, and the address of its
    data buffer.  Two objects may share one buffer (a shallow copy). *)
Record DataFrame (I C : Type) : Type := Obj {
  ob_index : list I;
  ob_columns : list C;
  ob_dtypes : list dtype;
  buf : addr
}.

Arguments Obj {I C} _ _ _ _.

(** What a log call was given besides its message. *)
Inductive arg : Type :=
| AInt (n : Z)
| AStr (s : string)
| AStrs (l : list string)
| ATable (f : frame Z string)
| ACounts (s : list (string * Z))
| AStats (f : frame string string)
| AGrouped (f : frame value (string * string)).

Inductive level : Type := DEBUG | INFO.

Record record : Type := Rec { lvl : level; msg : string; args : list arg }.

(** The exceptions of the run.  [EmptyDataError] and [ParserError] are
    pandas' (the first is a [ValueError] in Python's hierarchy);
    [OtherError] stands for any class not named here. *)
Inductive exn : Type :=
| FileNotFoundError (path : string)
| ParserError (what : string)
| EmptyDataError (what : string)
| KeyError (labels : list string)
| TypeError (what : string)
| ValueError (what : string)
| AttributeError (name : string)
| ReferenceError (a : addr)
| OtherError (class_name : string).

(** What is at a path: a file [pd.read_csv] parses, to a header, the
    inferred dtypes and the records, or one it fails on, with the
    exception it raises there ([EmptyDataError] for a file without
    columns, [ParserError] for ragged lines, a decoding or permission
    error, ...). *)
Inductive file : Type :=
| Unreadable (e : exn)
| Csv (header : list string) (types : list dtype) (records : list (list value)).

(** What [df.info()] prints: the number of entries and, per column, its
    name, non-null count and dtype. *)
Record info_report : Type := Info_report {
  entries : Z;
  per_column : list (string * Z * string)
}.

(** A matplotlib figure with its one axes. *)
Inductive plot : Type :=
| ScatterPlot (x y hue : string) (f : frame Z string)
| BoxPlot (x y : string) (f : frame Z string).

Record figure : Type := Fig {
  plots : list plot;
  xlabel : string;
  ylabel : string;
  title : string
}.

Record world : Type := World {
  heap : list block;
  log : list record;
  stdout : list info_report;
  files : string -> option file;
  figures : list figure;
  shown : bool
}.

(** A computation either returns a value or raises; both leave a world. *)
Inductive outcome (A : Type) : Type :=
| Ok (a : A) (w : world)
| Raise (e : exn) (w : world).

Arguments Raise {A} _ _.

Definition M (A : Type) : Type := world -> outcome A.

Definition ret {A} (a : A) : M A := fun w => Ok a w.

Definition raise {A} (e : exn) : M A := fun w => Raise e w.

Definition bind {A B} (m : M A) (k : A -> M B) : M B :=
  fun w => match m w with
           | Ok a w' => k a w'
           | Raise e w' => Raise e w'
           end.

Notation "x <- m ;; k" := (bind m (fun x => k))
  (at level 61, m at next level, right associativity).
Notation "m ;; k" := (bind m (fun _ => k))
  (at level 61, right associativity).

Definition set_heap (h : list block) (w : world) : world :=
  World h (log w) (stdout w) (files w) (figures w) (shown w).

Definition set_log (l : list record) (w : world) : world :=
  World (heap w) l (stdout w) (files w) (figures w) (shown w).

(** [LOG.info] and [LOG.debug]; the logger is at level DEBUG, so both are
    emitted. *)
Definition LOG_info (m : string) (a : list arg) : M unit :=
  fun w => Ok tt (set_log (log w ++ [Rec INFO m a]) w).

Definition LOG_debug (m : string) (a : list arg) : M unit :=
  fun w => Ok tt (set_log (log w ++ [Rec DEBUG m a]) w).

(** The content of an object in a world. *)
Definition read_heap {I C} (h : list block) (df : DataFrame I C)
  : option (frame I C) :=
  match nth_error h (buf df) with
  | Some b => Some (Frame (ob_index df) (ob_columns df) (ob_dtypes df) b)
  | None => None
  end.

Definition read {I C} (w : world) (df : DataFrame I C) : option (frame I C) :=
  read_heap (heap w) df.

Definition snapshot {I C} (df : DataFrame I C) : M (frame I C) :=
  fun w => match read w df with
           | Some f => Ok f w
           | None => Raise (ReferenceError (buf df)) w
           end.

(** A new object with a buffer of its own. *)
Definition new_frame {I C} (f : frame I C) : M (DataFrame I C) :=
  fun w => Ok (Obj (index f) (columns f) (dtypes f) (length (heap w)))
              (set_heap (heap w ++ [data f]) w).

(** A pandas method that builds a new frame from the content of an
    object, or raises. *)
Definition method {I C J D} (op : frame I C -> exn + frame J D)
           (df : DataFrame I C) : M (DataFrame J D) :=
  f <- snapshot df ;;
  match op f with
  | inl e => raise e
  | inr g => new_frame g
  end.

(** An in-place write into the buffer of an object (what [df.iloc[...] = v]
    and the like come down to). *)
Fixpoint store_at (a : addr) (b : block) (h : list block) : list block :=
  match h, a with
  | [], _ => []
  | _ :: h', O => b :: h'
  | x :: h', S a' => x :: store_at a' b h'
  end.

Definition overwrite {I C} (df : DataFrame I C) (b : block) (w : world) : world :=
  set_heap (store_at (buf df) b (heap w)) w.

Definition live {I C} (w : world) (df : DataFrame I C) : Prop :=
  buf df < length (heap w).

(** [df.shape]. *)
Definition shape {I C} (df : DataFrame I C) : Z * Z :=
  (Z.of_nat (length (ob_index df)), Z.of_nat (length (ob_columns df))).

(* ================================================================= *)
(** ** pandas: dropna and copy *)

(** A row is kept when it has no null at any of the positions. *)
Definition row_complete (idx : list nat) (r : list value) : bool :=
  forallb notna (take idx r).

(** [df.dropna(subset=...)]: rows, any null.  A missing label raises
    [KeyError]; when no row is dropped the result shares the buffer of
    [df] (a shallow copy), otherwise it is a new selection. *)
Definition dropna {I} (subset : list string) (df : DataFrame I string)
  : M (DataFrame I string) :=
  f <- snapshot df ;;
  let ix := get_indexer_for (columns f) subset in
  match missing_labels ix with
  | m :: ms => raise (KeyError (m :: ms))
  | [] =>
      let mask := map (row_complete (indexer_positions ix)) (data f) in
      if forallb (fun b => b) mask
      then ret (Obj (ob_index df) (ob_columns df) (ob_dtypes df) (buf df))
      else new_frame (Frame (select mask (index f)) (columns f) (dtypes f)
                            (select mask (data f)))
  end.

(** [df.copy()], deep. *)
Definition copy {I C} (df : DataFrame I C) : M (DataFrame I C) :=
  method (fun f => inr f) df.

(* ================================================================= *)
(** ** float64 helpers *)

Definition is_finite (x : float) : bool :=
  negb (PrimFloat.is_nan x || PrimFloat.is_infinity x).

(** The integer nearest to [m / d], ties to even ([0 < d]). *)
Definition nearest_even_quotient (m d : Z) : Z :=
  let q := (m / d)%Z in
  match (2 * (m mod d) ?= d)%Z with
  | Lt => q
  | Gt => (q + 1)%Z
  | Eq => if Z.even q then q else (q + 1)%Z
  end.

(** [np.rint], IEEE roundToIntegralTiesToEven: the integer nearest to
    [x], ties to even, with the sign of [x] (also when the result is
    zero); zeros, infinities, NaN and the floats that are integers
    already are returned as they are.  A finite [x] is
    [(-1)^s * m * 2^e]. *)
Definition rint (x : float) : float :=
  match Prim2SF x with
  | S754_finite s m e =>
      if (0 <=? e)%Z then x
      else
        let k := nearest_even_quotient (Zpos m) (2 ^ (- e)) in
        let r := PrimFloat.of_uint63 (Uint63.of_Z k) in
        if s then PrimFloat.opp r else r
  | _ => x
  end.

(** [np.round(x, decimals)] for [decimals >= 0]: scale, [rint], scale back. *)
Definition np_round (decimals : nat) (x : float) : float :=
  let p := Z2F (10 ^ Z.of_nat decimals) in
  (rint (x * p) / p)%float.

(** A cell as a float64, as [to_numpy(dtype=float)] converts it; a string
    does not convert. *)
Definition to_float (v : value) : option float :=
  match v with
  | VNone => Some PrimFloat.nan
  | VBool b => Some (if b then 1%float else 0%float)
  | VInt z => Some (Z2F z)
  | VFloat x => Some x
  | VStr _ => None
  end.

(** Equality of cells as pandas' hash tables see it: nulls are equal to
    each other, numbers compare by value, strings by content. *)
Definition value_eqb (a b : value) : bool :=
  if isna a then isna b
  else if isna b then false
  else match a, b with
       | VStr s, VStr t => String.eqb s t
       | VInt x, VInt y => Z.eqb x y
       | VBool x, VBool y => Bool.eqb x y
       | _, _ =>
           match to_float a, to_float b with
           | Some x, Some y => PrimFloat.eqb x y
           | _, _ => false
           end
       end.

Definition row_eqb (r1 r2 : list value) : bool :=
  Nat.eqb (length r1) (length r2) &&
  forallb (fun p => value_eqb (fst p) (snd p)) (combine r1 r2).

(** The order group keys are sorted in: numbers first, by value, then
    strings, by code point. *)
Definition value_leb (a b : value) : bool :=
  match to_float a, to_float b with
  | Some x, Some y => PrimFloat.leb x y
  | Some _, None => true
  | None, Some _ => false
  | None, None =>
      match a, b with
      | VStr s, VStr t => String.leb s t
      | _, _ => true
      end
  end.

(** Insertion sort, stable. *)
Fixpoint insert_by {A} (le : A -> A -> bool) (x : A) (l : list A) : list A :=
  match l with
  | [] => [x]
  | y :: l' => if le x y then x :: l else y :: insert_by le x l'
  end.

Fixpoint isort {A} (le : A -> A -> bool) (l : list A) : list A :=
  match l with
  | [] => []
  | x :: l' => insert_by le x (isort le l')
  end.

(* ================================================================= *)
(** ** Reference reductions *)

(** Reductions of a list of floats that accumulate from left to right.
    [fmin] and [fmax] are the loops of pandas' [group_min_max] ([if val <
    cur], so the value seen first stays among equals); the others are
    textbook forms, one way among several a library computes them. *)
Definition fsum (xs : list float) : float := fold_left PrimFloat.add xs 0%float.

Definition fmin (xs : list float) : float :=
  match xs with
  | [] => PrimFloat.nan
  | x :: xs' => fold_left (fun m y => if PrimFloat.ltb y m then y else m) xs' x
  end.

Definition fmax (xs : list float) : float :=
  match xs with
  | [] => PrimFloat.nan
  | x :: xs' => fold_left (fun m y => if PrimFloat.ltb m y then y else m) xs' x
  end.

Definition fmean (xs : list float) : float :=
  (fsum xs / nat2F (length xs))%float.

(** Sample standard deviation ([ddof=1]); NaN below two values. *)
Definition fstd (xs : list float) : float :=
  if Nat.leb (length xs) 1 then PrimFloat.nan
  else
    let avg := fmean xs in
    PrimFloat.sqrt
      (fsum (map (fun x => ((avg - x) * (avg - x))%float) xs)
       / (nat2F (length xs) - 1))%float.

(** The quantile [k/4], linear interpolation between order statistics. *)
Definition quartile (k : nat) (xs : list float) : float :=
  match isort PrimFloat.leb xs with
  | [] => PrimFloat.nan
  | x0 :: rest =>
      let sorted := x0 :: rest in
      let pos := k * (length xs - 1) in
      let lo := Nat.div pos 4 in
      let t := (nat2F (Nat.modulo pos 4) / 4)%float in
      let a := nth lo sorted x0 in
      let b := nth (S lo) sorted a in
      if PrimFloat.leb 0.5 t then (b - (b - a) * (1 - t))%float
      else (a + (b - a) * t)%float
  end.

(** The non-null cells of a column as floats. *)
Definition numeric_values (col : list value) : list float :=
  flat_map (fun v => if isna v then []
                     else match to_float v with Some x => [x] | None => [] end) col.

(** A stable descending sort of counts: reverse, sort ascending, reverse
    back. *)
Definition sort_values_desc {C} (s : list (C * Z)) : list (C * Z) :=
  rev (isort (fun a b => (snd a <=? snd b)%Z) (rev s)).

(** The number a string of decimal digits writes. *)
Fixpoint digits_value (s : string) (acc : Z) : option Z :=
  match s with
  | EmptyString => Some acc
  | String c s' =>
      let n := nat_of_ascii c in
      if Nat.leb 48 n && Nat.leb n 57
      then digits_value s' (10 * acc + Z.of_nat (n - 48))%Z
      else None
  end.

(** The float nearest to a natural number. *)
Definition float_of_digits (s : string) : option float :=
  match s with
  | EmptyString => None
  | String _ _ =>
      match digits_value s 0 with
      | Some z => Some (SF2Prim (binary_normalize prec emax z 0 false))
      | None => None
      end
  end.

(* ================================================================= *)
(** ** What the libraries decide *)

(** The script calls pandas, numpy, seaborn, the Python runtime and
    [datafun_toolkit].  Where the result of a call is not fixed by what
    the script passes, it is taken from the platform the script runs on:

    - [header_records t]: the records [log_header(LOG, t)] writes;
    - [sort_counts s]: [s.sort_values(ascending=False)] for the counts per
      column, sorted by quicksort, which leaves the order of equal counts
      open;
    - [py_float s]: Python's [float(s)] for a text cell, [None] when it
      raises [ValueError], and [float_error rows], the message of the
      [ValueError] that the conversion of the cells [rows] to floats
      raises when some text among them does not convert (numpy names the
      text it met first, in the order it walks its blocks);
    - [series_mean], [series_std], [series_min], [series_max] and
      [series_quantile q]: the float64 result of [Series.mean()],
      [Series.std()], [Series.min()], [Series.max()] and
      [Series.quantile(q/100)] on a column;
    - [group_mean] and [group_std]: the float64 mean and standard
      deviation of the cells of one group;
    - [plot_error key val]: seaborn's message when the plot variable
      [key] is given the name [val] and the data has no such column. *)
Class platform : Type := Platform {
  header_records : string -> list record;
  sort_counts : list (string * Z) -> list (string * Z);
  py_float : string -> option float;
  float_error : list (list value) -> string;
  series_mean : list value -> float;
  series_std : list value -> float;
  series_min : list value -> float;
  series_max : list value -> float;
  series_quantile : nat -> list value -> float;
  group_mean : list value -> float;
  group_std : list value -> float;
  plot_error : string -> string -> string
}.

(** The sort of a platform puts the counts in descending order and keeps
    every entry. *)
Definition sorts_descending (P : platform) : Prop :=
  forall s, Permutation (sort_counts s) s /\
            StronglySorted (fun a b => (snd b <= snd a)%Z) (sort_counts s).

(** A platform to run the script on the sample tables below: a header of
    one record, a stable sort, the reference reductions, and a [float]
    that reads decimal digits (the sample tables hold no other text that
    Python would convert). *)
Definition sample_platform : platform :=
  {| header_records := fun t => [Rec INFO t []];
     sort_counts := fun s => sort_values_desc s;
     py_float := float_of_digits;
     float_error := fun rows =>
       match find (fun v => match v with
                            | VStr s => match float_of_digits s with
                                        | None => true
                                        | Some _ => false
                                        end
                            | _ => false
                            end) (concat rows) with
       | Some (VStr s) => ("could not convert string to float: '" ++ s ++ "'")%string
       | _ => "could not convert string to float"%string
       end;
     series_mean := fun col => fmean (numeric_values col);
     series_std := fun col => fstd (numeric_values col);
     series_min := fun col => fmin (numeric_values col);
     series_max := fun col => fmax (numeric_values col);
     series_quantile := fun q col => quartile (Nat.div q 25) (numeric_values col);
     group_mean := fun col => fmean (numeric_values col);
     group_std := fun col => fstd (numeric_values col);
     plot_error := fun key val =>
       ("Could not interpret value `" ++ val ++ "` for `" ++ key ++ "`")%string |}.

Section Script.

Context {P : platform}.

(* ================================================================= *)
(** ** pandas: missing values, sorting, duplicates, selection *)

Definition enumerate {A} (l : list A) : list (nat * A) :=
  combine (seq 0 (length l)) l.

Definition count_true (bs : list bool) : nat := length (filter (fun b => b) bs).

(** The number of nulls in a column. *)
Definition count_na (col : list value) : nat := count_true (map isna col).

(** [df.dtypes]: one dtype per column. *)
Definition frame_dtypes {I C} (f : frame I C) : list dtype :=
  map (fun j => nth j (dtypes f) object_) (seq 0 (length (columns f))).

(** [df.isna().sum()]: per column, the number of nulls. *)
Definition isna_sum {I C} (f : frame I C) : list (C * Z) :=
  map (fun jc => (snd jc, Z.of_nat (count_na (column_at (data f) (fst jc)))))
      (enumerate (columns f)).

(** [df.isna().mean()]: per column, the share of nulls; the accumulation
    of the 0.0 and 1.0 terms is exact, so the sum is the count. *)
Definition isna_mean {I C} (f : frame I C) : list (C * float) :=
  map (fun jc => (snd jc,
                  (nat2F (count_na (column_at (data f) (fst jc)))
                   / nat2F (length (data f)))%float))
      (enumerate (columns f)).

(** [df.duplicated()], keep first: a row is marked when an earlier row
    equals it; an empty frame (no row or no column) gives an empty result. *)
Fixpoint duplicated_from (seen : list (list value)) (rows : list (list value))
  : list bool :=
  match rows with
  | [] => []
  | r :: rows' => existsb (row_eqb r) seen :: duplicated_from (r :: seen) rows'
  end.

Definition duplicated {I C} (f : frame I C) : list bool :=
  match columns f with
  | [] => []
  | _ :: _ => duplicated_from [] (data f)
  end.

(** [df[labels]]: the named columns, in the order asked; a missing label
    raises [KeyError]. *)
Definition getitem_frame {I} (labels : list string) (f : frame I string)
  : exn + frame I string :=
  let ix := get_indexer_for (columns f) labels in
  match missing_labels ix with
  | m :: ms => inl (KeyError (m :: ms))
  | [] =>
      let idx := indexer_positions ix in
      inr (Frame (index f)
                 (map (fun j => nth j (columns f) EmptyString) idx)
                 (map (fun j => nth j (dtypes f) object_) idx)
                 (map (take idx) (data f)))
  end.

Definition getitem {I} (labels : list string) (df : DataFrame I string)
  : M (DataFrame I string) :=
  method (getitem_frame labels) df.

(** [pd.DataFrame({name: values, ...})]: the columns must be equally long;
    the index is [0 .. n-1]. *)
Definition same_lengths (cols : list (string * dtype * list value)) : bool :=
  match cols with
  | [] => true
  | c :: cols' =>
      forallb (fun d => Nat.eqb (length (snd d)) (length (snd c))) cols'
  end.

Definition frame_of_columns (cols : list (string * dtype * list value))
  : frame Z string :=
  let n := match cols with [] => 0 | c :: _ => length (snd c) end in
  Frame (map Z.of_nat (seq 0 n))
        (map (fun c => fst (fst c)) cols)
        (map (fun c => snd (fst c)) cols)
        (map (fun i => map (fun c => nth i (snd c) VNone) cols) (seq 0 n)).

Definition pd_DataFrame (cols : list (string * dtype * list value))
  : M (DataFrame Z string) :=
  if same_lengths cols then new_frame (frame_of_columns cols)
  else raise (ValueError "All arrays must be of the same length").

(* ================================================================= *)
(** ** pandas: describe *)

Definition numeric_stat_names : list string :=
  ["count"; "mean"; "std"; "min"; "25%"; "50%"; "75%"; "max"]%string.

(** [describe_numeric_1d]: [series.count()], [series.mean()],
    [series.std()], [series.min()], [series.quantile([0.25, 0.5, 0.75])]
    and [series.max()], as one float64 column. *)
Definition describe_numeric_1d (col : list value) : list value :=
  map VFloat
      [nat2F (length (filter notna col)); series_mean col; series_std col;
       series_min col; series_quantile 25 col; series_quantile 50 col;
       series_quantile 75 col; series_max col].

Definition categorical_stat_names : list string :=
  ["count"; "unique"; "top"; "freq"]%string.

(** The distinct values of a list, in order of first appearance. *)
Fixpoint unique_by {A} (eqb : A -> A -> bool) (seen : list A) (l : list A) : list A :=
  match l with
  | [] => rev seen
  | x :: l' =>
      if existsb (eqb x) seen then unique_by eqb seen l'
      else unique_by eqb (x :: seen) l'
  end.

Definition occurrences (v : value) (col : list value) : nat :=
  count_true (map (value_eqb v) col).

(** The most frequent of [keys] in [col], the first among equals. *)
Definition top_of (keys col : list value) : value :=
  match keys with
  | [] => VFloat PrimFloat.nan
  | k :: keys' =>
      fold_left (fun best v =>
                   if Nat.ltb (occurrences best col) (occurrences v col)
                   then v else best) keys' k
  end.

Definition describe_categorical_1d (col : list value) : list value :=
  let present := filter notna col in
  let keys := unique_by value_eqb [] present in
  match keys with
  | [] => [VInt 0; VInt 0; VFloat PrimFloat.nan; VFloat PrimFloat.nan]
  | _ :: _ =>
      let top := top_of keys present in
      [VInt (Z.of_nat (length present)); VInt (Z.of_nat (length keys));
       top; VInt (Z.of_nat (occurrences top present))]
  end.

(** Rows become columns. *)
Definition transpose (width : nat) (rows : list (list value)) : list (list value) :=
  map (column_at rows) (seq 0 width).

(** [df.describe()] with the default arguments: the numeric columns when
    there are any, all columns as categorical otherwise; one row per
    statistic, one column per described column. *)
Definition describe_frame {I} (f : frame I string)
  : exn + frame string string :=
  match columns f with
  | [] => inl (ValueError "Cannot describe a DataFrame without columns")
  | _ :: _ =>
      let cols := enumerate (columns f) in
      let numeric :=
        filter (fun jc => is_numeric_dtype (nth (fst jc) (dtypes f) object_)) cols in
      match numeric with
      | _ :: _ =>
          inr (Frame numeric_stat_names (map snd numeric)
                     (map (fun _ => float64) numeric)
                     (transpose (length numeric_stat_names)
                        (map (fun jc => describe_numeric_1d (column_at (data f) (fst jc)))
                             numeric)))
      | [] =>
          inr (Frame categorical_stat_names (map snd cols)
                     (map (fun _ => object_) cols)
                     (transpose (length categorical_stat_names)
                        (map (fun jc => describe_categorical_1d (column_at (data f) (fst jc)))
                             cols)))
      end
  end.

Definition describe {I} (df : DataFrame I string) : M (DataFrame string string) :=
  method describe_frame df.

(** The dtype that holds all of [ts]. *)
Definition dtype_eqb (t u : dtype) : bool :=
  match t, u with
  | int64, int64 | float64, float64 | bool_, bool_ | object_, object_ => true
  | _, _ => false
  end.

Definition common_dtype (ts : list dtype) : dtype :=
  match ts with
  | [] => object_
  | t :: ts' =>
      if forallb (dtype_eqb t) ts' then t
      else if forallb is_numeric_dtype ts then float64
      else object_
  end.

(** [df.T]. *)
Definition T_frame {I C} (f : frame I C) : frame C I :=
  Frame (columns f) (index f)
        (map (fun _ => common_dtype (dtypes f)) (index f))
        (transpose (length (columns f)) (data f)).

Definition T {I C} (df : DataFrame I C) : M (DataFrame C I) :=
  method (fun f => inr (T_frame f)) df.

(** [df.head()]: the first five rows. *)
Definition head_frame {I C} (f : frame I C) : frame I C :=
  Frame (firstn 5 (index f)) (columns f) (dtypes f) (firstn 5 (data f)).

Definition head {I C} (df : DataFrame I C) : M (DataFrame I C) :=
  method (fun f => inr (head_frame f)) df.

(* ================================================================= *)
(** ** pandas: groupby and agg *)

(** The first error of a list of results, or all the values. *)
Fixpoint sequence_err {A} (l : list (exn + A)) : exn + list A :=
  match l with
  | [] => inr []
  | inl e :: _ => inl e
  | inr a :: l' =>
      match sequence_err l' with
      | inl e => inl e
      | inr l'' => inr (a :: l'')
      end
  end.

(** The non-null cells of a column as floats; a string among them is a
    type error for a numeric reduction. *)
Definition floats_of (how : string) (col : list value) : exn + list float :=
  sequence_err
    (map (fun v => match to_float v with
                   | Some x => inr x
                   | None => inl (TypeError how)
                   end)
         (filter notna col)).

Definition all_ints (col : list value) : option (list Z) :=
  fold_right (fun v acc =>
                match v, acc with
                | VInt z, Some zs => Some (z :: zs)
                | _, _ => None
                end) (Some []) col.

Definition agg_count (col : list value) : exn + value :=
  inr (VInt (Z.of_nat (length (filter notna col)))).

Definition agg_mean (col : list value) : exn + value :=
  match floats_of "agg function failed [how->mean,dtype->object]" col with
  | inl e => inl e
  | inr _ => inr (VFloat (group_mean col))
  end.

Definition agg_std (col : list value) : exn + value :=
  match floats_of "agg function failed [how->std,dtype->object]" col with
  | inl e => inl e
  | inr _ => inr (VFloat (group_std col))
  end.

(** [min] and [max] of a group: integers stay integers; on floats,
    [group_min_max] keeps the value seen first among equals. *)
Definition agg_min (col : list value) : exn + value :=
  match all_ints (filter notna col) with
  | Some (z :: zs) => inr (VInt (fold_left Z.min zs z))
  | _ =>
      match floats_of "agg function failed [how->min,dtype->object]" col with
      | inl e => inl e
      | inr xs => inr (VFloat (fmin xs))
      end
  end.

Definition agg_max (col : list value) : exn + value :=
  match all_ints (filter notna col) with
  | Some (z :: zs) => inr (VInt (fold_left Z.max zs z))
  | _ =>
      match floats_of "agg function failed [how->max,dtype->object]" col with
      | inl e => inl e
      | inr xs => inr (VFloat (fmax xs))
      end
  end.

(** The reduction a name stands for, and the dtype of its result for a
    column of dtype [t]. *)
Definition agg_named (name : string) : option ((list value -> exn + value) * (dtype -> dtype)) :=
  if String.eqb name "count" then Some (agg_count, fun _ => int64)
  else if String.eqb name "mean" then Some (agg_mean, fun _ => float64)
  else if String.eqb name "std" then Some (agg_std, fun _ => float64)
  else if String.eqb name "min" then Some (agg_min, fun t => t)
  else if String.eqb name "max" then Some (agg_max, fun t => t)
  else None.

(** The group keys: the distinct non-null values of the key column,
    sorted. *)
Definition group_keys (keycol : list value) : list value :=
  isort value_leb (unique_by value_eqb [] (filter notna keycol)).

(** The rows of group [k], the key column being at position [j]. *)
Definition group_rows (j : nat) (k : value) (rows : list (list value))
  : list (list value) :=
  filter (fun r => value_eqb (cell r j) k) rows.

(** The selected columns as (label, position) pairs. *)
Definition selected (ix : list (string * list nat)) : list (string * nat) :=
  flat_map (fun cp => map (fun p => (fst cp, p)) (snd cp)) ix.

(** One result column: reduction [fn] of the column at position [p], per
    group. *)
Definition agg_column (j : nat) (keys : list value) (rows : list (list value))
           (p : nat) (fn : list value -> exn + value) : exn + list value :=
  sequence_err (map (fun k => fn (column_at (group_rows j k rows) p)) keys).

(** [df.groupby(by)[labels].agg(funcs)]: one row per group key, one
    column per selected column and reduction. *)
Definition groupby_agg_frame {I} (by_ : string) (labels funcs : list string)
           (f : frame I string) : exn + frame value (string * string) :=
  match positions by_ (columns f) with
  | [] => inl (KeyError [by_])
  | _ :: _ :: _ =>
      inl (ValueError ("Grouper for '" ++ by_ ++ "' not 1-dimensional"))
  | [j] =>
      let ix := get_indexer_for (columns f) labels in
      match missing_labels ix with
      | m :: ms => inl (KeyError (m :: ms))
      | [] =>
          match sequence_err
                  (map (fun n => match agg_named n with
                                 | Some fd => inr (n, fd)
                                 | None => inl (AttributeError n)
                                 end) funcs) with
          | inl e => inl e
          | inr fns =>
              let keys := group_keys (column_at (data f) j) in
              let plan :=
                flat_map (fun cp => map (fun nf => (cp, nf)) fns) (selected ix) in
              match sequence_err
                      (map (fun q => agg_column j keys (data f)
                                       (snd (fst q)) (fst (snd (snd q)))) plan) with
              | inl e => inl e
              | inr cols =>
                  inr (Frame keys
                             (map (fun q => (fst (fst q), fst (snd q))) plan)
                             (map (fun q => snd (snd (snd q))
                                              (nth (snd (fst q)) (dtypes f) object_)) plan)
                             (transpose (length keys) cols))
              end
          end
      end
  end.

Definition groupby_agg {I} (by_ : string) (labels funcs : list string)
           (df : DataFrame I string) : M (DataFrame value (string * string)) :=
  method (groupby_agg_frame by_ labels funcs) df.

(* ================================================================= *)
(** ** pandas: corr *)

(** [float(v)] for a cell, as [to_numpy(dtype=float)] applies it: text
    converts when Python's [float] accepts it; [msg] is the message
    otherwise. *)
Definition float_of_cell (msg : string) (v : value) : exn + float :=
  match v with
  | VStr s =>
      match py_float s with
      | Some x => inr x
      | None => inl (ValueError msg)
      end
  | VNone => inr PrimFloat.nan
  | VBool b => inr (if b then 1%float else 0%float)
  | VInt z => inr (Z2F z)
  | VFloat x => inr x
  end.

(** [df.to_numpy(dtype=float)]. *)
Definition to_numpy_float {I C} (f : frame I C) : exn + list (list float) :=
  sequence_err
    (map (fun r => sequence_err (map (float_of_cell (float_error (data f))) r))
         (data f)).

Definition fcolumn (mat : list (list float)) (j : nat) : list float :=
  map (fun r => nth j r PrimFloat.nan) mat.

(** The running state of Welford's method for one pair of columns. *)
Record welford : Type := Welford {
  nobs : nat;
  meanx : float; meany : float;
  ssqdm_x : float; ssqdm_y : float;
  covxy : float
}.

Definition welford_step (a : welford) (v : float * float) : welford :=
  let (vx, vy) := v in
  if is_finite vx && is_finite vy then
    let n := S (nobs a) in
    let dx := (vx - meanx a)%float in
    let dy := (vy - meany a)%float in
    let mx := (meanx a + 1 / nat2F n * dx)%float in
    let my := (meany a + 1 / nat2F n * dy)%float in
    Welford n mx my
            (ssqdm_x a + (vx - mx) * dx)%float
            (ssqdm_y a + (vy - my) * dy)%float
            (covxy a + (vx - mx) * dy)%float
  else a.

(** A coefficient is clipped into [-1, 1]. *)
Definition clip (val : float) : float :=
  if PrimFloat.ltb 1 val then 1%float
  else if PrimFloat.ltb val (-1) then (-1)%float
  else val.

(** Pearson's coefficient of two columns over the rows where both are
    finite; NaN without such a row or when the divisor is zero. *)
Definition nancorr_pair (xs ys : list float) : float :=
  let a := fold_left welford_step (combine xs ys) (Welford 0 0 0 0 0 0) in
  if Nat.ltb (nobs a) 1 then PrimFloat.nan
  else
    let divisor := PrimFloat.sqrt (ssqdm_x a * ssqdm_y a) in
    if negb (PrimFloat.eqb divisor 0) then clip (covxy a / divisor)
    else PrimFloat.nan.

(** [nancorr]: each pair is computed once, for [yi <= xi], and stored at
    both places. *)
Definition nancorr_entry (mat : list (list float)) (i j : nat) : float :=
  if Nat.leb j i then nancorr_pair (fcolumn mat i) (fcolumn mat j)
  else nancorr_pair (fcolumn mat j) (fcolumn mat i).

Definition nancorr (K : nat) (mat : list (list float)) : list (list float) :=
  map (fun i => map (fun j => nancorr_entry mat i j) (seq 0 K)) (seq 0 K).

(** [df.corr()]: Pearson, all columns. *)
Definition corr_frame {I} (f : frame I string) : exn + frame string string :=
  match to_numpy_float f with
  | inl e => inl e
  | inr mat =>
      inr (Frame (columns f) (columns f)
                 (map (fun _ => float64) (columns f))
                 (map (map VFloat) (nancorr (length (columns f)) mat)))
  end.

Definition corr {I} (df : DataFrame I string) : M (DataFrame string string) :=
  method corr_frame df.

(* ================================================================= *)
(** ** pandas, seaborn and matplotlib: input and output *)

(** [pd.read_csv(path)]. *)
Definition read_csv (path : string) : M (DataFrame Z string) :=
  fun w =>
    match files w path with
    | None => Raise (FileNotFoundError path) w
    | Some (Unreadable e) => Raise e w
    | Some (Csv header types records) =>
        new_frame (Frame (map Z.of_nat (seq 0 (length records))) header types records) w
    end.

(** [df.info()]: prints to standard output. *)
Definition info (df : DataFrame Z string) : M unit :=
  f <- snapshot df ;;
  fun w =>
    Ok tt (World (heap w) (log w)
                 (stdout w ++
                  [Info_report
                     (Z.of_nat (length (index f)))
                     (map (fun jc =>
                             (snd jc,
                              Z.of_nat (length (filter notna (column_at (data f) (fst jc)))),
                              dtype_str (nth (fst jc) (dtypes f) object_)))
                          (enumerate (columns f)))])
                 (files w) (figures w) (shown w)).

Definition set_figures (fs : list figure) (w : world) : world :=
  World (heap w) (log w) (stdout w) (files w) fs (shown w).

Definition empty_figure : figure := Fig [] EmptyString EmptyString EmptyString.

(** The current figure is the last one; there is always one to draw on. *)
Definition current_figures (w : world) : list figure :=
  match figures w with
  | [] => [empty_figure]
  | fs => fs
  end.

Definition on_current (g : figure -> figure) (w : world) : world :=
  let fs := current_figures w in
  set_figures (removelast fs ++ [g (last fs empty_figure)]) w.

Definition is_column (c : string) (hdr : list string) : bool :=
  existsb (String.eqb c) hdr.

(** The first plot variable, in the order seaborn assigns them, whose
    value names no column of the data. *)
Definition not_in_data (hdr : list string) (vars : list (string * string))
  : option (string * string) :=
  find (fun kv => negb (is_column (snd kv) hdr)) vars.

(** [sns.scatterplot(data=df, x=..., y=..., hue=...)]; the result is the
    position of the axes drawn on. *)
Definition sns_scatterplot (df : DataFrame Z string) (x y hue : string) : M nat :=
  f <- snapshot df ;;
  match not_in_data (columns f) [("x", x); ("y", y); ("hue", hue)]%string with
  | Some kv => raise (ValueError (plot_error (fst kv) (snd kv)))
  | None =>
      fun w =>
        Ok (length (current_figures w) - 1)
           (on_current (fun g => Fig (plots g ++ [ScatterPlot x y hue f]) x y (title g)) w)
  end.

(** [sns.boxplot(data=df, x=..., y=...)]. *)
Definition sns_boxplot (df : DataFrame Z string) (x y : string) : M unit :=
  f <- snapshot df ;;
  match not_in_data (columns f) [("x", x); ("y", y)]%string with
  | Some kv => raise (ValueError (plot_error (fst kv) (snd kv)))
  | None =>
      fun w =>
        Ok tt (on_current (fun g => Fig (plots g ++ [BoxPlot x y f]) x y (title g)) w)
  end.

Fixpoint update_nth {A} (n : nat) (g : A -> A) (l : list A) : list A :=
  match l, n with
  | [], _ => []
  | x :: l', O => g x :: l'
  | x :: l', S n' => x :: update_nth n' g l'
  end.

Definition on_axes (ax : nat) (g : figure -> figure) : M unit :=
  fun w => Ok tt (set_figures (update_nth ax g (figures w)) w).

Definition set_xlabel (ax : nat) (s : string) : M unit :=
  on_axes ax (fun g => Fig (plots g) s (ylabel g) (title g)).

Definition set_ylabel (ax : nat) (s : string) : M unit :=
  on_axes ax (fun g => Fig (plots g) (xlabel g) s (title g)).

Definition set_title (ax : nat) (s : string) : M unit :=
  on_axes ax (fun g => Fig (plots g) (xlabel g) (ylabel g) s).

(** [plt.figure()]: a new current figure. *)
Definition plt_figure : M unit :=
  fun w => Ok tt (set_figures (figures w ++ [empty_figure]) w).

(** [plt.title(s)]: the title of the current axes. *)
Definition plt_title (s : string) : M unit :=
  fun w => Ok tt (on_current (fun g => Fig (plots g) (xlabel g) (ylabel g) s) w).

(** [plt.show()]. *)
Definition plt_show : M unit :=
  fun w => Ok tt (World (heap w) (log w) (stdout w) (files w) (figures w) true).

(** [log_header(LOG, title)]: the toolkit's records for the title. *)
Definition log_header (t : string) : M unit :=
  fun w => Ok tt (set_log (log w ++ header_records t) w).

(** The table a log call formats with [%s]. *)
Definition table_of (df : DataFrame Z string) : M arg :=
  f <- snapshot df ;; ret (ATable f).

Definition stats_of (df : DataFrame string string) : M arg :=
  f <- snapshot df ;; ret (AStats f).

Definition grouped_of (df : DataFrame value (string * string)) : M arg :=
  f <- snapshot df ;; ret (AGrouped f).

(* ================================================================= *)
(** ** The script *)

Definition NUMERIC_COLS : list string :=
  ["price"; "area"; "bedrooms"; "bathrooms"; "stories"]%string.

Definition GROUP_COL : string := "furnishingstatus"%string.

Definition load_data : M (DataFrame Z string) :=
  LOG_info "Loading housing dataset from CSV" [] ;;
  df <- read_csv "Housing.csv" ;;
  LOG_info "Data loaded: %s rows, %s columns"
           [AInt (fst (shape df)); AInt (snd (shape df))] ;;
  ret df.

Definition inspect_basic (df : DataFrame Z string) : M unit :=
  LOG_info "Inspecting first rows of data" [] ;;
  h <- head df ;;
  a <- table_of h ;;
  LOG_debug "\n%s" [a] ;;
  LOG_info "Column names" [] ;;
  LOG_debug "%s" [AStrs (ob_columns df)] ;;
  LOG_info "DataFrame info (types and non-null counts)" [] ;;
  info df ;;
  LOG_info "Dataset shape: %s rows, %s columns"
           [AInt (fst (shape df)); AInt (snd (shape df))].

Definition build_data_dictionary (df : DataFrame Z string) : M (DataFrame Z string) :=
  LOG_info "Building starter data dictionary" [] ;;
  f <- snapshot df ;;
  data_dictionary <-
    pd_DataFrame
      [ ("column"%string, object_, map VStr (columns f));
        ("dtype"%string, object_, map (fun t => VStr (dtype_str t)) (frame_dtypes f));
        ("missing_count"%string, int64, map VInt (map snd (isna_sum f)));
        ("missing_pct"%string, float64,
         map VFloat (map (np_round 2)
                         (map (fun x => (x * 100)%float) (map snd (isna_mean f))))) ] ;;
  a <- table_of data_dictionary ;;
  LOG_debug "\n%s" [a] ;;
  ret data_dictionary.

Definition check_quality (df : DataFrame Z string) : M unit :=
  LOG_info "Checking missing values per column" [] ;;
  f <- snapshot df ;;
  LOG_debug "\n%s" [ACounts (sort_counts (isna_sum f))] ;;
  let dup_count := Z.of_nat (count_true (duplicated f)) in
  LOG_info "Duplicate rows detected: %s" [AInt dup_count] ;;
  LOG_info "Basic sanity check for numeric columns" [] ;;
  numeric <- getitem NUMERIC_COLS df ;;
  summary <- describe numeric ;;
  a <- stats_of summary ;;
  LOG_debug "\n%s" [a].

Definition make_clean_view (df : DataFrame Z string) : M (DataFrame Z string) :=
  LOG_info "Creating cleaned view for EDA (dropping rows with key missing values)" [] ;;
  d <- dropna (NUMERIC_COLS ++ [GROUP_COL]) df ;;
  df_clean <- copy d ;;
  LOG_info "Cleaned view shape: %s rows, %s columns"
           [AInt (fst (shape df_clean)); AInt (snd (shape df_clean))] ;;
  ret df_clean.

Definition descriptive_stats (df_clean : DataFrame Z string)
  : M (DataFrame string string * DataFrame value (string * string)) :=
  LOG_info "Computing overall descriptive statistics" [] ;;
  numeric <- getitem NUMERIC_COLS df_clean ;;
  summary <- describe numeric ;;
  stats_overall <- T summary ;;
  a <- stats_of stats_overall ;;
  LOG_debug "\n%s" [a] ;;
  LOG_info "Computing descriptive statistics by %s" [AStr GROUP_COL] ;;
  stats_by_group <-
    groupby_agg GROUP_COL NUMERIC_COLS
                ["count"; "mean"; "std"; "min"; "max"]%string df_clean ;;
  b <- grouped_of stats_by_group ;;
  LOG_debug "\n%s" [b] ;;
  ret (stats_overall, stats_by_group).

Definition correlation_matrix (df_clean : DataFrame Z string)
  : M (DataFrame string string) :=
  LOG_info "Computing correlation matrix for numeric columns" [] ;;
  numeric <- getitem NUMERIC_COLS df_clean ;;
  corr_ <- corr numeric ;;
  a <- stats_of corr_ ;;
  LOG_debug "\n%s" [a] ;;
  ret corr_.

Definition make_plots (df_clean : DataFrame Z string) : M unit :=
  LOG_info "Creating scatter plot: area vs price" [] ;;
  scatter_plt <- sns_scatterplot df_clean "area" "price" GROUP_COL ;;
  set_xlabel scatter_plt "Area" ;;
  set_ylabel scatter_plt "Price" ;;
  set_title scatter_plt "Area vs Price (by Furnishing Status)" ;;
  plt_figure ;;
  sns_boxplot df_clean GROUP_COL "price" ;;
  plt_title "Price Distribution by Furnishing Status" ;;
  plt_show.

Definition main : M unit :=
  log_header "Exploratory Data Analysis (EDA) - Housing Prices" ;;
  LOG_info "Section 1: Setup at the top of the file" [] ;;
  LOG_info "Section 2: Load the data" [] ;;
  df <- load_data ;;
  LOG_info "Section 3: Inspect data shape and basic structure" [] ;;
  inspect_basic df ;;
  LOG_info "Section 4: Check data quality" [] ;;
  build_data_dictionary df ;;
  check_quality df ;;
  LOG_info "Section 5: Create a cleaned view for EDA" [] ;;
  df_clean <- make_clean_view df ;;
  LOG_info "Section 6: Compute descriptive statistics for numeric columns" [] ;;
  descriptive_stats df_clean ;;
  LOG_info "Section 7: Show correlation matrix for numeric columns" [] ;;
  correlation_matrix df_clean ;;
  LOG_info "Section 8: Make plots" [] ;;
  make_plots df_clean ;;
  LOG_info "EDA workflow complete" [] ;;
  LOG_info "IMPORTANT: This script creates chart windows." [] ;;
  LOG_info "Close any chart windows and terminate this process with CTRL+c as needed." [].

(* ================================================================= *)
(** ** A sample table *)

Definition sample_header : list string :=
  ["price"; "area"; "bedrooms"; "bathrooms"; "stories"; "mainroad";
   "guestroom"; "basement"; "hotwaterheating"; "airconditioning";
   "parking"; "prefarea"; "furnishingstatus"]%string.

Definition sample_types : list dtype :=
  [int64; float64; int64; int64; int64; object_; object_; object_;
   object_; object_; int64; object_; object_].

Definition house (price : Z) (area : value) (bedrooms bathrooms stories : Z)
           (mainroad : value) (parking : Z) (status : string) : list value :=
  [VInt price; area; VInt bedrooms; VInt bathrooms; VInt stories; mainroad;
   VStr "no"; VStr "no"; VStr "no"; VStr "yes"; VInt parking; VStr "no";
   VStr status].

(** Five houses: the second has no [mainroad], the third no [area], the
    fifth repeats the first. *)
Definition sample_records : list (list value) :=
  [ house 13300000 (VFloat 7420) 4 2 3 (VStr "yes") 2 "furnished";
    house 12250000 (VFloat 8960) 4 4 4 VNone 3 "unfurnished";
    house 12215000 (VFloat PrimFloat.nan) 3 2 2 (VStr "yes") 2 "furnished";
    house 9100000 (VFloat 6000) 4 1 2 (VStr "no") 0 "unfurnished";
    house 13300000 (VFloat 7420) 4 2 3 (VStr "yes") 2 "furnished" ]%string.

Definition sample_frame : frame Z string :=
  Frame [0; 1; 2; 3; 4]%Z sample_header sample_types sample_records.

Definition no_files : string -> option file := fun _ => None.

(** A world in which the sample table is loaded at address 0. *)
Definition sample_world : world :=
  World [sample_records] [] [] no_files [] false.

Definition sample_df : DataFrame Z string :=
  Obj [0; 1; 2; 3; 4]%Z sample_header sample_types 0.

(* ================================================================= *)
(** ** Specification vocabulary *)

(** Row [r] under header [hdr] has no null in any column named in
    [subset]. *)
Definition complete_on (subset hdr : list string) (r : list value) : Prop :=
  forall j c, nth_error hdr j = Some c -> In c subset -> isna (cell r j) = false.

(** The decision [dropna] takes for a row. *)
Definition keeps (subset hdr : list string) (r : list value) : bool :=
  row_complete (indexer_positions (get_indexer_for hdr subset)) r.

(** Every label of [subset] is a column of the header. *)
Definition has_columns (hdr subset : list string) : Prop :=
  forall c, In c subset -> In c hdr.

(** [xs] is [ys] with some elements left out, the others in place. *)
Inductive subseq {A} : list A -> list A -> Prop :=
| subseq_nil : subseq [] []
| subseq_skip : forall x xs ys, subseq xs ys -> subseq xs (x :: ys)
| subseq_keep : forall x xs ys, subseq xs ys -> subseq (x :: xs) (x :: ys).

(** The rows of a frame with their labels. *)
Definition labelled {I C} (f : frame I C) : list (I * list value) :=
  combine (index f) (data f).

(** [w'] keeps every buffer of [w] as it was (it may have more). *)
Definition heap_preserved (w w' : world) : Prop :=
  forall a, a < length (heap w) -> nth_error (heap w') a = nth_error (heap w) a.

(** Apart from the log and newly allocated buffers, [w'] is [w]. *)
Definition only_logged (w w' : world) : Prop :=
  heap_preserved w w' /\
  (exists l, log w' = log w ++ l) /\
  stdout w' = stdout w /\ files w' = files w /\
  figures w' = figures w /\ shown w' = shown w.

(** The position of column [c] (of its first occurrence). *)
Definition col_pos (c : string) (hdr : list string) : nat :=
  hd 0 (positions c hdr).

(** Column [c] occurs exactly once and its dtype is numeric. *)
Definition numeric_column {I} (f : frame I string) (c : string) : Prop :=
  positions c (columns f) = [col_pos c (columns f)] /\
  is_numeric_dtype (nth (col_pos c (columns f)) (dtypes f) object_) = true.

(** The five numeric columns are there, once each, with a numeric dtype. *)
Definition numeric_schema {I} (f : frame I string) : Prop :=
  forall c, In c NUMERIC_COLS -> numeric_column f c.

(** Two rows are identical when pandas finds them equal cell by cell. *)
Definition identical (r1 r2 : list value) : Prop := row_eqb r1 r2 = true.

(** Counts in descending order. *)
Definition descending {C} (s : list (C * Z)) : Prop :=
  StronglySorted (fun a b => (snd b <= snd a)%Z) s.

(** A cell of a numeric column is a number (or null), never a string. *)
Definition dtypes_respected {I C} (f : frame I C) : Prop :=
  forall j r, In r (data f) ->
    is_numeric_dtype (nth j (dtypes f) object_) = true ->
    exists x, to_float (cell r j) = Some x.

(** The grouping column is there, once. *)
Definition group_column {I} (f : frame I string) : Prop :=
  positions GROUP_COL (columns f) = [col_pos GROUP_COL (columns f)].

(** A cleaned table: no row has a null in the six key columns. *)
Definition cleaned {I} (f : frame I string) : Prop :=
  forall r, In r (data f) -> complete_on (NUMERIC_COLS ++ [GROUP_COL]) (columns f) r.

(** No two elements of the list are equal for [eqb]. *)
Inductive distinct_by {A} (eqb : A -> A -> bool) : list A -> Prop :=
| distinct_nil : distinct_by eqb []
| distinct_cons : forall x l,
    (forall y, In y l -> eqb x y = false) ->
    distinct_by eqb l -> distinct_by eqb (x :: l).

(** The columns of the grouped table. *)
Definition grouped_columns : list (string * string) :=
  flat_map (fun c => map (fun n => (c, n)) ["count"; "mean"; "std"; "min"; "max"]%string)
           NUMERIC_COLS.

(** A reduction that succeeds on every column of numbers. *)
Definition reduces_numbers (fn : list value -> exn + value) : Prop :=
  forall col, (forall v, In v col -> exists x, to_float v = Some x) ->
              exists v, fn col = inr v.

(** Between [w] and [w'] no figure was drawn or shown and no file
    written. *)
Definition nothing_drawn (w w' : world) : Prop :=
  figures w' = figures w /\ shown w' = shown w /\ files w' = files w.

(** A coefficient that is NaN or lies in [-1, 1]. *)
Definition in_range (x : float) : Prop :=
  PrimFloat.is_nan x = true \/
  (PrimFloat.leb (-1) x = true /\ PrimFloat.leb x 1 = true).

(** The float64 that [to_numpy(dtype=float)] holds for a cell that is a
    number or null. *)
Definition as_float (v : value) : float :=
  match to_float v with
  | Some x => x
  | None => PrimFloat.nan
  end.

(** [k] is the integer nearest to [m / d], and the even one when two
    integers are equally near. *)
Definition nearest_integer (m d k : Z) : Prop :=
  (Z.abs (2 * (m - k * d)) <= d)%Z /\
  (Z.abs (2 * (m - k * d)) = d -> Z.even k = true)%Z.

(** [r] is the float [t] rounded to an integer, ties to even, with the
    sign of [t]: a finite [t] is [(-1)^s * m * 2^e], an integer already
    when [0 <= e]; zeros, infinities and NaN round to themselves. *)
Definition rounded_to_integer (t r : float) : Prop :=
  match Prim2SF t with
  | S754_finite s m e =>
      if (0 <=? e)%Z then r = t
      else exists k,
          nearest_integer (Zpos m) (2 ^ (- e)) k /\
          r = (if s then PrimFloat.opp (PrimFloat.of_uint63 (Uint63.of_Z k))
               else PrimFloat.of_uint63 (Uint63.of_Z k))
  | _ => r = t
  end.

(** What Welford's method has accumulated for two columns, over the rows
    where both are finite. *)
Definition accumulated (xs ys : list float) : welford :=
  fold_left welford_step (combine xs ys) (Welford 0 0 0 0 0 0).

(** The squared deviations Welford's method has accumulated for a
    column when it is paired with itself. *)
Definition squared_deviations (xs : list float) : float :=
  ssqdm_x (fold_left welford_step (combine xs xs) (Welford 0 0 0 0 0 0)).

(** The sample without the house that has no area: a cleaned table. *)
Definition clean_records : list (list value) :=
  [ house 13300000 (VFloat 7420) 4 2 3 (VStr "yes") 2 "furnished";
    house 12250000 (VFloat 8960) 4 4 4 VNone 3 "unfurnished";
    house 9100000 (VFloat 6000) 4 1 2 (VStr "no") 0 "unfurnished";
    house 13300000 (VFloat 7420) 4 2 3 (VStr "yes") 2 "furnished" ]%string.

Definition clean_frame : frame Z string :=
  Frame [0; 1; 3; 4]%Z sample_header sample_types clean_records.

Definition clean_world : world :=
  World [clean_records] [] [] no_files [] false.

Definition clean_df : DataFrame Z string :=
  Obj [0; 1; 3; 4]%Z sample_header sample_types 0.

(** A cleaned table in which every house has two stories. *)
Definition flat_records : list (list value) :=
  [ house 13300000 (VFloat 7420) 4 2 2 (VStr "yes") 2 "furnished";
    house 12250000 (VFloat 8960) 4 4 2 (VStr "yes") 3 "unfurnished";
    house 9100000 (VFloat 6000) 3 1 2 (VStr "no") 0 "unfurnished" ]%string.

Definition flat_frame : frame Z string :=
  Frame [0; 1; 2]%Z sample_header sample_types flat_records.

Definition flat_world : world :=
  World [flat_records] [] [] no_files [] false.

Definition flat_df : DataFrame Z string :=
  Obj [0; 1; 2]%Z sample_header sample_types 0.

(** The exception a run ended with, if any. *)
Definition raised {A} (o : outcome A) : option exn :=
  match o with
  | Ok _ _ => None
  | Raise e _ => Some e
  end.

(** Two runs ended alike: with tables of equal content, or with the same
    exception. *)
Definition same_table {I C} (o1 o2 : outcome (DataFrame I C)) : Prop :=
  match o1, o2 with
  | Ok d1 w1, Ok d2 w2 => exists g, read w1 d1 = Some g /\ read w2 d2 = Some g
  | Raise e1 _, Raise e2 _ => e1 = e2
  | _, _ => False
  end.

Definition same_tables2 {I C J D}
           (o1 o2 : outcome (DataFrame I C * DataFrame J D)) : Prop :=
  match o1, o2 with
  | Ok (a1, b1) w1, Ok (a2, b2) w2 =>
      (exists g, read w1 a1 = Some g /\ read w2 a2 = Some g) /\
      (exists g, read w1 b1 = Some g /\ read w2 b2 = Some g)
  | Raise e1 _, Raise e2 _ => e1 = e2
  | _, _ => False
  end.

(** The sample table at another address, in a world with a history. *)
Definition other_world : world :=
  World [clean_records; sample_records]
        [Rec INFO "earlier run" []] [] no_files [] false.

Definition other_df : DataFrame Z string :=
  Obj [0; 1; 2; 3; 4]%Z sample_header sample_types 1.

(** [w] with one more INFO record. *)
Definition logged (m : string) (w : world) : world :=
  set_log (log w ++ [Rec INFO m []]) w.

(** The world in which [main] calls [load_data]. *)
Definition started (w : world) : world :=
  logged "Section 2: Load the data"
    (logged "Section 1: Setup at the top of the file"
       (set_log (log w ++
                 header_records "Exploratory Data Analysis (EDA) - Housing Prices")
                w)).

(** The stages of [main] that ran to their end, one after the other, and
    the world each left. *)
Definition ran_load (w : world) (df : DataFrame Z string) (w2 : world) : Prop :=
  load_data (started w) = Ok df w2.

Definition ran_inspect (w : world) (df : DataFrame Z string) (w3 : world) : Prop :=
  exists w2, ran_load w df w2 /\
    inspect_basic df
      (logged "Section 3: Inspect data shape and basic structure" w2) = Ok tt w3.

Definition ran_dictionary (w : world) (df : DataFrame Z string) (w4 : world) : Prop :=
  exists w3 d, ran_inspect w df w3 /\
    build_data_dictionary df (logged "Section 4: Check data quality" w3) = Ok d w4.

Definition ran_quality (w : world) (df : DataFrame Z string) (w5 : world) : Prop :=
  exists w4, ran_dictionary w df w4 /\ check_quality df w4 = Ok tt w5.

Definition ran_clean (w : world) (df_clean : DataFrame Z string) (w6 : world) : Prop :=
  exists df w5, ran_quality w df w5 /\
    make_clean_view df (logged "Section 5: Create a cleaned view for EDA" w5)
    = Ok df_clean w6.

Definition ran_stats (w : world) (df_clean : DataFrame Z string) (w7 : world) : Prop :=
  exists w6 r, ran_clean w df_clean w6 /\
    descriptive_stats df_clean
      (logged "Section 6: Compute descriptive statistics for numeric columns" w6)
    = Ok r w7.

Definition ran_corr (w : world) (df_clean : DataFrame Z string) (w8 : world) : Prop :=
  exists w7 c, ran_stats w df_clean w7 /\
    correlation_matrix df_clean
      (logged "Section 7: Show correlation matrix for numeric columns" w7)
    = Ok c w8.

Definition ran_plots (w : world) (w9 : world) : Prop :=
  exists df_clean w8, ran_corr w df_clean w8 /\
    make_plots df_clean (logged "Section 8: Make plots" w8) = Ok tt w9.

(** Some stage of [main], run after the stages before it, raised [e] and
    left the world [w']. *)
Inductive stage_raises (w : world) (e : exn) (w' : world) : Prop :=
| raises_load_data :
    load_data (started w) = Raise e w' -> stage_raises w e w'
| raises_inspect_basic : forall df w2,
    ran_load w df w2 ->
    inspect_basic df
      (logged "Section 3: Inspect data shape and basic structure" w2) = Raise e w' ->
    stage_raises w e w'
| raises_build_data_dictionary : forall df w3,
    ran_inspect w df w3 ->
    build_data_dictionary df (logged "Section 4: Check data quality" w3) = Raise e w' ->
    stage_raises w e w'
| raises_check_quality : forall df w4,
    ran_dictionary w df w4 ->
    check_quality df w4 = Raise e w' ->
    stage_raises w e w'
| raises_make_clean_view : forall df w5,
    ran_quality w df w5 ->
    make_clean_view df (logged "Section 5: Create a cleaned view for EDA" w5)
    = Raise e w' ->
    stage_raises w e w'
| raises_descriptive_stats : forall df_clean w6,
    ran_clean w df_clean w6 ->
    descriptive_stats df_clean
      (logged "Section 6: Compute descriptive statistics for numeric columns" w6)
    = Raise e w' ->
    stage_raises w e w'
| raises_correlation_matrix : forall df_clean w7,
    ran_stats w df_clean w7 ->
    correlation_matrix df_clean
      (logged "Section 7: Show correlation matrix for numeric columns" w7)
    = Raise e w' ->
    stage_raises w e w'
| raises_make_plots : forall df_clean w8,
    ran_corr w df_clean w8 ->
    make_plots df_clean (logged "Section 8: Make plots" w8) = Raise e w' ->
    stage_raises w e w'.

(** The closing records of [main]. *)
Definition finished (w9 : world) : world :=
  logged "Close any chart windows and terminate this process with CTRL+c as needed."
    (logged "IMPORTANT: This script creates chart windows."
       (logged "EDA workflow complete" w9)).

(** Worlds for the failures the pipeline can meet: no file; a file
    without the stories column; a file whose price column holds text. *)
Definition housing (header : list string) (types : list dtype)
           (records : list (list value)) : string -> option file :=
  fun path => if String.eqb path "Housing.csv"
              then Some (Csv header types records) else None.

Definition world_without_file : world :=
  World [] [] [] no_files [] false.

Definition world_with_sample : world :=
  World [] [] [] (housing sample_header sample_types sample_records) [] false.

Definition world_without_stories : world :=
  World [] [] []
        (housing ["price"; "area"; "bedrooms"; "bathrooms"; "furnishingstatus"]%string
                 [int64; float64; int64; int64; object_]
                 [[VInt 13300000; VFloat 7420; VInt 4; VInt 2; VStr "furnished"]])
        [] false.

Definition world_with_text_price : world :=
  World [] [] []
        (housing ["price"; "area"; "bedrooms"; "bathrooms"; "stories"; "furnishingstatus"]%string
                 [object_; float64; int64; int64; int64; object_]
                 [[VStr "13,300,000"; VFloat 7420; VInt 4; VInt 2; VInt 3; VStr "furnished"];
                  [VStr "12,250,000"; VFloat 8960; VInt 4; VInt 4; VInt 4; VStr "furnished"]])
        [] false.

(** The world a run ends in. *)
Definition final_world {A} (o : outcome A) : world :=
  match o with
  | Ok _ w => w
  | Raise _ w => w
  end.

(** [m] run in [w] ends in [Q] when it returns and in [E] when it raises. *)
Definition wp {A} (m : M A) (w : world)
           (Q : A -> world -> Prop) (E : exn -> world -> Prop) : Prop :=
  match m w with
  | Ok a w' => Q a w'
  | Raise e w' => E e w'
  end.

(** A computation whose only effects are log records and new buffers. *)
Definition logs_only {A} (m : M A) : Prop :=
  forall w, only_logged w (final_world (m w)).

(** The run [o], started in [w], produced the content [r] (or raised the
    exception [r]) and did nothing but log and allocate. *)
Definition agrees {I C} (o : outcome (DataFrame I C)) (w : world)
           (r : exn + frame I C) : Prop :=
  only_logged w (final_world o) /\
  match o, r with
  | Ok d w', inr g => read w' d = Some g
  | Raise e _, inl e' => e = e'
  | _, _ => False
  end.

Definition agrees2 {I C J D} (o : outcome (DataFrame I C * DataFrame J D))
           (w : world) (r : exn + (frame I C * frame J D)) : Prop :=
  only_logged w (final_world o) /\
  match o, r with
  | Ok (d1, d2) w', inr (g1, g2) => read w' d1 = Some g1 /\ read w' d2 = Some g2
  | Raise e _, inl e' => e = e'
  | _, _ => False
  end.

(** The content each step of the script computes from the content of its
    input. *)
Definition data_dictionary_of (f : frame Z string) : frame Z string :=
  frame_of_columns
    [ ("column"%string, object_, map VStr (columns f));
      ("dtype"%string, object_, map (fun t => VStr (dtype_str t)) (frame_dtypes f));
      ("missing_count"%string, int64, map VInt (map snd (isna_sum f)));
      ("missing_pct"%string, float64,
       map VFloat (map (np_round 2)
                       (map (fun x => (x * 100)%float) (map snd (isna_mean f))))) ].

Definition clean_view_of (f : frame Z string) : exn + frame Z string :=
  let six := NUMERIC_COLS ++ [GROUP_COL] in
  match missing_labels (get_indexer_for (columns f) six) with
  | m :: ms => inl (KeyError (m :: ms))
  | [] =>
      let mask := map (keeps six (columns f)) (data f) in
      inr (if forallb (fun b => b) mask then f
           else Frame (select mask (index f)) (columns f) (dtypes f)
                      (select mask (data f)))
  end.

Definition summary_of (f : frame Z string) : exn + frame string string :=
  match getitem_frame NUMERIC_COLS f with
  | inl e => inl e
  | inr g => describe_frame g
  end.

Definition descriptive_stats_of (f : frame Z string)
  : exn + (frame string string * frame value (string * string)) :=
  match summary_of f with
  | inl e => inl e
  | inr d =>
      match groupby_agg_frame GROUP_COL NUMERIC_COLS
                              ["count"; "mean"; "std"; "min"; "max"]%string f with
      | inl e => inl e
      | inr g => inr (T_frame d, g)
      end
  end.

Definition correlation_of (f : frame Z string) : exn + frame string string :=
  match getitem_frame NUMERIC_COLS f with
  | inl e => inl e
  | inr g => corr_frame g
  end.

(** What [df.info()] prints for a table of content [f]. *)
Definition info_report_of (f : frame Z string) : info_report :=
  Info_report
    (Z.of_nat (length (index f)))
    (map (fun jc =>
            (snd jc,
             Z.of_nat (length (filter notna (column_at (data f) (fst jc)))),
             dtype_str (nth (fst jc) (dtypes f) object_)))
         (enumerate (columns f))).


(** A table without the columns bedrooms and stories. *)
Definition narrow_frame : frame Z string :=
  Frame [0; 1]%Z
        ["price"; "area"; "bathrooms"; "furnishingstatus"]%string
        [int64; float64; int64; object_]
        [[VInt 13300000; VFloat 7420; VInt 2; VStr "furnished"];
         [VInt 12250000; VFloat 8960; VInt 4; VStr "unfurnished"]].

Definition narrow_world : world :=
  World [data narrow_frame] [] [] no_files [] false.

Definition narrow_df : DataFrame Z string :=
  Obj (index narrow_frame) (columns narrow_frame) (dtypes narrow_frame) 0.

(** Every furnishing status is a string. *)
Definition status_strings {I} (f : frame I string) : Prop :=
  forall r, In r (data f) ->
    exists s, cell r (col_pos GROUP_COL (columns f)) = VStr s.

(** A table whose price column holds text. *)
Definition text_frame : frame Z string :=
  Frame [0; 1]%Z
        ["price"; "area"; "bedrooms"; "bathrooms"; "stories"; "furnishingstatus"]%string
        [object_; float64; int64; int64; int64; object_]
        [[VStr "13,300,000"; VFloat 7420; VInt 4; VInt 2; VInt 3; VStr "furnished"];
         [VStr "12,250,000"; VFloat 8960; VInt 4; VInt 4; VInt 4; VStr "furnished"]].

Definition text_world : world :=
  World [data text_frame] [] [] no_files [] false.

Definition text_df : DataFrame Z string :=
  Obj (index text_frame) (columns text_frame) (dtypes text_frame) 0.

(** The message of the [TypeError] a mean over text raises. *)
Definition mean_failed : string :=
  "agg function failed [how->mean,dtype->object]".

(** The sample schema without any house. *)
Definition empty_frame : frame Z string :=
  Frame [] sample_header sample_types [].

Definition empty_table_world : world :=
  World [data empty_frame] [] [] no_files [] false.

Definition empty_df : DataFrame Z string :=
  Obj (index empty_frame) (columns empty_frame) (dtypes empty_frame) 0.

(** The two figures [make_plots] draws from a table of content [f], the
    first on the figure [g] that was current. *)
Definition scatter_figure (g : figure) (f : frame Z string) : figure :=
  Fig (plots g ++ [ScatterPlot "area" "price" GROUP_COL f])
      "Area" "Price" "Area vs Price (by Furnishing Status)".

Definition box_figure (f : frame Z string) : figure :=
  Fig [BoxPlot GROUP_COL "price" f]
      GROUP_COL "price" "Price Distribution by Furnishing Status".

(** The three columns the plots show. *)
Definition PLOT_COLS : list string := ["area"; "price"; GROUP_COL]%string.

(** The figures to draw on, given the open ones. *)
Definition current_of (fs : list figure) : list figure :=
  match fs with
  | [] => [empty_figure]
  | _ :: _ => fs
  end.

(** A table without the area column. *)
Definition priced_frame : frame Z string :=
  Frame [0]%Z ["price"; "furnishingstatus"]%string [int64; object_]
        [[VInt 13300000; VStr "furnished"]].

Definition priced_world : world :=
  World [data priced_frame] [] [] no_files [] false.

Definition priced_df : DataFrame Z string :=
  Obj (index priced_frame) (columns priced_frame) (dtypes priced_frame) 0.

(** A table with the numeric columns but no furnishingstatus. *)
Definition ungrouped_header : list string :=
  ["price"; "area"; "bedrooms"; "bathrooms"; "stories"]%string.

Definition ungrouped_types : list dtype := [int64; float64; int64; int64; int64].

Definition ungrouped_records : list (list value) :=
  [[VInt 13300000; VFloat 7420; VInt 4; VInt 2; VInt 3];
   [VInt 12250000; VFloat 8960; VInt 4; VInt 4; VInt 4]].

Definition ungrouped_frame : frame Z string :=
  Frame [0; 1]%Z ungrouped_header ungrouped_types ungrouped_records.

Definition ungrouped_world : world :=
  World [ungrouped_records] [] [] no_files [] false.

Definition ungrouped_df : DataFrame Z string :=
  Obj [0; 1]%Z ungrouped_header ungrouped_types 0.

Definition world_without_status : world :=
  World [] [] [] (housing ungrouped_header ungrouped_types ungrouped_records) [] false.

(** Housing.csv is there and empty. *)
Definition world_with_empty_file : world :=
  World [] [] []
        (fun path => if String.eqb path "Housing.csv"
                     then Some (Unreadable (EmptyDataError "No columns to parse from file"))
                     else None)
        [] false.

End Script.

(* ================================================================= *)
(** * Proofs *)

Unset Implicit Arguments.

Section Proofs.

Context {P : platform}.

(** ** Lists, masks and positions *)

Lemma select_map_filter {A} (p : A -> bool) (xs : list A) :
  select (map p xs) xs = filter p xs.
Proof.
  induction xs as [|x xs IH]; simpl; [reflexivity|].
  destruct (p x); rewrite IH; reflexivity.
Qed.

Lemma filter_all {A} (p : A -> bool) (xs : list A) :
  forallb (fun b => b) (map p xs) = true -> filter p xs = xs.
Proof.
  induction xs as [|x xs IH]; simpl; [reflexivity|].
  destruct (p x); simpl; [|discriminate].
  intros H; rewrite IH by assumption; reflexivity.
Qed.

Lemma select_combine {A B} (m : list bool) (xs : list A) (ys : list B) :
  combine (select m xs) (select m ys) = select m (combine xs ys).
Proof.
  revert xs ys; induction m as [|b m IH]; intros xs ys; [reflexivity|].
  destruct xs as [|x xs]; destruct ys as [|y ys]; simpl.
  - reflexivity.
  - reflexivity.
  - destruct b; [|destruct (select m xs); reflexivity].
    destruct (select m xs); reflexivity.
  - destruct b; simpl; rewrite IH; reflexivity.
Qed.

Lemma select_mask_combine {A B} (p : B -> bool) (xs : list A) (ys : list B) :
  select (map p ys) (combine xs ys) = filter (fun q => p (snd q)) (combine xs ys).
Proof.
  revert xs; induction ys as [|y ys IH]; intros xs.
  - destruct xs; reflexivity.
  - destruct xs as [|x xs]; simpl; [reflexivity|].
    destruct (p y); rewrite IH; reflexivity.
Qed.

Lemma filter_subseq {A} (p : A -> bool) (xs : list A) :
  subseq (filter p xs) xs.
Proof.
  induction xs as [|x xs IH]; simpl; [constructor|].
  destruct (p x); constructor; assumption.
Qed.

Lemma filter_length_le {A} (p : A -> bool) (xs : list A) :
  length (filter p xs) <= length xs.
Proof.
  induction xs as [|x xs IH]; simpl; [lia|].
  destruct (p x); simpl; lia.
Qed.

Lemma positions_from_spec c hdr i j :
  In j (positions_from c hdr i) <->
  i <= j /\ nth_error hdr (j - i) = Some c.
Proof.
  revert i; induction hdr as [|h hdr IH]; intros i; simpl.
  - split; [tauto|]. intros [_ H]. destruct (j - i); discriminate.
  - destruct (String.eqb_spec c h) as [->|Hne]; simpl; rewrite ?IH.
    + split.
      * intros [<-|[Hle Hn]].
        -- rewrite Nat.sub_diag. split; [lia|reflexivity].
        -- split; [lia|]. replace (j - i) with (S (j - S i)) by lia. exact Hn.
      * intros [Hle Hn]. destruct (Nat.eq_dec i j) as [->|Hij]; [left; reflexivity|].
        right. split; [lia|].
        replace (j - i) with (S (j - S i)) in Hn by lia. exact Hn.
    + split.
      * intros [Hle Hn]. split; [lia|].
        replace (j - i) with (S (j - S i)) by lia. exact Hn.
      * intros [Hle Hn]. destruct (Nat.eq_dec i j) as [->|Hij].
        -- rewrite Nat.sub_diag in Hn. simpl in Hn. congruence.
        -- split; [lia|].
           replace (j - i) with (S (j - S i)) in Hn by lia. exact Hn.
Qed.

Lemma positions_spec c hdr j :
  In j (positions c hdr) <-> nth_error hdr j = Some c.
Proof.
  unfold positions. rewrite positions_from_spec, Nat.sub_0_r.
  split; [tauto|]. intros H; split; [lia|exact H].
Qed.

Lemma indexer_positions_spec hdr subset j :
  In j (indexer_positions (get_indexer_for hdr subset)) <->
  exists c, In c subset /\ nth_error hdr j = Some c.
Proof.
  unfold indexer_positions, get_indexer_for.
  rewrite in_concat. split.
  - intros (l & Hl & Hj).
    rewrite map_map in Hl. simpl in Hl.
    apply in_map_iff in Hl. destruct Hl as (c & <- & Hc).
    exists c. split; [exact Hc|]. apply positions_spec. exact Hj.
  - intros (c & Hc & Hn). exists (positions c hdr). split.
    + rewrite map_map. simpl. apply in_map_iff. exists c. split; [reflexivity|exact Hc].
    + apply positions_spec. exact Hn.
Qed.

(** The positional test of [dropna] decides [complete_on]. *)
Lemma keeps_spec subset hdr r :
  keeps subset hdr r = true <-> complete_on subset hdr r.
Proof.
  unfold keeps, row_complete, take, complete_on.
  rewrite forallb_forall. split.
  - intros H j c Hn Hc.
    assert (Hin : In (cell r j) (map (cell r) (indexer_positions (get_indexer_for hdr subset)))).
    { apply in_map. apply indexer_positions_spec. exists c. split; assumption. }
    specialize (H _ Hin). unfold notna in H.
    destruct (isna (cell r j)); [discriminate|reflexivity].
  - intros H v Hv. apply in_map_iff in Hv. destruct Hv as (j & <- & Hj).
    apply indexer_positions_spec in Hj. destruct Hj as (c & Hc & Hn).
    unfold notna. rewrite (H j c Hn Hc). reflexivity.
Qed.

Lemma missing_labels_nil hdr subset :
  has_columns hdr subset -> missing_labels (get_indexer_for hdr subset) = [].
Proof.
  unfold has_columns, missing_labels, get_indexer_for. intros H.
  induction subset as [|c subset IH]; simpl; [reflexivity|].
  assert (Hc : In c hdr) by (apply H; left; reflexivity).
  apply In_nth_error in Hc. destruct Hc as [j Hj].
  apply positions_spec in Hj.
  destruct (positions c hdr) as [|p ps] eqn:E; [contradiction|].
  apply IH. intros c' Hc'. apply H. right. exact Hc'.
Qed.

(** ** Objects and the heap *)

Lemma read_new {I C} (w : world) (f : frame I C) l :
  read (set_log l (set_heap (heap w ++ [data f]) w))
       (Obj (index f) (columns f) (dtypes f) (length (heap w)))
  = Some (Frame (index f) (columns f) (dtypes f) (data f)).
Proof.
  unfold read, read_heap; simpl.
  rewrite nth_error_app2 by lia. rewrite Nat.sub_diag. reflexivity.
Qed.

Lemma read_set_log {I C} (w : world) (df : DataFrame I C) l :
  read (set_log l w) df = read w df.
Proof. reflexivity. Qed.

Lemma read_heap_preserved {I C} (w w' : world) (df : DataFrame I C) f :
  heap_preserved w w' -> read w df = Some f -> read w' df = Some f.
Proof.
  unfold read, read_heap, heap_preserved. intros Hp.
  destruct (nth_error (heap w) (buf df)) as [b|] eqn:E; [|discriminate].
  assert (Hlt : buf df < length (heap w)).
  { apply nth_error_Some. congruence. }
  rewrite (Hp _ Hlt), E. auto.
Qed.

Lemma heap_preserved_app (w w' : world) bs :
  heap w' = heap w ++ bs -> heap_preserved w w'.
Proof.
  intros E a Ha. rewrite E. apply nth_error_app1. exact Ha.
Qed.

Lemma store_at_other a b h a' :
  a' <> a -> nth_error (store_at a b h) a' = nth_error h a'.
Proof.
  revert a a'; induction h as [|x h IH]; intros a a' Hne; simpl.
  - destruct a; reflexivity.
  - destruct a as [|a]; destruct a' as [|a']; simpl; try reflexivity.
    + congruence.
    + apply IH. congruence.
Qed.

(** ** pandas operations, one call at a time *)

Lemma snapshot_run {I C} (df : DataFrame I C) (w : world) f :
  read w df = Some f -> snapshot df w = Ok f w.
Proof. unfold snapshot. intros ->. reflexivity. Qed.

Lemma copy_run {I C} (df : DataFrame I C) (w : world) f :
  read w df = Some f ->
  copy df w = Ok (Obj (index f) (columns f) (dtypes f) (length (heap w)))
                 (set_heap (heap w ++ [data f]) w).
Proof.
  intros Hr. unfold copy, method, bind. rewrite (snapshot_run _ _ _ Hr). reflexivity.
Qed.

Lemma dropna_run {I} subset (df : DataFrame I string) (w : world) f :
  read w df = Some f ->
  has_columns (columns f) subset ->
  let mask := map (keeps subset (columns f)) (data f) in
  dropna subset df w =
    if forallb (fun b => b) mask
    then Ok df w
    else Ok (Obj (select mask (index f)) (columns f) (dtypes f) (length (heap w)))
            (set_heap (heap w ++ [select mask (data f)]) w).
Proof.
  intros Hr Hc mask. unfold dropna, bind.
  rewrite (snapshot_run _ _ _ Hr), (missing_labels_nil _ _ Hc).
  change (map (row_complete (indexer_positions (get_indexer_for (columns f) subset)))
              (data f)) with mask.
  destruct (forallb (fun b => b) mask); [|reflexivity].
  unfold ret. destruct df; reflexivity.
Qed.

(** ** The cleaning step *)

(** What one call of [make_clean_view] does, in full: the result is a new
    object whose buffer is new, holding the rows [dropna] keeps; the world
    gains at most two buffers and two log records. *)
Lemma make_clean_view_run (df : DataFrame Z string) (w : world) f :
  read w df = Some f ->
  has_columns (columns f) (NUMERIC_COLS ++ [GROUP_COL]) ->
  exists df' w' f' extra,
    make_clean_view df w = Ok df' w' /\
    read w' df' = Some f' /\
    columns f' = columns f /\
    dtypes f' = dtypes f /\
    data f' = filter (keeps (NUMERIC_COLS ++ [GROUP_COL]) (columns f)) (data f) /\
    labelled f' =
      filter (fun q => keeps (NUMERIC_COLS ++ [GROUP_COL]) (columns f) (snd q))
             (labelled f) /\
    heap w' = heap w ++ extra /\
    length (heap w) <= buf df' /\
    S (buf df') = length (heap w') /\
    log w' = log w ++
      [Rec INFO "Creating cleaned view for EDA (dropping rows with key missing values)" [];
       Rec INFO "Cleaned view shape: %s rows, %s columns"
           [AInt (Z.of_nat (length (index f'))); AInt (Z.of_nat (length (columns f)))]] /\
    stdout w' = stdout w /\ files w' = files w /\
    figures w' = figures w /\ shown w' = shown w.
Proof.
  intros Hr Hc.
  set (six := NUMERIC_COLS ++ [GROUP_COL]) in *.
  set (w0 := set_log (log w ++ [Rec INFO "Creating cleaned view for EDA (dropping rows with key missing values)" []]) w).
  assert (Hr0 : read w0 df = Some f) by exact Hr.
  pose proof (dropna_run six df w0 f Hr0 Hc) as Hd. cbv zeta in Hd.
  unfold make_clean_view, bind, LOG_info. fold six. fold w0. rewrite Hd. clear Hd.
  destruct (forallb (fun b => b) (map (keeps six (columns f)) (data f))) eqn:Eall.
  - rewrite (copy_run df w0 f Hr0). unfold ret. simpl.
    eexists; eexists; exists f; exists [data f].
    split; [reflexivity|].
    split; [destruct f; apply (read_new w (Frame _ _ _ _))|].
    rewrite (filter_all _ _ Eall).
    repeat match goal with |- _ /\ _ => split end; simpl; try reflexivity;
      try (rewrite ?length_app; simpl; lia);
      try (rewrite <- ?app_assoc; reflexivity).
    unfold labelled. symmetry. apply forallb_filter_id.
    apply forallb_forall. intros [i r] Hin. simpl.
    apply in_combine_r in Hin.
    rewrite forallb_forall in Eall. apply Eall. apply in_map. exact Hin.
  - set (mask := map (keeps six (columns f)) (data f)) in *.
    set (g := Frame (select mask (index f)) (columns f) (dtypes f) (select mask (data f))).
    set (w1 := set_heap (heap w0 ++ [select mask (data f)]) w0).
    assert (Hr1 : read w1 (Obj (select mask (index f)) (columns f) (dtypes f) (length (heap w0))) = Some g).
    { apply (read_new w0 g (log w0)). }
    rewrite (copy_run _ w1 g Hr1). unfold ret. simpl.
    eexists; eexists; exists g; exists [select mask (data f); select mask (data f)].
    split; [reflexivity|].
    split.
    { unfold read, read_heap; simpl. rewrite nth_error_app2 by (rewrite length_app; simpl; lia).
      rewrite length_app. simpl.
      replace (length (heap w) + 1 - (length (heap w) + 1)) with 0 by lia.
      reflexivity. }
    unfold g; simpl. unfold mask. rewrite select_map_filter.
    repeat match goal with |- _ /\ _ => split end; simpl; try reflexivity;
      try (rewrite ?length_app; simpl; lia);
      try (rewrite <- ?app_assoc; reflexivity).
    unfold labelled; simpl. rewrite <- select_map_filter.
    rewrite select_combine. apply select_mask_combine.
Qed.

Lemma heap_preserved_length (w w' : world) :
  heap_preserved w w' -> length (heap w) <= length (heap w').
Proof.
  intros H. destruct (le_lt_dec (length (heap w)) (length (heap w'))) as [|Hlt]; [assumption|].
  exfalso.
  assert (Ha : length (heap w') < length (heap w)) by lia.
  specialize (H _ Ha).
  assert (Hn : nth_error (heap w') (length (heap w')) = None) by (apply nth_error_None; lia).
  rewrite Hn in H. symmetry in H. apply nth_error_None in H. lia.
Qed.

Lemma read_overwrite_other {I C J D} (w : world) (d : DataFrame I C)
      (d' : DataFrame J D) (b : block) :
  buf d <> buf d' -> read (overwrite d' b w) d = read w d.
Proof.
  intros Hne. unfold read, read_heap, overwrite; simpl.
  rewrite store_at_other by exact Hne. reflexivity.
Qed.

Lemma sample_has_columns :
  has_columns (columns sample_frame) (NUMERIC_COLS ++ [GROUP_COL]).
Proof.
  intros c Hc. simpl in Hc. simpl.
  repeat (destruct Hc as [<-|Hc]; [tauto|]). contradiction.
Qed.

(** ** Claims about the cleaning step *)

(** C1.  For a table that has the six columns, [make_clean_view] returns
    exactly the rows of the input in which price, area, bedrooms,
    bathrooms, stories and furnishingstatus are all non-null: the result's
    rows are the input's rows filtered by that test, the test looks at no
    other column (two rows that agree on the six columns are both kept or
    both dropped), and there are no more rows than in the input. *)
Theorem make_clean_view_keeps_complete_rows
        (df : DataFrame Z string) (w : world) (f : frame Z string) :
  read w df = Some f ->
  has_columns (columns f) (NUMERIC_COLS ++ [GROUP_COL]) ->
  exists df' w' f',
    make_clean_view df w = Ok df' w' /\
    read w' df' = Some f' /\
    data f' = filter (keeps (NUMERIC_COLS ++ [GROUP_COL]) (columns f)) (data f) /\
    (forall r, In r (data f') <->
               In r (data f) /\
               complete_on (NUMERIC_COLS ++ [GROUP_COL]) (columns f) r) /\
    (forall r r',
        (forall j c, nth_error (columns f) j = Some c ->
                     In c (NUMERIC_COLS ++ [GROUP_COL]) -> cell r j = cell r' j) ->
        keeps (NUMERIC_COLS ++ [GROUP_COL]) (columns f) r =
        keeps (NUMERIC_COLS ++ [GROUP_COL]) (columns f) r') /\
    length (data f') <= length (data f).
Proof.
  intros Hr Hc.
  destruct (make_clean_view_run df w f Hr Hc)
    as (df' & w' & f' & extra & Hrun & Hr' & _ & _ & Hdata & _).
  exists df', w', f'.
  split; [exact Hrun|]. split; [exact Hr'|]. split; [exact Hdata|].
  split; [|split].
  - intros r. rewrite Hdata, filter_In, keeps_spec. reflexivity.
  - intros r r' Hagree.
    destruct (keeps _ _ r) eqn:E1; destruct (keeps _ _ r') eqn:E2; try reflexivity.
    + apply keeps_spec in E1.
      assert (E : keeps (NUMERIC_COLS ++ [GROUP_COL]) (columns f) r' = true).
      { apply keeps_spec. intros j c Hj Hin. rewrite <- (Hagree j c Hj Hin).
        apply (E1 j c Hj Hin). }
      congruence.
    + apply keeps_spec in E2.
      assert (E : keeps (NUMERIC_COLS ++ [GROUP_COL]) (columns f) r = true).
      { apply keeps_spec. intros j c Hj Hin. rewrite (Hagree j c Hj Hin).
        apply (E2 j c Hj Hin). }
      congruence.
  - rewrite Hdata. apply filter_length_le.
Qed.

(** C9.  The cleaned view has the columns of the input, same names in the
    same order (and the same dtypes), and its labelled rows are the kept
    labelled rows of the input in their original order. *)
Theorem make_clean_view_same_columns_same_order
        (df : DataFrame Z string) (w : world) (f : frame Z string) :
  read w df = Some f ->
  has_columns (columns f) (NUMERIC_COLS ++ [GROUP_COL]) ->
  exists df' w' f',
    make_clean_view df w = Ok df' w' /\
    read w' df' = Some f' /\
    columns f' = columns f /\
    ob_columns df' = ob_columns df /\
    dtypes f' = dtypes f /\
    subseq (data f') (data f) /\
    subseq (labelled f') (labelled f) /\
    labelled f' =
      filter (fun q => keeps (NUMERIC_COLS ++ [GROUP_COL]) (columns f) (snd q))
             (labelled f).
Proof.
  intros Hr Hc.
  destruct (make_clean_view_run df w f Hr Hc)
    as (df' & w' & f' & extra & Hrun & Hr' & Hcols & Hty & Hdata & Hlab & _).
  exists df', w', f'.
  repeat match goal with |- _ /\ _ => split end; try assumption.
  - unfold read, read_heap in Hr, Hr'.
    destruct (nth_error (heap w) (buf df)); [|discriminate].
    destruct (nth_error (heap w') (buf df')); [|discriminate].
    injection Hr as <-. injection Hr' as <-. exact Hcols.
  - rewrite Hdata. apply filter_subseq.
  - rewrite Hlab. apply filter_subseq.
Qed.

(** C5.  [make_clean_view] does not mutate its input: after the call every
    object that was live before, the input among them, has the content it
    had; the result lives in a buffer that did not exist before, so
    overwriting the result's buffer afterwards leaves every such object,
    the input among them, as it was. *)
Theorem make_clean_view_leaves_input_alone
        (df : DataFrame Z string) (w : world) (f : frame Z string) :
  read w df = Some f ->
  has_columns (columns f) (NUMERIC_COLS ++ [GROUP_COL]) ->
  exists df' w',
    make_clean_view df w = Ok df' w' /\
    read w' df = Some f /\
    heap_preserved w w' /\
    ~ live w df' /\ live w' df' /\ buf df' <> buf df /\
    (forall (I C : Type) (d : DataFrame I C) (g : frame I C) (b : block),
        read w d = Some g ->
        read w' d = Some g /\ read (overwrite df' b w') d = Some g).
Proof.
  intros Hr Hc.
  destruct (make_clean_view_run df w f Hr Hc)
    as (df' & w' & f' & extra & Hrun & Hr' & _ & _ & _ & _ & Hheap & Hfresh & Hlast & _).
  assert (Hp : heap_preserved w w') by (eapply heap_preserved_app; exact Hheap).
  assert (Hlive : forall (I C : Type) (d : DataFrame I C) g,
             read w d = Some g -> buf d < length (heap w)).
  { intros I C d g Hd. unfold read, read_heap in Hd.
    destruct (nth_error (heap w) (buf d)) eqn:E; [|discriminate].
    apply nth_error_Some. congruence. }
  exists df', w'.
  split; [exact Hrun|].
  split; [eapply read_heap_preserved; eassumption|].
  split; [exact Hp|].
  split; [unfold live; lia|].
  split; [unfold live; lia|].
  split; [specialize (Hlive _ _ df f Hr); lia|].
  intros I C d g b Hd.
  assert (Hd' : read w' d = Some g) by (eapply read_heap_preserved; eassumption).
  split; [exact Hd'|].
  rewrite read_overwrite_other; [exact Hd'|].
  specialize (Hlive _ _ d g Hd). lia.
Qed.

(** ** Reasoning about runs *)

Lemma heap_preserved_refl (w : world) : heap_preserved w w.
Proof. intros a _. reflexivity. Qed.

Lemma heap_preserved_trans (w1 w2 w3 : world) :
  heap_preserved w1 w2 -> heap_preserved w2 w3 -> heap_preserved w1 w3.
Proof.
  intros H12 H23 a Ha.
  pose proof (heap_preserved_length _ _ H12) as Hl.
  rewrite H23 by lia. apply H12. exact Ha.
Qed.

Lemma only_logged_refl (w : world) : only_logged w w.
Proof.
  unfold only_logged. split; [apply heap_preserved_refl|].
  split; [exists []; rewrite app_nil_r; reflexivity|]. tauto.
Qed.

Lemma only_logged_trans (w1 w2 w3 : world) :
  only_logged w1 w2 -> only_logged w2 w3 -> only_logged w1 w3.
Proof.
  intros (Hh1 & [l1 Hl1] & Ho1 & Hf1 & Hg1 & Hs1) (Hh2 & [l2 Hl2] & Ho2 & Hf2 & Hg2 & Hs2).
  unfold only_logged. split; [eapply heap_preserved_trans; eassumption|].
  split; [exists (l1 ++ l2); rewrite Hl2, Hl1, app_assoc; reflexivity|].
  repeat split; congruence.
Qed.

Lemma only_logged_log (w : world) (l : list record) :
  only_logged w (set_log (log w ++ l) w).
Proof.
  unfold only_logged; simpl. split; [intros a _; reflexivity|].
  split; [exists l; reflexivity|]. tauto.
Qed.

Lemma only_logged_alloc (w : world) (b : block) :
  only_logged w (set_heap (heap w ++ [b]) w).
Proof.
  unfold only_logged; simpl.
  split; [apply (heap_preserved_app w _ [b]); reflexivity|].
  split; [exists []; rewrite app_nil_r; reflexivity|]. tauto.
Qed.

Lemma logs_only_ret {A} (a : A) : logs_only (ret a).
Proof. intros w. apply only_logged_refl. Qed.

Lemma logs_only_raise {A} (e : exn) : logs_only (@raise A e).
Proof. intros w. apply only_logged_refl. Qed.

Lemma logs_only_bind {A B} (m : M A) (k : A -> M B) :
  logs_only m -> (forall a, logs_only (k a)) -> logs_only (bind m k).
Proof.
  intros Hm Hk w. unfold bind. specialize (Hm w).
  destruct (m w) as [a w'|e w']; simpl in *; [|exact Hm].
  eapply only_logged_trans; [exact Hm|apply Hk].
Qed.

Lemma logs_only_LOG_info (m : string) (a : list arg) : logs_only (LOG_info m a).
Proof. intros w. apply only_logged_log. Qed.

Lemma logs_only_LOG_debug (m : string) (a : list arg) : logs_only (LOG_debug m a).
Proof. intros w. apply only_logged_log. Qed.

Lemma logs_only_snapshot {I C} (df : DataFrame I C) : logs_only (snapshot df).
Proof.
  intros w. unfold snapshot. destruct (read w df); apply only_logged_refl.
Qed.

Lemma logs_only_new_frame {I C} (f : frame I C) : logs_only (new_frame f).
Proof. intros w. apply only_logged_alloc. Qed.

Lemma logs_only_method {I C J D} (op : frame I C -> exn + frame J D)
      (df : DataFrame I C) : logs_only (method op df).
Proof.
  unfold method. apply logs_only_bind; [apply logs_only_snapshot|].
  intros f. destruct (op f); [apply logs_only_raise|apply logs_only_new_frame].
Qed.

Lemma logs_only_dropna {I} (subset : list string) (df : DataFrame I string) :
  logs_only (dropna subset df).
Proof.
  unfold dropna. apply logs_only_bind; [apply logs_only_snapshot|].
  intros f. destruct (missing_labels _); [|apply logs_only_raise].
  destruct (forallb _ _); [apply logs_only_ret|apply logs_only_new_frame].
Qed.

Lemma logs_only_pd_DataFrame cols : logs_only (pd_DataFrame cols).
Proof.
  unfold pd_DataFrame.
  destruct (same_lengths cols); [apply logs_only_new_frame|apply logs_only_raise].
Qed.

Create HintDb logs.

#[local] Hint Resolve logs_only_ret logs_only_raise logs_only_LOG_info
  logs_only_LOG_debug logs_only_snapshot logs_only_new_frame logs_only_method
  logs_only_dropna logs_only_pd_DataFrame : logs.

Ltac logs_only_steps :=
  repeat first
    [ solve [auto with logs]
    | apply logs_only_bind; [|intros ?] ].

Lemma logs_only_build_data_dictionary df : logs_only (build_data_dictionary df).
Proof.
  unfold build_data_dictionary, table_of. logs_only_steps.
Qed.

Lemma logs_only_make_clean_view df : logs_only (make_clean_view df).
Proof.
  unfold make_clean_view, copy. logs_only_steps.
Qed.

Lemma logs_only_descriptive_stats df : logs_only (descriptive_stats df).
Proof.
  unfold descriptive_stats, getitem, describe, T, groupby_agg, stats_of, grouped_of.
  logs_only_steps.
Qed.

Lemma logs_only_correlation_matrix df : logs_only (correlation_matrix df).
Proof.
  unfold correlation_matrix, getitem, corr, stats_of. logs_only_steps.
Qed.

Lemma logs_only_check_quality df : logs_only (check_quality df).
Proof.
  unfold check_quality, getitem, describe, stats_of. logs_only_steps.
Qed.

Lemma wp_bind {A B} (m : M A) (k : A -> M B) w Q E :
  wp m w (fun a w1 => wp (k a) w1 Q E) E -> wp (bind m k) w Q E.
Proof. unfold wp, bind. destruct (m w); auto. Qed.

Lemma wp_ret {A} (a : A) w (Q : A -> world -> Prop) E :
  Q a w -> wp (ret a) w Q E.
Proof. auto. Qed.

Lemma wp_raise {A} (e : exn) w (Q : A -> world -> Prop) (E : exn -> world -> Prop) :
  E e w -> wp (raise e) w Q E.
Proof. auto. Qed.

Lemma wp_LOG_info m a w (Q : unit -> world -> Prop) E :
  Q tt (set_log (log w ++ [Rec INFO m a]) w) -> wp (LOG_info m a) w Q E.
Proof. auto. Qed.

Lemma wp_LOG_debug m a w (Q : unit -> world -> Prop) E :
  Q tt (set_log (log w ++ [Rec DEBUG m a]) w) -> wp (LOG_debug m a) w Q E.
Proof. auto. Qed.

Lemma wp_snapshot {I C} (df : DataFrame I C) f w (Q : frame I C -> world -> Prop) E :
  read w df = Some f -> Q f w -> wp (snapshot df) w Q E.
Proof. intros Hr HQ. unfold wp, snapshot. rewrite Hr. exact HQ. Qed.

Lemma wp_new_frame {I C} (g : frame I C) w (Q : DataFrame I C -> world -> Prop) E :
  Q (Obj (index g) (columns g) (dtypes g) (length (heap w)))
    (set_heap (heap w ++ [data g]) w) ->
  wp (new_frame g) w Q E.
Proof. auto. Qed.

Lemma wp_method {I C J D} (op : frame I C -> exn + frame J D)
      (df : DataFrame I C) f w (Q : DataFrame J D -> world -> Prop) E :
  read w df = Some f ->
  match op f with
  | inl e => E e w
  | inr g => Q (Obj (index g) (columns g) (dtypes g) (length (heap w)))
               (set_heap (heap w ++ [data g]) w)
  end ->
  wp (method op df) w Q E.
Proof.
  intros Hr H. unfold method. apply wp_bind. eapply wp_snapshot; [exact Hr|].
  destruct (op f); [apply wp_raise|apply wp_new_frame]; exact H.
Qed.

Lemma wp_ok {A} (m : M A) w (Q : A -> world -> Prop) :
  wp m w Q (fun _ _ => False) -> exists a w', m w = Ok a w' /\ Q a w'.
Proof.
  unfold wp. destruct (m w) as [a w'|e w']; [|contradiction].
  intros H. exists a, w'. split; [reflexivity|exact H].
Qed.

Lemma read_heap_new {I C} (h : list block) (g : frame I C) :
  read_heap (h ++ [data g]) (Obj (index g) (columns g) (dtypes g) (length h)) = Some g.
Proof.
  unfold read_heap; simpl. rewrite nth_error_app2 by lia.
  rewrite Nat.sub_diag. destruct g; reflexivity.
Qed.

Lemma read_heap_app {I C} (h bs : list block) (d : DataFrame I C) g :
  read_heap h d = Some g -> read_heap (h ++ bs) d = Some g.
Proof.
  unfold read_heap. destruct (nth_error h (buf d)) eqn:E; [|discriminate].
  intros H. rewrite nth_error_app1 by (apply nth_error_Some; congruence).
  rewrite E. exact H.
Qed.

Create HintDb heap.

#[local] Hint Resolve read_heap_new read_heap_app : heap.

Lemma agrees_of_wp {I C} (m : M (DataFrame I C)) w (r : exn + frame I C) :
  logs_only m ->
  wp m w (fun d w' => match r with inr g => read w' d = Some g | inl _ => False end)
         (fun e _ => match r with inl e' => e = e' | inr _ => False end) ->
  agrees (m w) w r.
Proof.
  intros Hl H. split; [apply Hl|].
  unfold wp in H. destruct (m w); destruct r; assumption.
Qed.

(** ** The data dictionary *)

Lemma nth_error_combine_seq {A} (l : list A) (s j : nat) (c : A) :
  nth_error l j = Some c ->
  nth_error (combine (seq s (length l)) l) j = Some (s + j, c).
Proof.
  revert s j; induction l as [|x l IH]; intros s j H.
  - destruct j; discriminate.
  - destruct j as [|j]; simpl in *.
    + injection H as ->. rewrite Nat.add_0_r. reflexivity.
    + rewrite (IH (S s) j H). f_equal. f_equal. lia.
Qed.

Lemma nth_error_enumerate {A} (l : list A) (j : nat) (c : A) :
  nth_error l j = Some c -> nth_error (enumerate l) j = Some (j, c).
Proof. intros H. unfold enumerate. apply (nth_error_combine_seq l 0 j c H). Qed.

Lemma length_enumerate {A} (l : list A) : length (enumerate l) = length l.
Proof.
  unfold enumerate. rewrite length_combine, length_seq. apply Nat.min_id.
Qed.

Lemma map_snd_enumerate {A} (l : list A) : map snd (enumerate l) = l.
Proof.
  unfold enumerate. generalize 0. induction l as [|x l IH]; intros s; simpl.
  - reflexivity.
  - rewrite IH. reflexivity.
Qed.

Lemma nth_error_map_seq {B} (g : nat -> B) (n j : nat) :
  j < n -> nth_error (map g (seq 0 n)) j = Some (g j).
Proof.
  intros H. rewrite nth_error_map.
  rewrite (nth_error_nth' (seq 0 n) 0) by (rewrite length_seq; exact H).
  rewrite seq_nth by exact H. reflexivity.
Qed.

Lemma nth_map_of_nth_error {A B} (g : A -> B) (l : list A) (j : nat) (c : A) (d : B) :
  nth_error l j = Some c -> nth j (map g l) d = g c.
Proof.
  intros H. apply nth_error_nth. rewrite nth_error_map, H. reflexivity.
Qed.

Lemma length_isna_sum {I C} (f : frame I C) :
  length (isna_sum f) = length (columns f).
Proof. unfold isna_sum. rewrite length_map. apply length_enumerate. Qed.

Lemma length_isna_mean {I C} (f : frame I C) :
  length (isna_mean f) = length (columns f).
Proof. unfold isna_mean. rewrite length_map. apply length_enumerate. Qed.

Lemma length_frame_dtypes {I C} (f : frame I C) :
  length (frame_dtypes f) = length (columns f).
Proof. unfold frame_dtypes. rewrite length_map. apply length_seq. Qed.

Lemma map_fst_isna_sum {I C} (f : frame I C) :
  map fst (isna_sum f) = columns f.
Proof.
  unfold isna_sum. rewrite map_map. simpl. apply map_snd_enumerate.
Qed.

(** The counts of nulls per column, position by position. *)
Lemma map_combine_seq {A B} (g : nat * A -> B) (l : list A) (d : A) (s : nat) :
  map g (combine (seq s (length l)) l) =
  map (fun j => g (j, nth (j - s) l d)) (seq s (length l)).
Proof.
  revert s. induction l as [|a l IH]; intros s; [reflexivity|].
  cbn [length seq combine map]. rewrite Nat.sub_diag. cbn [nth].
  f_equal. rewrite IH. apply map_ext_in.
  intros j Hj. apply in_seq in Hj.
  replace (j - s) with (S (j - S s)) by lia. reflexivity.
Qed.

Lemma count_na_filter (col : list value) :
  count_na col = length (filter isna col).
Proof.
  unfold count_na, count_true.
  induction col as [|v col IH]; [reflexivity|].
  cbn [map filter]. destruct (isna v); cbn [length]; rewrite IH; reflexivity.
Qed.

Lemma isna_sum_by_position {I} (f : frame I string) :
  isna_sum f =
  map (fun j => (nth j (columns f) EmptyString,
                 Z.of_nat (length (filter isna (map (fun r => nth j r VNone) (data f))))))
      (seq 0 (length (columns f))).
Proof.
  unfold isna_sum, enumerate.
  rewrite (map_combine_seq _ (columns f) EmptyString 0).
  apply map_ext. intros j. cbn [fst snd].
  rewrite Nat.sub_0_r, count_na_filter. reflexivity.
Qed.

(** A count as a float64. *)
Lemma nat2F_of_uint63 (n : nat) :
  nat2F n = PrimFloat.of_uint63 (Uint63.of_Z (Z.of_nat n)).
Proof.
  unfold nat2F, Z2F.
  destruct (Z.ltb_spec (Z.of_nat n) 0) as [H|H]; [lia|reflexivity].
Qed.

(** The run of [build_data_dictionary]. *)
Lemma build_data_dictionary_agrees (df : DataFrame Z string) (w : world) f :
  read w df = Some f ->
  agrees (build_data_dictionary df w) w (inr (data_dictionary_of f)).
Proof.
  intros Hr. apply agrees_of_wp; [apply logs_only_build_data_dictionary|].
  unfold build_data_dictionary.
  apply wp_bind, wp_LOG_info.
  apply wp_bind. eapply wp_snapshot; [exact Hr|].
  apply wp_bind. unfold pd_DataFrame.
  replace (same_lengths _) with true.
  2:{ unfold same_lengths. cbn [forallb snd].
      rewrite !length_map, length_isna_sum, length_isna_mean, length_frame_dtypes.
      rewrite Nat.eqb_refl. reflexivity. }
  apply wp_new_frame.
  apply wp_bind. unfold table_of. apply wp_bind.
  eapply wp_snapshot; [apply read_heap_new|].
  apply wp_ret, wp_bind, wp_LOG_debug, wp_ret.
  apply read_heap_new.
Qed.

(** With no row, the share of nulls is 0/0. *)
Lemma missing_pct_no_rows :
  PrimFloat.is_nan (np_round 2 (nat2F 0 / nat2F 0 * 100)%float) = true.
Proof. vm_compute. reflexivity. Qed.

(** *** Rounding to an integer *)

Lemma nearest_even_quotient_nearest (m d : Z) :
  (0 < d)%Z -> nearest_integer m d (nearest_even_quotient m d).
Proof.
  intros Hd. unfold nearest_integer, nearest_even_quotient.
  pose proof (Z.div_mod m d ltac:(lia)) as Hm.
  pose proof (Z.mod_pos_bound m d Hd) as Hb.
  set (q := (m / d)%Z) in *. set (r := (m mod d)%Z) in *.
  cbv zeta.
  destruct (Z.compare_spec (2 * r) d) as [E|E|E].
  - destruct (Z.even q) eqn:Eq.
    + split; [lia|]. intros _. exact Eq.
    + split; [lia|]. intros _. rewrite Z.even_add, Eq. reflexivity.
  - split; lia.
  - split; lia.
Qed.

(** There is one nearest integer, so rounding has one result. *)
Lemma nearest_integer_unique (m d k1 k2 : Z) :
  (0 < d)%Z -> nearest_integer m d k1 -> nearest_integer m d k2 -> k1 = k2.
Proof.
  intros Hd [H1 E1] [H2 E2].
  assert (Hk : k1 = k2 \/ k1 = (k2 + 1)%Z \/ k2 = (k1 + 1)%Z) by nia.
  destruct Hk as [Hk|[Hk|Hk]]; [exact Hk| |]; exfalso.
  - subst k1. assert (A : Z.abs (2 * (m - (k2 + 1) * d)) = d) by nia.
    assert (B : Z.abs (2 * (m - k2 * d)) = d) by nia.
    specialize (E1 A). specialize (E2 B).
    rewrite Z.even_add, E2 in E1. discriminate.
  - subst k2. assert (A : Z.abs (2 * (m - (k1 + 1) * d)) = d) by nia.
    assert (B : Z.abs (2 * (m - k1 * d)) = d) by nia.
    specialize (E1 B). specialize (E2 A).
    rewrite Z.even_add, E1 in E2. discriminate.
Qed.

Lemma rounded_to_integer_unique (t r1 r2 : float) :
  rounded_to_integer t r1 -> rounded_to_integer t r2 -> r1 = r2.
Proof.
  unfold rounded_to_integer.
  destruct (Prim2SF t) as [s|s| |s m e]; try congruence.
  destruct (0 <=? e)%Z eqn:E; [congruence|].
  intros (k1 & N1 & ->) (k2 & N2 & ->).
  apply Z.leb_gt in E.
  rewrite (nearest_integer_unique (Zpos m) (2 ^ (- e)) k1 k2); try assumption.
  - reflexivity.
  - apply Z.pow_pos_nonneg; lia.
Qed.

(** [np.rint] rounds to the nearest integer, ties to even. *)
Lemma rint_rounded (t : float) : rounded_to_integer t (rint t).
Proof.
  unfold rounded_to_integer, rint.
  destruct (Prim2SF t) as [s|s| |s m e]; try reflexivity.
  destruct (0 <=? e)%Z eqn:E; [reflexivity|].
  apply Z.leb_gt in E.
  exists (nearest_even_quotient (Zpos m) (2 ^ (- e))).
  split; [|reflexivity].
  apply nearest_even_quotient_nearest. apply Z.pow_pos_nonneg; lia.
Qed.

(** [np.round(x, 2)]: the hundredths of [x] rounded to an integer, over
    100. *)
Lemma np_round_2 (x : float) :
  exists r, rounded_to_integer (x * 100)%float r /\ np_round 2 x = (r / 100)%float.
Proof.
  exists (rint (x * 100)%float). split; [apply rint_rounded|reflexivity].
Qed.

(** C2.  [build_data_dictionary] returns a table with the four columns
    column, dtype, missing_count, missing_pct and exactly one row per input
    column, in order: row [j] names column [j]; its missing_count is the
    number of null cells among the cells at position [j] of the rows; and
    its missing_pct is [r / 100], where [r] is the float64 quotient of
    missing_count by the number of rows, times 100, times 100 again,
    rounded to the nearest integer (ties to even): the percentage rounded
    to 2 decimals.  With no row the quotient is 0/0: every missing_pct is
    NaN and every missing_count is 0; nothing is raised, the division is
    not guarded. *)
Theorem build_data_dictionary_one_row_per_column
        (df : DataFrame Z string) (w : world) (f : frame Z string) :
  read w df = Some f ->
  exists d w' g,
    build_data_dictionary df w = Ok d w' /\
    read w' d = Some g /\
    columns g = ["column"; "dtype"; "missing_count"; "missing_pct"]%string /\
    length (data g) = length (columns f) /\
    (forall j c, nth_error (columns f) j = Some c ->
       let missing_count :=
         Z.of_nat (length (filter isna (map (fun r => nth j r VNone) (data f)))) in
       let row_count := Z.of_nat (length (data f)) in
       exists r,
         rounded_to_integer
           (PrimFloat.of_uint63 (Uint63.of_Z missing_count)
            / PrimFloat.of_uint63 (Uint63.of_Z row_count) * 100 * 100)%float r /\
         nth_error (data g) j =
         Some [VStr c; VStr (dtype_str (nth j (dtypes f) object_));
               VInt missing_count; VFloat (r / 100)%float]) /\
    (data f = [] ->
     forall r, In r (data g) ->
       nth 2 r VNone = VInt 0 /\
       exists x, nth 3 r VNone = VFloat x /\ PrimFloat.is_nan x = true).
Proof.
  intros Hr.
  pose proof (build_data_dictionary_agrees df w f Hr) as [_ H].
  destruct (build_data_dictionary df w) as [d w'|e w'] eqn:Erun; [|contradiction].
  exists d, w', (data_dictionary_of f).
  split; [reflexivity|]. split; [exact H|]. split; [reflexivity|].
  assert (Hrow : forall j c, nth_error (columns f) j = Some c ->
       nth_error (data (data_dictionary_of f)) j =
       Some [VStr c; VStr (dtype_str (nth j (dtypes f) object_));
             VInt (Z.of_nat (count_na (column_at (data f) j)));
             VFloat (np_round 2 (Z2F (Z.of_nat (count_na (column_at (data f) j)))
                                 / Z2F (Z.of_nat (length (data f))) * 100)%float)]).
  { intros j c Hj.
    assert (Hlt : j < length (columns f)) by (apply nth_error_Some; congruence).
    unfold data_dictionary_of, frame_of_columns. cbn [data snd fst].
    rewrite length_map. rewrite nth_error_map_seq by exact Hlt.
    cbn [map snd fst]. f_equal.
    rewrite (nth_map_of_nth_error VStr (columns f) j c VNone Hj).
    rewrite (nth_map_of_nth_error (fun t => VStr (dtype_str t)) (frame_dtypes f) j
               (nth j (dtypes f) object_) VNone)
      by (unfold frame_dtypes;
          apply (nth_error_map_seq (fun i => nth i (dtypes f) object_)); exact Hlt).
    rewrite (nth_map_of_nth_error VInt (map snd (isna_sum f)) j
               (Z.of_nat (count_na (column_at (data f) j))) VNone)
      by (unfold isna_sum; rewrite !nth_error_map, (nth_error_enumerate _ _ _ Hj);
          reflexivity).
    rewrite (nth_map_of_nth_error VFloat
               (map (np_round 2) (map (fun x => (x * 100)%float) (map snd (isna_mean f)))) j
               (np_round 2 (Z2F (Z.of_nat (count_na (column_at (data f) j)))
                            / Z2F (Z.of_nat (length (data f))) * 100)%float) VNone)
      by (unfold isna_mean; rewrite !nth_error_map, (nth_error_enumerate _ _ _ Hj);
          reflexivity).
    reflexivity. }
  split.
  - unfold data_dictionary_of, frame_of_columns. cbn [data snd fst].
    rewrite !length_map, length_seq. reflexivity.
  - split.
    { intros j c Hj. cbv zeta.
      destruct (np_round_2 (Z2F (Z.of_nat (count_na (column_at (data f) j)))
                            / Z2F (Z.of_nat (length (data f))) * 100)%float)
        as (r & Hround & Hpct).
      exists r.
      change (map (fun r0 : list value => nth j r0 VNone) (data f))
        with (column_at (data f) j).
      rewrite <- count_na_filter, <- !nat2F_of_uint63.
      split; [exact Hround|].
      rewrite (Hrow j c Hj), Hpct. reflexivity. }
    intros Hempty r Hin.
    apply In_nth_error in Hin. destruct Hin as [j Hj].
    assert (Hlt : j < length (columns f)).
    { assert (Hl : length (data (data_dictionary_of f)) = length (columns f)).
      { unfold data_dictionary_of, frame_of_columns. cbn [data snd fst].
        rewrite !length_map, length_seq. reflexivity. }
      rewrite <- Hl. apply nth_error_Some. congruence. }
    destruct (nth_error (columns f) j) as [c|] eqn:Ec;
      [|apply nth_error_None in Ec; lia].
    rewrite (Hrow j c Ec) in Hj. injection Hj as <-.
    rewrite Hempty. cbn [column_at map count_na count_true filter length cell nth].
    split; [reflexivity|].
    eexists. split; [reflexivity|]. exact missing_pct_no_rows.
Qed.

(** ** Sorting *)

Section Sorting.
Context {A : Type} (le : A -> A -> bool).
Hypothesis le_total : forall a b, le a b = true \/ le b a = true.
Hypothesis le_trans : forall a b c, le a b = true -> le b c = true -> le a c = true.

Lemma insert_by_perm (x : A) (l : list A) :
  Permutation (insert_by le x l) (x :: l).
Proof.
  induction l as [|y l IH]; simpl; [reflexivity|].
  destruct (le x y); [reflexivity|].
  rewrite IH. apply perm_swap.
Qed.

Lemma isort_perm (l : list A) : Permutation (isort le l) l.
Proof.
  induction l as [|x l IH]; simpl; [reflexivity|].
  rewrite insert_by_perm. constructor. exact IH.
Qed.

Lemma insert_by_sorted (x : A) (l : list A) :
  StronglySorted (fun a b => le a b = true) l ->
  StronglySorted (fun a b => le a b = true) (insert_by le x l).
Proof.
  induction l as [|y l IH]; intros Hs; simpl.
  - constructor; constructor.
  - inversion Hs as [|? ? Hs' Hall]; subst.
    destruct (le x y) eqn:E.
    + constructor; [exact Hs|].
      constructor; [exact E|].
      eapply Forall_impl; [|exact Hall]. intros z Hz. eapply le_trans; eassumption.
    + constructor; [apply IH; exact Hs'|].
      assert (Hyx : le y x = true) by (destruct (le_total x y); congruence).
      eapply Permutation_Forall; [symmetry; apply insert_by_perm|].
      constructor; assumption.
Qed.

Lemma isort_sorted (l : list A) :
  StronglySorted (fun a b => le a b = true) (isort le l).
Proof.
  induction l as [|x l IH]; simpl; [constructor|].
  apply insert_by_sorted. exact IH.
Qed.

End Sorting.

Lemma StronglySorted_app_single {A} (R : A -> A -> Prop) (l : list A) (x : A) :
  StronglySorted R l -> Forall (fun y => R y x) l -> StronglySorted R (l ++ [x]).
Proof.
  induction l as [|y l IH]; intros Hs Hall; simpl.
  - constructor; constructor.
  - inversion Hs; subst. inversion Hall; subst.
    constructor; [apply IH; assumption|].
    apply Forall_app. split; [assumption|]. constructor; [assumption|constructor].
Qed.

Lemma StronglySorted_reversed {A} (R : A -> A -> Prop) (l : list A) :
  StronglySorted R l -> StronglySorted (fun a b => R b a) (rev l).
Proof.
  induction l as [|x l IH]; intros Hs; simpl; [constructor|].
  inversion Hs; subst.
  apply StronglySorted_app_single; [apply IH; assumption|].
  apply Forall_rev. assumption.
Qed.

Lemma sort_values_desc_perm {C} (s : list (C * Z)) :
  Permutation (sort_values_desc s) s.
Proof.
  unfold sort_values_desc.
  rewrite <- Permutation_rev, isort_perm, <- Permutation_rev. reflexivity.
Qed.

Lemma sort_values_desc_descending {C} (s : list (C * Z)) :
  descending (sort_values_desc s).
Proof.
  unfold descending, sort_values_desc.
  assert (H : StronglySorted (fun a b : C * Z => (snd b <=? snd a)%Z = true)
                (rev (isort (fun a b => (snd a <=? snd b)%Z) (rev s)))).
  { apply (StronglySorted_reversed (fun x y : C * Z => (snd x <=? snd y)%Z = true)).
    apply isort_sorted.
    - intros a b. rewrite !Z.leb_le. lia.
    - intros a b c. rewrite !Z.leb_le. lia. }
  induction H; constructor; [assumption|].
  eapply Forall_impl; [|eassumption]. intros b Hb. apply Z.leb_le. exact Hb.
Qed.

(** ** Duplicated rows *)

Lemma value_eqb_refl (v : value) : value_eqb v v = true.
Proof.
  unfold value_eqb. destruct (isna v) eqn:E; [reflexivity|].
  destruct v; simpl in *.
  - discriminate.
  - apply Bool.eqb_reflx.
  - apply Z.eqb_refl.
  - unfold PrimFloat.is_nan in E. destruct (PrimFloat.eqb x x); [reflexivity|discriminate].
  - apply String.eqb_refl.
Qed.

(** A row is identical to itself. *)
Lemma row_eqb_refl (r : list value) : row_eqb r r = true.
Proof.
  unfold row_eqb. rewrite Nat.eqb_refl. simpl.
  induction r as [|v r IH]; simpl; [reflexivity|].
  rewrite value_eqb_refl. exact IH.
Qed.

Lemma duplicated_from_length seen rows :
  length (duplicated_from seen rows) = length rows.
Proof.
  revert seen; induction rows as [|r rows IH]; intros seen; simpl; [reflexivity|].
  rewrite IH. reflexivity.
Qed.

(** Row [k] is marked exactly when it is identical to one of the rows
    before it (or to one seen earlier). *)
Lemma duplicated_from_nth seen rows k r :
  nth_error rows k = Some r ->
  nth_error (duplicated_from seen rows) k =
  Some (existsb (row_eqb r) (rev (firstn k rows) ++ seen)).
Proof.
  revert seen k; induction rows as [|r0 rows IH]; intros seen k H.
  - destruct k; discriminate.
  - destruct k as [|k]; simpl in *.
    + injection H as ->. reflexivity.
    + rewrite (IH (r0 :: seen) k H). rewrite <- app_assoc. reflexivity.
Qed.

Lemma existsb_earlier (r : list value) (rows : list (list value)) (k : nat) :
  existsb (row_eqb r) (rev (firstn k rows) ++ []) = true <->
  exists i ri, i < k /\ nth_error rows i = Some ri /\ row_eqb r ri = true.
Proof.
  rewrite app_nil_r, existsb_exists. split.
  - intros (ri & Hin & He). apply in_rev in Hin.
    apply In_nth_error in Hin. destruct Hin as [i Hi].
    assert (Hlt : i < length (firstn k rows)) by (apply nth_error_Some; congruence).
    rewrite length_firstn in Hlt.
    exists i, ri. split; [lia|]. split; [|exact He].
    rewrite nth_error_firstn in Hi.
    destruct (Nat.ltb_spec i k); [exact Hi|lia].
  - intros (i & ri & Hlt & Hi & He). exists ri. split; [|exact He].
    apply in_rev. rewrite rev_involutive.
    apply nth_error_In with (n := i). rewrite nth_error_firstn.
    destruct (Nat.ltb_spec i k); [exact Hi|lia].
Qed.

Lemma count_true_single (bs : list bool) (j : nat) :
  nth_error bs j = Some true ->
  (forall k, k <> j -> nth_error bs k <> Some true) ->
  count_true bs = 1.
Proof.
  unfold count_true. revert j; induction bs as [|b bs IH]; intros j Hj Hother.
  - destruct j; discriminate.
  - destruct j as [|j]; simpl in *.
    + injection Hj as ->. simpl. f_equal.
      assert (Hnone : forall k, nth_error bs k <> Some true).
      { intros k. apply (Hother (S k)). discriminate. }
      clear -Hnone. induction bs as [|b bs IH]; [reflexivity|].
      destruct b; simpl.
      * exfalso. apply (Hnone 0). reflexivity.
      * apply IH. intros k. apply (Hnone (S k)).
    + destruct b.
      * exfalso. apply (Hother 0); [discriminate|reflexivity].
      * apply (IH j Hj). intros k Hk. apply (Hother (S k)). congruence.
Qed.

(** With exactly one pair of identical rows, exactly one row is marked. *)
Lemma duplicated_one_pair {I C} (f : frame I C) (i j : nat) (ri rj : list value) :
  columns f <> [] ->
  i < j ->
  nth_error (data f) i = Some ri ->
  nth_error (data f) j = Some rj ->
  identical rj ri ->
  (forall a b ra rb,
      a <> b ->
      nth_error (data f) a = Some ra -> nth_error (data f) b = Some rb ->
      identical ra rb -> (a = i /\ b = j) \/ (a = j /\ b = i)) ->
  count_true (duplicated f) = 1.
Proof.
  intros Hcols Hij Hi Hj Hid Honly.
  unfold duplicated. destruct (columns f) as [|c cs]; [congruence|].
  apply (count_true_single _ j).
  - rewrite (duplicated_from_nth [] (data f) j rj Hj). f_equal.
    apply existsb_earlier. exists i, ri. repeat split; assumption.
  - intros k Hk Hmark.
    assert (Hlt : k < length (data f)).
    { rewrite <- (duplicated_from_length [] (data f)).
      apply nth_error_Some. congruence. }
    destruct (nth_error (data f) k) as [rk|] eqn:Ek;
      [|apply nth_error_None in Ek; lia].
    rewrite (duplicated_from_nth [] (data f) k rk Ek) in Hmark.
    injection Hmark as Hmark. apply existsb_earlier in Hmark.
    destruct Hmark as (a & ra & Hak & Ha & He).
    destruct (Honly k a rk ra) as [[-> ->]|[-> ->]]; try assumption; lia.
Qed.

(** ** The quality check *)

Lemma final_world_bind_ok {A B} (m : M A) (k : A -> M B) w a w1 :
  m w = Ok a w1 -> final_world (bind m k w) = final_world (k a w1).
Proof. intros H. unfold bind. rewrite H. reflexivity. Qed.

(** C6.  When the table (with at least one column) contains exactly one
    pair of identical rows, [check_quality] counts one duplicate row and
    logs that count: every other pair of distinct rows being different,
    [df.duplicated().sum()] is 1, and the third record the call appends to
    the log is "Duplicate rows detected" with 1.  (The record before it
    carries the counts of missing values, in the order the platform's
    sort leaves them.) *)
Theorem check_quality_one_duplicate
        (df : DataFrame Z string) (w : world) (f : frame Z string)
        (i j : nat) (ri rj : list value) :
  read w df = Some f ->
  columns f <> [] ->
  i < j ->
  nth_error (data f) i = Some ri ->
  nth_error (data f) j = Some rj ->
  identical rj ri ->
  (forall a b ra rb,
      a <> b ->
      nth_error (data f) a = Some ra -> nth_error (data f) b = Some rb ->
      identical ra rb -> (a = i /\ b = j) \/ (a = j /\ b = i)) ->
  count_true (duplicated f) = 1 /\
  exists counts later,
    log (final_world (check_quality df w)) =
    log w ++
      [Rec INFO "Checking missing values per column" [];
       Rec DEBUG "\n%s" [ACounts counts];
       Rec INFO "Duplicate rows detected: %s" [AInt 1]] ++ later.
Proof.
  intros Hr Hcols Hij Hi Hj Hid Honly.
  pose proof (duplicated_one_pair f i j ri rj Hcols Hij Hi Hj Hid Honly) as Hcount.
  split; [exact Hcount|].
  unfold check_quality.
  erewrite final_world_bind_ok by reflexivity.
  erewrite final_world_bind_ok by (apply snapshot_run; exact Hr).
  erewrite final_world_bind_ok by reflexivity.
  erewrite final_world_bind_ok by reflexivity.
  rewrite Hcount.
  match goal with
  | |- context [final_world (?m ?w0)] =>
      assert (Hm : logs_only m)
        by (unfold getitem, describe, stats_of; logs_only_steps);
      destruct (Hm w0) as (_ & [later Hl] & _)
  end.
  exists (sort_counts (isna_sum f)), later.
  rewrite Hl. cbn [log set_log]. rewrite <- !app_assoc. reflexivity.
Qed.

(** ** Selecting the numeric columns *)

Lemma col_pos_label (c : string) (hdr : list string) :
  positions c hdr = [col_pos c hdr] -> nth_error hdr (col_pos c hdr) = Some c.
Proof.
  intros H. apply positions_spec. rewrite H. left. reflexivity.
Qed.

Lemma get_indexer_for_once (hdr labels : list string) :
  (forall c, In c labels -> positions c hdr = [col_pos c hdr]) ->
  get_indexer_for hdr labels = map (fun c => (c, [col_pos c hdr])) labels.
Proof.
  intros H. unfold get_indexer_for. apply map_ext_in.
  intros c Hc. rewrite (H c Hc). reflexivity.
Qed.

Lemma missing_labels_once (hdr labels : list string) :
  missing_labels (map (fun c => (c, [col_pos c hdr])) labels) = [].
Proof.
  unfold missing_labels. induction labels as [|c labels IH]; simpl; [reflexivity|].
  exact IH.
Qed.

Lemma indexer_positions_once (hdr labels : list string) :
  indexer_positions (map (fun c => (c, [col_pos c hdr])) labels) =
  map (fun c => col_pos c hdr) labels.
Proof.
  unfold indexer_positions. induction labels as [|c labels IH]; simpl; [reflexivity|].
  rewrite IH. reflexivity.
Qed.

Lemma selected_once (hdr labels : list string) :
  selected (map (fun c => (c, [col_pos c hdr])) labels) =
  map (fun c => (c, col_pos c hdr)) labels.
Proof.
  unfold selected. induction labels as [|c labels IH]; simpl; [reflexivity|].
  rewrite IH. reflexivity.
Qed.

(** [df[labels]] when each label names exactly one column. *)
Lemma getitem_frame_once {I} (labels : list string) (f : frame I string) :
  (forall c, In c labels -> positions c (columns f) = [col_pos c (columns f)]) ->
  getitem_frame labels f =
  inr (Frame (index f) labels
             (map (fun c => nth (col_pos c (columns f)) (dtypes f) object_) labels)
             (map (take (map (fun c => col_pos c (columns f)) labels)) (data f))).
Proof.
  intros H. unfold getitem_frame.
  rewrite (get_indexer_for_once _ _ H), missing_labels_once, indexer_positions_once.
  rewrite !map_map. f_equal. f_equal.
  rewrite <- (map_id labels) at 2. apply map_ext_in.
  intros c Hc. apply nth_error_nth. apply col_pos_label. apply H. exact Hc.
Qed.

Lemma column_at_take (idx : list nat) (rows : list (list value)) (k j : nat) :
  nth_error idx k = Some j ->
  column_at (map (take idx) rows) k = column_at rows j.
Proof.
  intros H. unfold column_at, take, cell. rewrite map_map.
  apply map_ext. intros r.
  rewrite (nth_error_nth _ _ VNone
             (eq_trans (nth_error_map (fun i => nth i r VNone) k idx)
                       (f_equal (option_map _) H))).
  reflexivity.
Qed.

(** The summary [check_quality] and [descriptive_stats] describe, for a
    table with the numeric schema: the eight statistics of each of the
    five numeric columns. *)
Lemma summary_of_schema (f : frame Z string) :
  numeric_schema f ->
  summary_of f =
  inr (Frame numeric_stat_names NUMERIC_COLS
             [float64; float64; float64; float64; float64]
             (transpose 8
                (map (fun c => describe_numeric_1d
                                 (column_at (data f) (col_pos c (columns f))))
                     NUMERIC_COLS))).
Proof.
  intros Hs. unfold summary_of.
  rewrite getitem_frame_once by (intros c Hc; apply (Hs c Hc)).
  assert (Hn : forall c, In c NUMERIC_COLS ->
             is_numeric_dtype (nth (col_pos c (columns f)) (dtypes f) object_) = true)
    by (intros c Hc; apply (Hs c Hc)).
  unfold describe_frame, enumerate, NUMERIC_COLS.
  cbn [columns length seq combine dtypes map filter fst snd nth data].
  rewrite !Hn by (simpl; tauto).
  cbn [map fst snd length numeric_stat_names].
  f_equal. f_equal.
  set (idx := [col_pos "price" (columns f); col_pos "area" (columns f);
               col_pos "bedrooms" (columns f); col_pos "bathrooms" (columns f);
               col_pos "stories" (columns f)]).
  rewrite (column_at_take idx (data f) 0 _ eq_refl).
  rewrite (column_at_take idx (data f) 1 _ eq_refl).
  rewrite (column_at_take idx (data f) 2 _ eq_refl).
  rewrite (column_at_take idx (data f) 3 _ eq_refl).
  rewrite (column_at_take idx (data f) 4 _ eq_refl).
  reflexivity.
Qed.

Lemma summary_columns (cols : list (list value)) (k : nat) (col : list value) :
  nth_error cols k = Some col -> length col = 8 ->
  column_at (transpose 8 cols) k = col.
Proof.
  intros Hk Hlen. unfold transpose, column_at. rewrite map_map.
  unfold cell. cbn [seq map].
  rewrite !(nth_map_of_nth_error _ cols k col VNone Hk).
  destruct col as [|v0 [|v1 [|v2 [|v3 [|v4 [|v5 [|v6 [|v7 [|v8 col]]]]]]]]];
    try discriminate Hlen.
  reflexivity.
Qed.

(** A column that occurs once is at its position. *)
Lemma col_pos_unique (c : string) (hdr : list string) (j : nat) :
  positions c hdr = [col_pos c hdr] ->
  nth_error hdr j = Some c -> j = col_pos c hdr.
Proof.
  intros Hp Hj. apply positions_spec in Hj. rewrite Hp in Hj.
  destruct Hj as [<-|[]]. reflexivity.
Qed.

(** The run of [check_quality] when the summary can be computed: five
    log records, nothing returned. *)
Lemma check_quality_run (df : DataFrame Z string) (w : world) f s :
  read w df = Some f ->
  summary_of f = inr s ->
  exists w',
    check_quality df w = Ok tt w' /\
    log w' = log w ++
      [Rec INFO "Checking missing values per column" [];
       Rec DEBUG "\n%s" [ACounts (sort_counts (isna_sum f))];
       Rec INFO "Duplicate rows detected: %s"
           [AInt (Z.of_nat (count_true (duplicated f)))];
       Rec INFO "Basic sanity check for numeric columns" [];
       Rec DEBUG "\n%s" [AStats s]].
Proof.
  intros Hr Hs.
  assert (H : wp (check_quality df) w
                 (fun a w' => a = tt /\
                    log w' = log w ++
                      [Rec INFO "Checking missing values per column" [];
                       Rec DEBUG "\n%s" [ACounts (sort_counts (isna_sum f))];
                       Rec INFO "Duplicate rows detected: %s"
                           [AInt (Z.of_nat (count_true (duplicated f)))];
                       Rec INFO "Basic sanity check for numeric columns" [];
                       Rec DEBUG "\n%s" [AStats s]])
                 (fun _ _ => False)).
  { unfold check_quality.
    apply wp_bind, wp_LOG_info.
    apply wp_bind. eapply wp_snapshot; [exact Hr|].
    apply wp_bind, wp_LOG_debug.
    apply wp_bind, wp_LOG_info.
    apply wp_bind, wp_LOG_info.
    apply wp_bind. unfold getitem. eapply wp_method; [exact Hr|].
    unfold summary_of in Hs.
    destruct (getitem_frame NUMERIC_COLS f) as [e|g]; [discriminate|].
    apply wp_bind. unfold describe. eapply wp_method; [apply read_heap_new|].
    rewrite Hs.
    apply wp_bind. unfold stats_of. apply wp_bind.
    eapply wp_snapshot; [apply read_heap_new|].
    apply wp_ret, wp_LOG_debug.
    split; [reflexivity|].
    cbn [log set_log set_heap]. rewrite <- !app_assoc. reflexivity. }
  apply wp_ok in H. destruct H as (a & w' & Hrun & -> & Hlog).
  exists w'. split; assumption.
Qed.


Lemma sample_numeric_schema : numeric_schema sample_frame.
Proof.
  intros c Hc. simpl in Hc.
  repeat (destruct Hc as [<-|Hc]; [split; vm_compute; reflexivity|]).
  contradiction.
Qed.

(** ** Equality of cells *)

Lemma SFcompare_Eq_sym (x y : spec_float) :
  SFcompare x y = Some Eq -> SFcompare y x = Some Eq.
Proof.
  destruct x as [sx|sx| |sx mx ex]; destruct y as [sy|sy| |sy my ey];
    simpl; intros H; try discriminate H; try reflexivity;
    try (destruct sx; discriminate H); try (destruct sy; discriminate H);
    try (destruct sx, sy; (discriminate H || reflexivity)).
  assert (Hs : sx = sy) by (destruct sx, sy; (reflexivity || discriminate H)).
  subst sy.
  assert (He : (ex ?= ey)%Z = Eq).
  { destruct sx; destruct (ex ?= ey)%Z; (reflexivity || discriminate H). }
  rewrite He in H. apply Z.compare_eq in He. subst ey.
  assert (Hm : Pos.compare mx my = Eq).
  { change (Pos.compare mx my) with (PosDef.Pos.compare_cont Eq mx my).
    destruct sx; destruct (PosDef.Pos.compare_cont Eq mx my);
      (reflexivity || discriminate H). }
  apply Pos.compare_eq in Hm. subst my.
  rewrite Z.compare_refl.
  change (PosDef.Pos.compare_cont Eq mx mx) with (Pos.compare mx mx).
  rewrite Pos.compare_refl. destruct sx; reflexivity.
Qed.

Lemma float_eqb_sym (x y : float) : PrimFloat.eqb x y = PrimFloat.eqb y x.
Proof.
  rewrite !FloatAxioms.eqb_spec. unfold SFeqb.
  destruct (SFcompare (Prim2SF x) (Prim2SF y)) as [[| |]|] eqn:E1.
  - rewrite (SFcompare_Eq_sym _ _ E1). reflexivity.
  - destruct (SFcompare (Prim2SF y) (Prim2SF x)) as [[| |]|] eqn:E2; try reflexivity.
    rewrite (SFcompare_Eq_sym _ _ E2) in E1. discriminate.
  - destruct (SFcompare (Prim2SF y) (Prim2SF x)) as [[| |]|] eqn:E2; try reflexivity.
    rewrite (SFcompare_Eq_sym _ _ E2) in E1. discriminate.
  - destruct (SFcompare (Prim2SF y) (Prim2SF x)) as [[| |]|] eqn:E2; try reflexivity.
    rewrite (SFcompare_Eq_sym _ _ E2) in E1. discriminate.
Qed.

Lemma value_eqb_sym (a b : value) : value_eqb a b = value_eqb b a.
Proof.
  unfold value_eqb.
  destruct (isna a) eqn:Ea; destruct (isna b) eqn:Eb; try reflexivity.
  destruct a, b; simpl; try reflexivity;
    try apply float_eqb_sym.
  - destruct b0, b; reflexivity.
  - apply Z.eqb_sym.
  - apply String.eqb_sym.
Qed.

(** ** Distinct values *)

Lemma distinct_by_perm {A} (eqb : A -> A -> bool) (l l' : list A) :
  (forall a b, eqb a b = eqb b a) ->
  Permutation l l' -> distinct_by eqb l -> distinct_by eqb l'.
Proof.
  intros Hsym Hp. induction Hp as [|x l l' Hp IH|x y l|l l' l'' Hp1 IH1 Hp2 IH2]; intros Hd.
  - constructor.
  - inversion Hd as [|? ? Hx Hl]; subst. constructor; [|apply IH; exact Hl].
    intros z Hz. apply Hx. eapply Permutation_in; [symmetry; exact Hp|exact Hz].
  - inversion Hd as [|? ? Hy Hl]; subst. inversion Hl as [|? ? Hx Hl']; subst.
    constructor.
    + intros z [<-|Hz]; [rewrite Hsym; apply Hy; left; reflexivity|apply Hx; exact Hz].
    + constructor; [|exact Hl'].
      intros z Hz. apply Hy. right. exact Hz.
  - apply IH2, IH1, Hd.
Qed.

Lemma distinct_by_app_single {A} (eqb : A -> A -> bool) (l : list A) (x : A) :
  (forall a b, eqb a b = eqb b a) ->
  distinct_by eqb l -> (forall y, In y l -> eqb x y = false) ->
  distinct_by eqb (l ++ [x]).
Proof.
  intros Hsym Hd Hx.
  apply (distinct_by_perm eqb (x :: l)); [exact Hsym| |constructor; assumption].
  apply Permutation_cons_append.
Qed.

Lemma existsb_false {A} (p : A -> bool) (l : list A) :
  existsb p l = false -> forall y, In y l -> p y = false.
Proof.
  intros H y Hy. destruct (p y) eqn:E; [|reflexivity].
  rewrite <- H. symmetry. apply existsb_exists. exists y. split; assumption.
Qed.

Section Unique.
Context {A : Type} (eqb : A -> A -> bool).
Hypothesis eqb_refl : forall a, eqb a a = true.
Hypothesis eqb_sym : forall a b, eqb a b = eqb b a.

Lemma unique_by_in (seen l : list A) (k : A) :
  In k (unique_by eqb seen l) -> In k seen \/ In k l.
Proof.
  revert seen; induction l as [|x l IH]; intros seen H; simpl in H.
  - left. apply in_rev. exact H.
  - destruct (existsb (eqb x) seen).
    + destruct (IH _ H); [left|right; right]; assumption.
    + destruct (IH _ H) as [[<-|Hs]|Hl]; [right; left; reflexivity|left|right; right];
        assumption.
Qed.

Lemma unique_by_seen (seen l : list A) (k : A) :
  In k seen -> In k (unique_by eqb seen l).
Proof.
  revert seen; induction l as [|x l IH]; intros seen H; simpl.
  - apply in_rev. rewrite rev_involutive. exact H.
  - destruct (existsb (eqb x) seen); apply IH; [|right]; exact H.
Qed.

Lemma unique_by_covers (seen l : list A) (v : A) :
  In v l -> exists k, In k (unique_by eqb seen l) /\ eqb v k = true.
Proof.
  revert seen; induction l as [|x l IH]; intros seen H; [contradiction|].
  simpl. destruct H as [->|H].
  - destruct (existsb (eqb v) seen) eqn:E.
    + apply existsb_exists in E. destruct E as (k & Hk & He).
      exists k. split; [apply unique_by_seen; exact Hk|exact He].
    + exists v. split; [apply unique_by_seen; left; reflexivity|apply eqb_refl].
  - destruct (existsb (eqb x) seen); apply IH; exact H.
Qed.

Lemma unique_by_distinct (seen l : list A) :
  distinct_by eqb (rev seen) -> distinct_by eqb (unique_by eqb seen l).
Proof.
  revert seen; induction l as [|x l IH]; intros seen H; simpl; [exact H|].
  destruct (existsb (eqb x) seen) eqn:E; [apply IH; exact H|].
  apply IH. simpl. apply distinct_by_app_single; [exact eqb_sym|exact H|].
  intros y Hy. apply (existsb_false _ _ E). apply in_rev. exact Hy.
Qed.

End Unique.

(** The group keys are the values present in the key column: each key is
    a non-null value of the column, each non-null value of the column is
    equal to a key, and no two keys are equal. *)
Lemma group_keys_spec (keycol : list value) :
  (forall k, In k (group_keys keycol) -> In k keycol /\ isna k = false) /\
  (forall v, In v keycol -> isna v = false ->
             exists k, In k (group_keys keycol) /\ value_eqb v k = true) /\
  distinct_by value_eqb (group_keys keycol).
Proof.
  unfold group_keys.
  pose proof (isort_perm value_leb (unique_by value_eqb [] (filter notna keycol))) as Hp.
  split; [|split].
  - intros k Hk. eapply Permutation_in in Hk; [|exact Hp].
    apply unique_by_in in Hk. destruct Hk as [[]|Hk].
    apply filter_In in Hk. destruct Hk as [Hin Hn]. split; [exact Hin|].
    unfold notna in Hn. destruct (isna k); [discriminate|reflexivity].
  - intros v Hv Hn.
    destruct (unique_by_covers value_eqb value_eqb_refl [] (filter notna keycol) v)
      as (k & Hk & He).
    { apply filter_In. split; [exact Hv|]. unfold notna. rewrite Hn. reflexivity. }
    exists k. split; [|exact He].
    eapply Permutation_in; [symmetry; exact Hp|exact Hk].
  - eapply distinct_by_perm; [exact value_eqb_sym|symmetry; exact Hp|].
    apply unique_by_distinct; [exact value_eqb_sym|constructor].
Qed.

(** ** Grouped statistics *)

Lemma sequence_err_inr {A} (l : list (exn + A)) (l' : list A) :
  sequence_err l = inr l' -> l = map inr l'.
Proof.
  revert l'; induction l as [|x l IH]; intros l' H; simpl in H.
  - injection H as <-. reflexivity.
  - destruct x as [e|a]; [discriminate|].
    destruct (sequence_err l) as [e|l'']; [discriminate|].
    injection H as <-. simpl. rewrite (IH l'' eq_refl). reflexivity.
Qed.

Lemma sequence_err_all {A} (l : list (exn + A)) :
  Forall (fun x => exists a, x = inr a) l -> exists l', sequence_err l = inr l'.
Proof.
  induction 1 as [|x l [a ->] _ [l' IH]]; simpl.
  - exists []. reflexivity.
  - rewrite IH. exists (a :: l'). reflexivity.
Qed.

Lemma nth_error_map_inr {A} (l : list A) (xs : list (exn + A)) (i : nat) (x : exn + A) :
  xs = map inr l -> nth_error xs i = Some x ->
  exists a, x = inr a /\ nth_error l i = Some a.
Proof.
  intros -> H. rewrite nth_error_map in H.
  destruct (nth_error l i) as [a|]; [|discriminate].
  injection H as <-. exists a. split; reflexivity.
Qed.

(** What a successful [groupby(...)[...].agg(...)] returned: one row per
    group key, and in each row, for each result column, the named
    reduction of the group's cells in the selected column. *)
Lemma groupby_agg_frame_inr {I} (by_ : string) (labels funcs : list string)
      (f : frame I string) (g : frame value (string * string)) :
  groupby_agg_frame by_ labels funcs f = inr g ->
  exists j,
    positions by_ (columns f) = [j] /\
    index g = group_keys (column_at (data f) j) /\
    length (data g) = length (index g) /\
    (forall a k q c name,
        nth_error (index g) a = Some k ->
        nth_error (columns g) q = Some (c, name) ->
        exists p fn dt,
          In p (positions c (columns f)) /\
          agg_named name = Some (fn, dt) /\
          fn (column_at (group_rows j k (data f)) p)
          = inr (cell (nth a (data g) []) q)).
Proof.
  unfold groupby_agg_frame. intros H.
  destruct (positions by_ (columns f)) as [|j [|j' js]] eqn:Epos; try discriminate.
  destruct (missing_labels (get_indexer_for (columns f) labels)) eqn:Emiss;
    [|discriminate].
  destruct (sequence_err (map _ funcs)) as [e|fns] eqn:Efns; [discriminate|].
  set (keys := group_keys (column_at (data f) j)) in *.
  set (plan := flat_map _ (selected _)) in *.
  destruct (sequence_err (map _ plan)) as [e|cols] eqn:Ecols; [discriminate|].
  injection H as <-. cbn [index columns data].
  exists j. split; [reflexivity|]. split; [reflexivity|].
  split; [unfold transpose; rewrite length_map, length_seq; reflexivity|].
  intros a k q c name Hk Hq.
  apply sequence_err_inr in Efns, Ecols.
  rewrite nth_error_map in Hq.
  destruct (nth_error plan q) as [[[c' p] [name' [fn dt]]]|] eqn:Eq; [|discriminate].
  simpl in Hq. injection Hq as -> ->.
  (* the plan entry pairs a selected column with a resolved reduction *)
  assert (Hin : In ((c, p), (name, (fn, dt))) plan) by (eapply nth_error_In; exact Eq).
  unfold plan in Hin. apply in_flat_map in Hin. destruct Hin as ([c0 p0] & Hsel & Hnf).
  apply in_map_iff in Hnf. destruct Hnf as ([n0 fd0] & Hpair & Hfn).
  injection Hpair as -> -> -> ->.
  unfold selected in Hsel. apply in_flat_map in Hsel.
  destruct Hsel as ([c1 ps] & Hix & Hp). cbn [fst snd] in Hp.
  apply in_map_iff in Hp. destruct Hp as (p1 & Hpair & Hp1). injection Hpair as -> ->.
  unfold get_indexer_for in Hix. apply in_map_iff in Hix.
  destruct Hix as (c2 & Hpair & _). injection Hpair as -> <-.
  assert (Hnamed : agg_named name = Some (fn, dt)).
  { assert (Hx : In (inr (name, (fn, dt)))
                    (map (fun n => match agg_named n with
                                   | Some fd => inr (n, fd)
                                   | None => inl (AttributeError n)
                                   end) funcs)).
    { rewrite Efns. apply in_map. exact Hfn. }
    apply in_map_iff in Hx. destruct Hx as (n & Hn & _).
    destruct (agg_named n) as [fd|] eqn:En; [|discriminate].
    injection Hn as Hn1 Hn2. subst. exact En. }
  exists p, fn, dt. split; [exact Hp1|]. split; [exact Hnamed|].
  (* the result column at [q] and its entry for key [a] *)
  assert (Hcol : nth_error (map (fun q0 => agg_column j keys (data f) (snd (fst q0))
                                             (fst (snd (snd q0)))) plan) q
                 = Some (agg_column j keys (data f) p fn)).
  { rewrite nth_error_map, Eq. reflexivity. }
  destruct (nth_error_map_inr _ _ _ _ Ecols Hcol) as (colq & Hagg & Hcolq).
  unfold agg_column in Hagg. apply sequence_err_inr in Hagg.
  assert (Hcell : nth_error (map (fun k0 => fn (column_at (group_rows j k0 (data f)) p)) keys) a
                  = Some (fn (column_at (group_rows j k (data f)) p))).
  { rewrite nth_error_map. fold keys in Hk. rewrite Hk. reflexivity. }
  destruct (nth_error_map_inr _ _ _ _ Hagg Hcell) as (v & Hv & Hva).
  rewrite Hv. f_equal.
  assert (Ha : a < length keys) by (apply nth_error_Some; fold keys in Hk; congruence).
  unfold transpose.
  rewrite (nth_error_nth _ _ [] (nth_error_map_seq (column_at cols) (length keys) a Ha)).
  unfold column_at, cell.
  rewrite (nth_map_of_nth_error (fun r : list value => nth a r VNone) cols q colq VNone Hcolq).
  symmetry. apply nth_error_nth. exact Hva.
Qed.

Ltac solve_read :=
  unfold read in *; cbn [heap set_heap set_log];
  repeat first [ apply read_heap_new | eassumption | apply read_heap_app ].

Lemma floats_of_numbers (how : string) (col : list value) :
  (forall v, In v col -> exists x, to_float v = Some x) ->
  exists xs, floats_of how col = inr xs.
Proof.
  intros H. unfold floats_of. apply sequence_err_all.
  apply Forall_forall. intros y Hy. apply in_map_iff in Hy.
  destruct Hy as (v & <- & Hv). apply filter_In in Hv.
  destruct (H v (proj1 Hv)) as [x ->]. exists x. reflexivity.
Qed.

Lemma agg_count_numbers : reduces_numbers agg_count.
Proof. intros col _. eexists. reflexivity. Qed.

Lemma agg_mean_numbers : reduces_numbers agg_mean.
Proof.
  intros col H. unfold agg_mean.
  match goal with |- context [floats_of ?h col] =>
      destruct (floats_of_numbers h col H) as [xs ->] end. eexists. reflexivity.
Qed.

Lemma agg_std_numbers : reduces_numbers agg_std.
Proof.
  intros col H. unfold agg_std.
  match goal with |- context [floats_of ?h col] =>
      destruct (floats_of_numbers h col H) as [xs ->] end. eexists. reflexivity.
Qed.

Lemma agg_min_numbers : reduces_numbers agg_min.
Proof.
  intros col H. unfold agg_min.
  destruct (all_ints (filter notna col)) as [[|z zs]|];
    try (eexists; reflexivity);
    match goal with |- context [floats_of ?h col] =>
      destruct (floats_of_numbers h col H) as [xs ->] end; eexists; reflexivity.
Qed.

Lemma agg_max_numbers : reduces_numbers agg_max.
Proof.
  intros col H. unfold agg_max.
  destruct (all_ints (filter notna col)) as [[|z zs]|];
    try (eexists; reflexivity);
    match goal with |- context [floats_of ?h col] =>
      destruct (floats_of_numbers h col H) as [xs ->] end; eexists; reflexivity.
Qed.

Lemma agg_column_numbers (j : nat) (keys : list value) (rows : list (list value))
      (p : nat) (fn : list value -> exn + value) :
  reduces_numbers fn ->
  (forall r, In r rows -> exists x, to_float (cell r p) = Some x) ->
  exists col, agg_column j keys rows p fn = inr col.
Proof.
  intros Hfn Hrows. unfold agg_column. apply sequence_err_all.
  apply Forall_forall. intros y Hy. apply in_map_iff in Hy.
  destruct Hy as (k & <- & _). apply Hfn.
  intros v Hv. unfold column_at in Hv. apply in_map_iff in Hv.
  destruct Hv as (r & <- & Hr). apply Hrows.
  unfold group_rows in Hr. apply filter_In in Hr. exact (proj1 Hr).
Qed.

(** With the schema in place and the dtypes respected, the grouped
    aggregation succeeds and has the 25 columns numeric column by
    statistic. *)
Lemma groupby_agg_frame_succeeds {I} (f : frame I string) :
  group_column f -> numeric_schema f -> dtypes_respected f ->
  exists g,
    groupby_agg_frame GROUP_COL NUMERIC_COLS
                      ["count"; "mean"; "std"; "min"; "max"]%string f = inr g /\
    columns g = grouped_columns.
Proof.
  intros Hg Hs Ht. unfold groupby_agg_frame. rewrite Hg.
  rewrite get_indexer_for_once by (intros c Hc; apply (Hs c Hc)).
  rewrite missing_labels_once, selected_once.
  assert (Hnum : forall c, In c NUMERIC_COLS ->
            forall r, In r (data f) ->
              exists x, to_float (cell r (col_pos c (columns f))) = Some x).
  { intros c Hc r Hr. apply Ht; [exact Hr|]. apply (Hs c Hc). }
  change (sequence_err
            (map (fun n => match agg_named n with
                           | Some fd => inr (n, fd)
                           | None => inl (AttributeError n)
                           end) ["count"; "mean"; "std"; "min"; "max"]%string))
    with (@inr exn _
            [("count"%string, (agg_count, fun _ : dtype => int64));
             ("mean"%string, (agg_mean, fun _ : dtype => float64));
             ("std"%string, (agg_std, fun _ : dtype => float64));
             ("min"%string, (agg_min, fun t : dtype => t));
             ("max"%string, (agg_max, fun t : dtype => t))]).
  cbv iota beta.
  set (keys := group_keys _).
  unfold NUMERIC_COLS in *. cbn [map flat_map app].
  match goal with
  | |- context [sequence_err ?l] =>
      destruct (sequence_err_all l) as [cols Hcols]
  end.
  { cbn [map fst snd].
    repeat (constructor;
            [apply agg_column_numbers;
             [first [exact agg_count_numbers | exact agg_mean_numbers
                    | exact agg_std_numbers | exact agg_min_numbers
                    | exact agg_max_numbers]
             |apply Hnum; simpl; tauto]|]).
    constructor. }
  rewrite Hcols. eexists. split; reflexivity.
Qed.

(** The run of [descriptive_stats]: what it returns is what
    [descriptive_stats_of] computes from the content of its input. *)
Lemma descriptive_stats_agrees (df : DataFrame Z string) (w : world) f :
  read w df = Some f ->
  agrees2 (descriptive_stats df w) w (descriptive_stats_of f).
Proof.
  intros Hr. split; [apply logs_only_descriptive_stats|].
  assert (H : wp (descriptive_stats df) w
                 (fun d w' => match descriptive_stats_of f with
                              | inr (g1, g2) =>
                                  read w' (fst d) = Some g1 /\ read w' (snd d) = Some g2
                              | inl _ => False
                              end)
                 (fun e _ => match descriptive_stats_of f with
                             | inl e' => e = e'
                             | inr _ => False
                             end)).
  { unfold descriptive_stats, descriptive_stats_of, summary_of.
    apply wp_bind, wp_LOG_info.
    apply wp_bind. unfold getitem. eapply wp_method; [exact Hr|].
    destruct (getitem_frame NUMERIC_COLS f) as [e|g0]; [reflexivity|].
    apply wp_bind. unfold describe. eapply wp_method; [apply read_heap_new|].
    destruct (describe_frame g0) as [e|d0]; [reflexivity|].
    apply wp_bind. unfold T. eapply wp_method; [apply read_heap_new|].
    cbv iota beta.
    apply wp_bind. unfold stats_of. apply wp_bind.
    eapply wp_snapshot; [apply read_heap_new|].
    apply wp_ret, wp_bind, wp_LOG_debug, wp_bind, wp_LOG_info.
    apply wp_bind. unfold groupby_agg. eapply wp_method; [solve_read|].
    destruct (groupby_agg_frame GROUP_COL NUMERIC_COLS
                ["count"; "mean"; "std"; "min"; "max"]%string f) as [e|g];
      [reflexivity|].
    apply wp_bind. unfold grouped_of. apply wp_bind.
    eapply wp_snapshot; [apply read_heap_new|].
    apply wp_ret, wp_bind, wp_LOG_debug, wp_ret.
    cbn [fst snd]. split; solve_read. }
  unfold wp in H.
  destruct (descriptive_stats df w) as [[d1 d2] w'|e w'];
    destruct (descriptive_stats_of f) as [e'|[g1 g2]]; exact H.
Qed.

Lemma cleaned_status_notna {I} (f : frame I string) (v : value) :
  cleaned f -> group_column f ->
  In v (column_at (data f) (col_pos GROUP_COL (columns f))) -> isna v = false.
Proof.
  intros Hc Hg Hv. unfold column_at in Hv. apply in_map_iff in Hv.
  destruct Hv as (r & <- & Hr).
  apply (Hc r Hr (col_pos GROUP_COL (columns f)) GROUP_COL).
  - apply col_pos_label. exact Hg.
  - apply in_or_app. right. left. reflexivity.
Qed.

Lemma filter_notna_all (col : list value) :
  (forall v, In v col -> isna v = false) -> filter notna col = col.
Proof.
  unfold notna. induction col as [|v col IH]; intros H; simpl; [reflexivity|].
  rewrite (H v (or_introl eq_refl)). simpl.
  rewrite IH by (intros v' Hv'; apply H; right; exact Hv'). reflexivity.
Qed.

(** In a cleaned table no cell of a numeric column is null. *)
Lemma cleaned_numeric_notna {I} (f : frame I string) (c : string) (v : value) :
  cleaned f -> numeric_schema f -> In c NUMERIC_COLS ->
  In v (column_at (data f) (col_pos c (columns f))) -> isna v = false.
Proof.
  intros Hc Hs Hin Hv. unfold column_at in Hv. apply in_map_iff in Hv.
  destruct Hv as (r & <- & Hr).
  apply (Hc r Hr (col_pos c (columns f)) c).
  - apply col_pos_label. apply (Hs c Hin).
  - apply in_or_app. left. exact Hin.
Qed.

(** *** The order of floats *)

Lemma SFleb_trans (x y z : spec_float) :
  SFleb x y = true -> SFleb y z = true -> SFleb x z = true.
Proof.
  unfold SFleb.
  destruct x as [sx|sx| |sx mx ex]; destruct y as [sy|sy| |sy my ey];
    destruct z as [sz|sz| |sz mz ez]; simpl;
    try discriminate; try reflexivity;
    try (destruct sx; simpl; try discriminate; try reflexivity);
    try (destruct sy; simpl; try discriminate; try reflexivity);
    try (destruct sz; simpl; try discriminate; try reflexivity);
    change (PosDef.Pos.compare_cont Eq) with Pos.compare;
    destruct (Z.compare_spec ex ey); destruct (Z.compare_spec ey ez);
    destruct (Z.compare_spec ex ez); try lia; simpl;
    try discriminate; try reflexivity; subst;
    destruct (Pos.compare_spec mx my); destruct (Pos.compare_spec my mz);
    destruct (Pos.compare_spec mx mz); try lia; simpl;
    try discriminate; try reflexivity.
Qed.

Lemma SFltb_false_leb (x y : spec_float) :
  x <> S754_nan -> y <> S754_nan -> SFltb y x = false -> SFleb x y = true.
Proof.
  unfold SFltb, SFleb. intros Hx Hy.
  destruct x as [sx|sx| |sx mx ex]; destruct y as [sy|sy| |sy my ey];
    try congruence; simpl;
    try (destruct sx; simpl; try discriminate; try reflexivity);
    try (destruct sy; simpl; try discriminate; try reflexivity);
    change (PosDef.Pos.compare_cont Eq) with Pos.compare;
    rewrite (Z.compare_antisym ex ey);
    destruct (Z.compare_spec ex ey); simpl; try discriminate; try reflexivity;
    rewrite (Pos.compare_antisym mx my);
    destruct (Pos.compare_spec mx my); simpl; try discriminate; try reflexivity.
Qed.

Lemma SFltb_leb (x y : spec_float) : SFltb x y = true -> SFleb x y = true.
Proof.
  unfold SFltb, SFleb.
  destruct (SFcompare x y) as [[| |]|]; try discriminate; reflexivity.
Qed.

Lemma SFleb_refl (x : spec_float) : x <> S754_nan -> SFleb x x = true.
Proof.
  unfold SFleb. intros Hx.
  destruct x as [sx|sx| |sx mx ex]; try congruence; simpl;
    try (destruct sx; reflexivity).
  change (PosDef.Pos.compare_cont Eq) with Pos.compare.
  destruct sx; rewrite Z.compare_refl, Pos.compare_refl; reflexivity.
Qed.

Lemma not_nan_SF (x : float) :
  PrimFloat.is_nan x = false -> Prim2SF x <> S754_nan.
Proof.
  unfold PrimFloat.is_nan. rewrite FloatAxioms.eqb_spec. intros H E.
  rewrite E in H. discriminate H.
Qed.

Lemma leb_trans (x y z : float) :
  PrimFloat.leb x y = true -> PrimFloat.leb y z = true -> PrimFloat.leb x z = true.
Proof. rewrite !FloatAxioms.leb_spec. apply SFleb_trans. Qed.

Lemma leb_refl (x : float) : PrimFloat.is_nan x = false -> PrimFloat.leb x x = true.
Proof.
  intros H. rewrite FloatAxioms.leb_spec. apply SFleb_refl, not_nan_SF, H.
Qed.

Lemma ltb_false_leb (x y : float) :
  PrimFloat.is_nan x = false -> PrimFloat.is_nan y = false ->
  PrimFloat.ltb y x = false -> PrimFloat.leb x y = true.
Proof.
  intros Hx Hy. rewrite FloatAxioms.ltb_spec, FloatAxioms.leb_spec.
  apply SFltb_false_leb; apply not_nan_SF; assumption.
Qed.

Lemma ltb_leb (x y : float) : PrimFloat.ltb x y = true -> PrimFloat.leb x y = true.
Proof. rewrite FloatAxioms.ltb_spec, FloatAxioms.leb_spec. apply SFltb_leb. Qed.

(** *** The least and the greatest of a group *)

(** The loop of [group_min_max] for the minimum ends on a member that no
    member is below. *)
Lemma fold_fmin (xs : list float) (m0 : float) :
  PrimFloat.is_nan m0 = false ->
  (forall x, In x xs -> PrimFloat.is_nan x = false) ->
  let m := fold_left (fun m y => if PrimFloat.ltb y m then y else m) xs m0 in
  (m = m0 \/ In m xs) /\ PrimFloat.leb m m0 = true /\
  forall x, In x xs -> PrimFloat.leb m x = true.
Proof.
  revert m0. induction xs as [|y xs IH]; intros m0 H0 Hxs; cbn [fold_left].
  - split; [left; reflexivity|]. split; [apply leb_refl; exact H0|intros x []].
  - assert (Hy : PrimFloat.is_nan y = false) by (apply Hxs; left; reflexivity).
    assert (Hrest : forall x, In x xs -> PrimFloat.is_nan x = false)
      by (intros x Hx; apply Hxs; right; exact Hx).
    destruct (PrimFloat.ltb y m0) eqn:E.
    + destruct (IH y Hy Hrest) as (Hm & Hle & Hall).
      split; [right; destruct Hm as [->|Hm]; [left; reflexivity|right; exact Hm]|].
      split; [eapply leb_trans; [exact Hle|apply ltb_leb; exact E]|].
      intros x [<-|Hx]; [exact Hle|apply Hall; exact Hx].
    + destruct (IH m0 H0 Hrest) as (Hm & Hle & Hall).
      split; [destruct Hm as [->|Hm]; [left; reflexivity|right; right; exact Hm]|].
      split; [exact Hle|].
      intros x [<-|Hx]; [|apply Hall; exact Hx].
      eapply leb_trans; [exact Hle|]. apply ltb_false_leb; assumption.
Qed.

Lemma fold_fmax (xs : list float) (m0 : float) :
  PrimFloat.is_nan m0 = false ->
  (forall x, In x xs -> PrimFloat.is_nan x = false) ->
  let m := fold_left (fun m y => if PrimFloat.ltb m y then y else m) xs m0 in
  (m = m0 \/ In m xs) /\ PrimFloat.leb m0 m = true /\
  forall x, In x xs -> PrimFloat.leb x m = true.
Proof.
  revert m0. induction xs as [|y xs IH]; intros m0 H0 Hxs; cbn [fold_left].
  - split; [left; reflexivity|]. split; [apply leb_refl; exact H0|intros x []].
  - assert (Hy : PrimFloat.is_nan y = false) by (apply Hxs; left; reflexivity).
    assert (Hrest : forall x, In x xs -> PrimFloat.is_nan x = false)
      by (intros x Hx; apply Hxs; right; exact Hx).
    destruct (PrimFloat.ltb m0 y) eqn:E.
    + destruct (IH y Hy Hrest) as (Hm & Hle & Hall).
      split; [right; destruct Hm as [->|Hm]; [left; reflexivity|right; exact Hm]|].
      split; [eapply leb_trans; [apply ltb_leb; exact E|exact Hle]|].
      intros x [<-|Hx]; [exact Hle|apply Hall; exact Hx].
    + destruct (IH m0 H0 Hrest) as (Hm & Hle & Hall).
      split; [destruct Hm as [->|Hm]; [left; reflexivity|right; right; exact Hm]|].
      split; [exact Hle|].
      intros x [<-|Hx]; [|apply Hall; exact Hx].
      eapply leb_trans; [|exact Hle]. apply ltb_false_leb; assumption.
Qed.

Lemma fold_Zmin (zs : list Z) (z0 : Z) :
  let m := fold_left Z.min zs z0 in
  (m = z0 \/ In m zs) /\ (m <= z0)%Z /\ forall z, In z zs -> (m <= z)%Z.
Proof.
  revert z0. induction zs as [|y zs IH]; intros z0; cbn [fold_left].
  - split; [left; reflexivity|]. split; [lia|intros z []].
  - destruct (IH (Z.min z0 y)) as (Hm & Hle & Hall).
    split.
    { destruct Hm as [Hm|Hm]; [|right; right; exact Hm].
      destruct (Z.min_spec z0 y) as [[_ E]|[_ E]];
        [left; rewrite Hm; exact E|right; left; rewrite Hm, E; reflexivity]. }
    split; [lia|].
    intros z [<-|Hz]; [lia|apply Hall; exact Hz].
Qed.

Lemma fold_Zmax (zs : list Z) (z0 : Z) :
  let m := fold_left Z.max zs z0 in
  (m = z0 \/ In m zs) /\ (z0 <= m)%Z /\ forall z, In z zs -> (z <= m)%Z.
Proof.
  revert z0. induction zs as [|y zs IH]; intros z0; cbn [fold_left].
  - split; [left; reflexivity|]. split; [lia|intros z []].
  - destruct (IH (Z.max z0 y)) as (Hm & Hle & Hall).
    split.
    { destruct Hm as [Hm|Hm]; [|right; right; exact Hm].
      destruct (Z.max_spec z0 y) as [[_ E]|[_ E]];
        [right; left; rewrite Hm, E; reflexivity|left; rewrite Hm; exact E]. }
    split; [lia|].
    intros z [<-|Hz]; [lia|apply Hall; exact Hz].
Qed.

Lemma cells_of_ints (cells : list value) :
  (forall v, In v cells -> exists z, v = VInt z) ->
  exists zs, cells = map VInt zs.
Proof.
  induction cells as [|v cells IH]; intros H; [exists []; reflexivity|].
  destruct (H v (or_introl eq_refl)) as [z ->].
  destruct IH as [zs ->]; [intros v Hv; apply H; right; exact Hv|].
  exists (z :: zs). reflexivity.
Qed.

Lemma cells_of_floats (cells : list value) :
  (forall v, In v cells -> exists x, v = VFloat x) ->
  exists xs, cells = map VFloat xs.
Proof.
  induction cells as [|v cells IH]; intros H; [exists []; reflexivity|].
  destruct (H v (or_introl eq_refl)) as [x ->].
  destruct IH as [xs ->]; [intros v Hv; apply H; right; exact Hv|].
  exists (x :: xs). reflexivity.
Qed.

Lemma all_ints_map (zs : list Z) : all_ints (map VInt zs) = Some zs.
Proof.
  unfold all_ints. induction zs as [|z zs IH]; [reflexivity|].
  cbn [map fold_right]. rewrite IH. reflexivity.
Qed.

Lemma floats_of_floats (how : string) (xs : list float) :
  (forall x, In x xs -> PrimFloat.is_nan x = false) ->
  filter notna (map VFloat xs) = map VFloat xs /\
  floats_of how (map VFloat xs) = inr xs.
Proof.
  intros H.
  assert (Hf : filter notna (map VFloat xs) = map VFloat xs).
  { induction xs as [|x xs IH]; [reflexivity|].
    cbn [map filter]. unfold notna at 1. cbn [isna].
    rewrite (H x (or_introl eq_refl)). cbn [negb].
    rewrite IH by (intros y Hy; apply H; right; exact Hy). reflexivity. }
  split; [exact Hf|].
  unfold floats_of. rewrite Hf. clear.
  induction xs as [|x xs IH]; [reflexivity|].
  cbn [map sequence_err to_float]. rewrite IH. reflexivity.
Qed.

(** [min] and [max] over a group of integers: members, with every member
    between them. *)
Lemma agg_min_max_ints (cells : list value) :
  cells <> [] ->
  (forall v, In v cells -> exists z, v = VInt z) ->
  exists lo hi,
    agg_min cells = inr (VInt lo) /\ agg_max cells = inr (VInt hi) /\
    In (VInt lo) cells /\ In (VInt hi) cells /\
    forall z, In (VInt z) cells -> (lo <= z <= hi)%Z.
Proof.
  intros Hne Hints. destruct (cells_of_ints cells Hints) as [zs ->].
  destruct zs as [|z0 zs]; [exfalso; apply Hne; reflexivity|].
  assert (Hf : filter notna (map VInt (z0 :: zs)) = map VInt (z0 :: zs)).
  { clear. generalize (z0 :: zs) as l.
    induction l as [|z l IH]; [reflexivity|]. cbn [map filter notna isna negb].
    rewrite IH. reflexivity. }
  unfold agg_min, agg_max. rewrite Hf, all_ints_map.
  destruct (fold_Zmin zs z0) as (Hm & Hle & Hall).
  destruct (fold_Zmax zs z0) as (HM & HLe & HAll).
  exists (fold_left Z.min zs z0), (fold_left Z.max zs z0).
  split; [reflexivity|]. split; [reflexivity|].
  split.
  { apply in_map. destruct Hm as [->|Hm]; [left; reflexivity|right; exact Hm]. }
  split.
  { apply in_map. destruct HM as [->|HM]; [left; reflexivity|right; exact HM]. }
  intros z Hz. apply in_map_iff in Hz. destruct Hz as (z' & E & Hz').
  injection E as ->.
  destruct Hz' as [<-|Hz']; [lia|].
  split; [apply Hall|apply HAll]; exact Hz'.
Qed.

(** [min] and [max] over a group of floats, none of them NaN. *)
Lemma agg_min_max_floats (cells : list value) :
  cells <> [] ->
  (forall v, In v cells -> isna v = false) ->
  (forall v, In v cells -> exists x, v = VFloat x) ->
  exists lo hi,
    agg_min cells = inr (VFloat lo) /\ agg_max cells = inr (VFloat hi) /\
    In (VFloat lo) cells /\ In (VFloat hi) cells /\
    forall x, In (VFloat x) cells ->
      PrimFloat.leb lo x = true /\ PrimFloat.leb x hi = true.
Proof.
  intros Hne Hna Hfl. destruct (cells_of_floats cells Hfl) as [xs ->].
  destruct xs as [|x0 xs]; [exfalso; apply Hne; reflexivity|].
  assert (Hnan : forall x, In x (x0 :: xs) -> PrimFloat.is_nan x = false).
  { intros x Hx. apply (Hna (VFloat x)). apply in_map. exact Hx. }
  unfold agg_min, agg_max.
  destruct (floats_of_floats "agg function failed [how->min,dtype->object]"
              (x0 :: xs) Hnan) as [Hf Hmin].
  destruct (floats_of_floats "agg function failed [how->max,dtype->object]"
              (x0 :: xs) Hnan) as [_ Hmax].
  rewrite Hf, Hmin, Hmax. cbn [map all_ints fold_right]. unfold fmin, fmax.
  assert (H0 : PrimFloat.is_nan x0 = false) by (apply Hnan; left; reflexivity).
  assert (Hrest : forall x, In x xs -> PrimFloat.is_nan x = false)
    by (intros x Hx; apply Hnan; right; exact Hx).
  destruct (fold_fmin xs x0 H0 Hrest) as (Hm & Hle & Hall).
  destruct (fold_fmax xs x0 H0 Hrest) as (HM & HLe & HAll).
  eexists _, _.
  split; [reflexivity|]. split; [reflexivity|].
  split.
  { apply (in_map VFloat (x0 :: xs)).
    destruct Hm as [->|Hm]; [left; reflexivity|right; exact Hm]. }
  split.
  { apply (in_map VFloat (x0 :: xs)).
    destruct HM as [->|HM]; [left; reflexivity|right; exact HM]. }
  intros x Hx.
  change (In (VFloat x) (map VFloat (x0 :: xs))) in Hx.
  apply in_map_iff in Hx. destruct Hx as (x' & E & Hx').
  injection E as ->.
  destruct Hx' as [<-|Hx']; [split; assumption|].
  split; [apply Hall|apply HAll]; exact Hx'.
Qed.

(** The rows of the group of a status, and the cells of a column in
    them. *)
Lemma value_eqb_VStr_r (v : value) (s : string) :
  value_eqb v (VStr s) =
  match v with
  | VStr t => String.eqb t s
  | _ => false
  end.
Proof.
  unfold value_eqb. destruct v as [|b|z|x|t]; cbn [isna to_float]; try reflexivity.
  destruct (PrimFloat.is_nan x); reflexivity.
Qed.

Lemma group_cells (rows : list (list value)) (p pc : nat) (s : string) :
  column_at (group_rows p (VStr s) rows) pc =
  map (fun r => nth pc r VNone)
      (filter (fun r => match nth p r VNone with
                        | VStr t => String.eqb t s
                        | _ => false
                        end) rows).
Proof.
  unfold column_at, group_rows, cell. f_equal.
  apply filter_ext. intros r. apply value_eqb_VStr_r.
Qed.


(** ** Correlations *)

Lemma SFcompare_antisym (x y : spec_float) :
  SFcompare y x = option_map CompOpp (SFcompare x y).
Proof.
  destruct x as [sx|sx| |sx mx ex]; destruct y as [sy|sy| |sy my ey];
    simpl; try reflexivity;
    try (destruct sx; reflexivity); try (destruct sy; reflexivity);
    try (destruct sx, sy; reflexivity).
  destruct sx, sy; simpl; try reflexivity;
    rewrite (Z.compare_antisym ex ey);
    destruct (ex ?= ey)%Z; simpl; try reflexivity;
    change (PosDef.Pos.compare_cont Eq my mx) with (Pos.compare my mx);
    change (PosDef.Pos.compare_cont Eq mx my) with (Pos.compare mx my);
    rewrite (Pos.compare_antisym mx my);
    destruct (Pos.compare mx my); reflexivity.
Qed.

Lemma SFcompare_defined (x y : spec_float) :
  x <> S754_nan -> y <> S754_nan -> exists c, SFcompare x y = Some c.
Proof.
  intros Hx Hy.
  destruct x; destruct y; try congruence; simpl; eexists; reflexivity.
Qed.

Lemma is_nan_spec (x : float) :
  Prim2SF x = S754_nan -> PrimFloat.is_nan x = true.
Proof.
  intros H. unfold PrimFloat.is_nan. rewrite FloatAxioms.eqb_spec, H. reflexivity.
Qed.

(** A float that is not NaN and is neither above [hi] nor below [lo]
    lies between them. *)
Lemma float_between (lo hi x : float) :
  Prim2SF lo <> S754_nan -> Prim2SF hi <> S754_nan ->
  PrimFloat.ltb hi x = false -> PrimFloat.ltb x lo = false ->
  PrimFloat.is_nan x = true \/
  (PrimFloat.leb lo x = true /\ PrimFloat.leb x hi = true).
Proof.
  intros Hlo Hhi Habove Hbelow.
  destruct (Prim2SF x) eqn:Ex;
    try (right;
         rewrite FloatAxioms.ltb_spec in Habove, Hbelow;
         rewrite !FloatAxioms.leb_spec;
         unfold SFltb in Habove, Hbelow; unfold SFleb;
         rewrite (SFcompare_antisym (Prim2SF hi) (Prim2SF x));
         rewrite (SFcompare_antisym (Prim2SF x) (Prim2SF lo));
         destruct (SFcompare_defined (Prim2SF hi) (Prim2SF x)) as [c1 E1];
         [exact Hhi|rewrite Ex; discriminate|];
         destruct (SFcompare_defined (Prim2SF x) (Prim2SF lo)) as [c2 E2];
         [rewrite Ex; discriminate|exact Hlo|];
         rewrite E1 in *; rewrite E2 in *;
         destruct c1; destruct c2; simpl; try discriminate; split; reflexivity).
  left. apply is_nan_spec. exact Ex.
Qed.

Lemma clip_in_range (v : float) : in_range (clip v).
Proof.
  unfold clip, in_range.
  destruct (PrimFloat.ltb 1 v) eqn:E1; [right; split; vm_compute; reflexivity|].
  destruct (PrimFloat.ltb v (-1)) eqn:E2; [right; split; vm_compute; reflexivity|].
  apply float_between; try assumption; vm_compute; discriminate.
Qed.

Lemma nancorr_pair_in_range (xs ys : list float) : in_range (nancorr_pair xs ys).
Proof.
  unfold nancorr_pair.
  destruct (Nat.ltb _ 1); [left; reflexivity|].
  destruct (negb _); [apply clip_in_range|left; reflexivity].
Qed.

(** Each pair is computed once: the matrix is symmetric by construction. *)
Lemma nancorr_entry_sym (mat : list (list float)) (i j : nat) :
  nancorr_entry mat i j = nancorr_entry mat j i.
Proof.
  unfold nancorr_entry.
  destruct (Nat.leb_spec j i); destruct (Nat.leb_spec i j); try reflexivity; try lia.
  assert (i = j) by lia. subst. reflexivity.
Qed.

Lemma nancorr_entry_in_range (mat : list (list float)) (i j : nat) :
  in_range (nancorr_entry mat i j).
Proof.
  unfold nancorr_entry. destruct (Nat.leb j i); apply nancorr_pair_in_range.
Qed.

Lemma nancorr_cell (K : nat) (mat : list (list float)) (i j : nat) :
  i < K -> j < K ->
  cell (nth i (map (map VFloat) (nancorr K mat)) []) j = VFloat (nancorr_entry mat i j).
Proof.
  intros Hi Hj. unfold nancorr. rewrite map_map.
  rewrite (nth_error_nth _ _ []
             (nth_error_map_seq
                (fun i0 => map VFloat (map (fun j0 => nancorr_entry mat i0 j0) (seq 0 K)))
                K i Hi)).
  rewrite map_map. unfold cell.
  apply nth_error_nth.
  apply (nth_error_map_seq (fun j0 => VFloat (nancorr_entry mat i j0)) K j Hj).
Qed.

Lemma nancorr_shape (K : nat) (mat : list (list float)) :
  length (map (map VFloat) (nancorr K mat)) = K /\
  forall r, In r (map (map VFloat) (nancorr K mat)) -> length r = K.
Proof.
  unfold nancorr. split.
  - rewrite !length_map, length_seq. reflexivity.
  - intros r Hr. rewrite map_map in Hr. apply in_map_iff in Hr.
    destruct Hr as (i & <- & _). rewrite !length_map, length_seq. reflexivity.
Qed.

Lemma float_of_cell_number (msg : string) (v : value) (x : float) :
  to_float v = Some x -> float_of_cell msg v = inr (as_float v).
Proof.
  unfold as_float. destruct v; simpl; intros H; try reflexivity. discriminate H.
Qed.

Lemma sequence_err_map_inr {A B} (g : A -> exn + B) (h : A -> B) (l : list A) :
  (forall a, In a l -> g a = inr (h a)) ->
  sequence_err (map g l) = inr (map h l).
Proof.
  induction l as [|a l IH]; intros H; [reflexivity|].
  cbn [map sequence_err]. rewrite (H a) by (left; reflexivity).
  rewrite IH by (intros b Hb; apply H; right; exact Hb). reflexivity.
Qed.

(** A table of numbers converts cell by cell. *)
Lemma to_numpy_float_numbers {I C} (g : frame I C) :
  (forall r v, In r (data g) -> In v r -> exists x, to_float v = Some x) ->
  to_numpy_float g = inr (map (map as_float) (data g)).
Proof.
  intros H. unfold to_numpy_float.
  apply sequence_err_map_inr. intros r Hr.
  apply sequence_err_map_inr. intros v Hv.
  destruct (H r v Hr Hv) as [x Hx]. exact (float_of_cell_number _ v x Hx).
Qed.

(** ** The diagonal of the matrix *)

Lemma SFdiv_self (s : bool) (m : positive) (e : Z) :
  SFdiv prec emax (S754_finite s m e) (S754_finite s m e) =
  S754_finite false 4503599627370496 (-52).
Proof.
  unfold SFdiv, SFdiv_core_binary.
  replace (Zdigits2 (Zpos m) + e - (Zdigits2 (Zpos m) + e))%Z with 0%Z by lia.
  replace (e - e)%Z with 0%Z by lia.
  change (Z.min (fexp prec emax 0) 0) with (-53)%Z.
  change (0 - -53)%Z with 53%Z. cbv iota.
  rewrite Z.shiftl_mul_pow2 by lia.
  destruct (Z.div_eucl (Zpos m * 2 ^ 53) (Zpos m)) as [q r] eqn:E.
  assert (Hq : q = (2 ^ 53)%Z).
  { change q with (fst (q, r)). rewrite <- E.
    change (fst (Z.div_eucl (Zpos m * 2 ^ 53) (Zpos m)))
      with ((Zpos m * 2 ^ 53) / Zpos m)%Z.
    rewrite Z.mul_comm. apply Z.div_mul. lia. }
  assert (Hr : r = 0%Z).
  { change r with (snd (q, r)). rewrite <- E.
    change (snd (Z.div_eucl (Zpos m * 2 ^ 53) (Zpos m)))
      with ((Zpos m * 2 ^ 53) mod Zpos m)%Z.
    rewrite Z.mul_comm. apply Z.mod_mul. lia. }
  subst q r.
  assert (Hl : new_location (Zpos m) 0 = loc_Exact)
    by (unfold new_location; destruct (Z.even (Zpos m)); reflexivity).
  rewrite Hl, xorb_nilpotent. vm_compute. reflexivity.
Qed.

Lemma Prim2SF_eq (x y : float) : Prim2SF x = Prim2SF y -> x = y.
Proof.
  intros H. rewrite <- (SF2Prim_Prim2SF x), <- (SF2Prim_Prim2SF y), H. reflexivity.
Qed.

(** A finite float that is not zero, divided by itself, is 1. *)
Lemma finite_nonzero (a : float) :
  is_finite a = true -> PrimFloat.eqb a 0 = false ->
  exists s m e, Prim2SF a = S754_finite s m e.
Proof.
  intros Hf Hz. unfold is_finite, PrimFloat.is_nan, PrimFloat.is_infinity in Hf.
  rewrite !FloatAxioms.eqb_spec, FloatAxioms.abs_spec in Hf.
  rewrite FloatAxioms.eqb_spec in Hz.
  destruct (Prim2SF a) as [s|s| |s m e] eqn:E.
  - destruct s; vm_compute in Hz; discriminate.
  - destruct s; vm_compute in Hf; discriminate.
  - vm_compute in Hf. discriminate.
  - exists s, m, e. reflexivity.
Qed.

Lemma div_self (a : float) :
  is_finite a = true -> PrimFloat.eqb a 0 = false -> (a / a)%float = 1%float.
Proof.
  intros Hf Hz. destruct (finite_nonzero a Hf Hz) as (s & m & e & H).
  apply Prim2SF_eq. rewrite FloatAxioms.div_spec, H, SFdiv_self. reflexivity.
Qed.

Lemma sqrt_square_zero (a : float) :
  PrimFloat.eqb a 0 = true -> PrimFloat.eqb (PrimFloat.sqrt (a * a)) 0 = true.
Proof.
  intros Hz. rewrite FloatAxioms.eqb_spec in Hz.
  rewrite FloatAxioms.eqb_spec, FloatAxioms.sqrt_spec, FloatAxioms.mul_spec.
  destruct (Prim2SF a) as [s|s| |s m e] eqn:E.
  - destruct s; vm_compute; reflexivity.
  - destruct s; vm_compute in Hz; discriminate.
  - vm_compute in Hz. discriminate.
  - destruct s; vm_compute in Hz; discriminate.
Qed.

(** A column paired with itself: the two means agree, and the three
    accumulated sums are one and the same float. *)
Lemma welford_self (xs : list float) (a : welford) :
  meanx a = meany a -> ssqdm_y a = ssqdm_x a -> covxy a = ssqdm_x a ->
  let b := fold_left welford_step (combine xs xs) a in
  ssqdm_y b = ssqdm_x b /\ covxy b = ssqdm_x b.
Proof.
  revert a. induction xs as [|x xs IH]; intros a Hm Hy Hc; [split; assumption|].
  cbn [combine fold_left]. apply IH; unfold welford_step;
    destruct (is_finite x && is_finite x); try assumption;
    cbn [meanx meany ssqdm_x ssqdm_y covxy]; rewrite ?Hm, ?Hy, ?Hc; reflexivity.
Qed.

(** Without an observation nothing has been accumulated. *)
Lemma welford_observed (vs : list (float * float)) (a : welford) :
  (nobs a = 0 -> ssqdm_x a = 0%float) ->
  let b := fold_left welford_step vs a in
  nobs b = 0 -> ssqdm_x b = 0%float.
Proof.
  revert a. induction vs as [|[vx vy] vs IH]; intros a Ha; [exact Ha|].
  cbn [fold_left]. apply IH. unfold welford_step.
  destruct (is_finite vx && is_finite vy); [|exact Ha].
  cbn [nobs]. discriminate.
Qed.

(** The coefficient of a column with itself. *)
Lemma nancorr_pair_self (xs : list float) :
  let a := squared_deviations xs in
  (is_finite a = true -> PrimFloat.eqb a 0 = false -> PrimFloat.sqrt (a * a) = a ->
   nancorr_pair xs xs = 1%float) /\
  (PrimFloat.eqb a 0 = true -> nancorr_pair xs xs = PrimFloat.nan).
Proof.
  intros a. unfold nancorr_pair.
  destruct (welford_self xs (Welford 0 0 0 0 0 0) eq_refl eq_refl eq_refl) as [Hy Hc].
  pose proof (welford_observed (combine xs xs) (Welford 0 0 0 0 0 0) (fun _ => eq_refl))
    as Hobs.
  cbv zeta in Hy, Hc, Hobs. cbv zeta. rewrite Hy, Hc.
  fold (squared_deviations xs). fold a.
  fold (squared_deviations xs) in Hobs. fold a in Hobs.
  split.
  - intros Hf Hz Hsq.
    destruct (Nat.ltb_spec
                (nobs (fold_left welford_step (combine xs xs) (Welford 0 0 0 0 0 0))) 1)
      as [Hn|Hn].
    + rewrite Hobs in Hz by lia. vm_compute in Hz. discriminate Hz.
    + rewrite Hsq, Hz. cbn [negb]. rewrite (div_self a Hf Hz). reflexivity.
  - intros Hz.
    destruct (Nat.ltb _ 1); [reflexivity|].
    rewrite (sqrt_square_zero a Hz). reflexivity.
Qed.

(** The run of [correlation_matrix]. *)
Lemma correlation_matrix_agrees (df : DataFrame Z string) (w : world) f :
  read w df = Some f ->
  agrees (correlation_matrix df w) w (correlation_of f).
Proof.
  intros Hr. apply agrees_of_wp; [apply logs_only_correlation_matrix|].
  unfold correlation_matrix, correlation_of.
  apply wp_bind, wp_LOG_info.
  apply wp_bind. unfold getitem. eapply wp_method; [exact Hr|].
  destruct (getitem_frame NUMERIC_COLS f) as [e|g]; [reflexivity|].
  apply wp_bind. unfold corr. eapply wp_method; [apply read_heap_new|].
  destruct (corr_frame g) as [e|c]; [reflexivity|].
  apply wp_bind. unfold stats_of. apply wp_bind.
  eapply wp_snapshot; [apply read_heap_new|].
  apply wp_ret, wp_bind, wp_LOG_debug, wp_ret.
  solve_read.
Qed.

(** The correlation matrix of a table with the schema: the coefficients
    of the five numeric columns as floats. *)
Lemma correlation_of_numbers (f : frame Z string) :
  numeric_schema f -> dtypes_respected f ->
  correlation_of f =
  inr (Frame NUMERIC_COLS NUMERIC_COLS
             [float64; float64; float64; float64; float64]
             (map (map VFloat)
                  (nancorr 5
                     (map (fun r => map (fun c => as_float (cell r (col_pos c (columns f))))
                                        NUMERIC_COLS)
                          (data f))))).
Proof.
  intros Hs Ht. unfold correlation_of.
  rewrite getitem_frame_once by (intros c Hc; apply (Hs c Hc)).
  unfold corr_frame.
  rewrite to_numpy_float_numbers.
  - cbn [data columns]. rewrite map_map. reflexivity.
  - cbn [data]. intros r v Hr Hv. apply in_map_iff in Hr.
    destruct Hr as (r0 & <- & Hr0). unfold take in Hv. apply in_map_iff in Hv.
    destruct Hv as (j & <- & Hj). apply in_map_iff in Hj.
    destruct Hj as (c & <- & Hc).
    apply Ht; [exact Hr0|]. apply (Hs c Hc).
Qed.

Lemma correlation_of_schema (f : frame Z string) :
  numeric_schema f -> dtypes_respected f ->
  exists mat,
    correlation_of f =
    inr (Frame NUMERIC_COLS NUMERIC_COLS
               [float64; float64; float64; float64; float64]
               (map (map VFloat) (nancorr 5 mat))).
Proof.
  intros Hs Ht. eexists. apply correlation_of_numbers; assumption.
Qed.

(** Column [k] of the matrix of floats is the numeric column [c] of the
    table. *)
Lemma fcolumn_numbers (f : frame Z string) (k : nat) (c : string) :
  nth_error NUMERIC_COLS k = Some c ->
  fcolumn (map (fun r => map (fun c0 => as_float (cell r (col_pos c0 (columns f))))
                             NUMERIC_COLS)
               (data f)) k =
  map (fun r => as_float (nth (col_pos c (columns f)) r VNone)) (data f).
Proof.
  intros Hk. unfold fcolumn. rewrite map_map. apply map_ext. intros r.
  apply nth_error_nth. rewrite nth_error_map, Hk. reflexivity.
Qed.

Lemma clean_numeric_schema : numeric_schema clean_frame.
Proof.
  intros c Hc. simpl in Hc.
  repeat (destruct Hc as [<-|Hc]; [split; vm_compute; reflexivity|]).
  contradiction.
Qed.

Lemma clean_dtypes_respected : dtypes_respected clean_frame.
Proof.
  intros j r Hr Hn.
  do 13 (destruct j as [|j];
         [simpl in Hn; try discriminate Hn; simpl in Hr;
          repeat (destruct Hr as [<-|Hr]; [eexists; reflexivity|]); contradiction|]).
  simpl in Hn. destruct j; discriminate Hn.
Qed.

Lemma clean_is_cleaned : cleaned clean_frame.
Proof.
  intros r Hr. apply keeps_spec. simpl in Hr.
  repeat (destruct Hr as [<-|Hr]; [vm_compute; reflexivity|]). contradiction.
Qed.

Lemma clean_group_column : group_column clean_frame.
Proof. vm_compute. reflexivity. Qed.

(** A coefficient that is not NaN before it is clipped lies in [-1, 1]
    after. *)
Lemma clip_between (q : float) :
  PrimFloat.is_nan q = false ->
  PrimFloat.leb (-1) (clip q) = true /\ PrimFloat.leb (clip q) 1 = true.
Proof.
  intros Hq. destruct (clip_in_range q) as [Hn|H]; [|exact H].
  unfold clip in Hn.
  destruct (PrimFloat.ltb 1 q); [vm_compute in Hn; discriminate Hn|].
  destruct (PrimFloat.ltb q (-1)); [vm_compute in Hn; discriminate Hn|].
  congruence.
Qed.

(** The coefficient of two columns when the method does not
    degenerate. *)
Lemma nancorr_pair_regular (xs ys : list float) :
  let st := accumulated xs ys in
  let divisor := PrimFloat.sqrt (ssqdm_x st * ssqdm_y st) in
  1 <= nobs st -> PrimFloat.eqb divisor 0 = false ->
  PrimFloat.is_nan (covxy st / divisor) = false ->
  PrimFloat.leb (-1) (nancorr_pair xs ys) = true /\
  PrimFloat.leb (nancorr_pair xs ys) 1 = true.
Proof.
  intros st divisor Hn Hd Hq. unfold nancorr_pair.
  fold (accumulated xs ys). fold st. cbv zeta. fold divisor.
  destruct (Nat.ltb_spec (nobs st) 1) as [H|_]; [lia|].
  rewrite Hd. cbn [negb]. apply clip_between. exact Hq.
Qed.


Lemma flat_is_cleaned : cleaned flat_frame.
Proof.
  intros r Hr. apply keeps_spec. simpl in Hr.
  repeat (destruct Hr as [<-|Hr]; [vm_compute; reflexivity|]). contradiction.
Qed.

Lemma leb_nan_l (x tol : float) :
  Prim2SF x = S754_nan -> PrimFloat.leb x tol = false.
Proof. intros H. rewrite FloatAxioms.leb_spec, H. reflexivity. Qed.

(** ** Determinism *)

(** The run of [make_clean_view] on any table, schema or not. *)
Lemma make_clean_view_agrees (df : DataFrame Z string) (w : world) f :
  read w df = Some f ->
  agrees (make_clean_view df w) w (clean_view_of f).
Proof.
  intros Hr. apply agrees_of_wp; [apply logs_only_make_clean_view|].
  unfold make_clean_view, clean_view_of.
  apply wp_bind, wp_LOG_info.
  apply wp_bind. unfold dropna. apply wp_bind.
  eapply wp_snapshot; [exact Hr|].
  cbv zeta.
  destruct (missing_labels (get_indexer_for (columns f) (NUMERIC_COLS ++ [GROUP_COL])))
    as [|m ms]; [|apply wp_raise; reflexivity].
  change (map (row_complete
                 (indexer_positions
                    (get_indexer_for (columns f) (NUMERIC_COLS ++ [GROUP_COL]))))
              (data f))
    with (map (keeps (NUMERIC_COLS ++ [GROUP_COL]) (columns f)) (data f)).
  destruct (forallb (fun b => b)
                    (map (keeps (NUMERIC_COLS ++ [GROUP_COL]) (columns f)) (data f))).
  - apply wp_ret. apply wp_bind. unfold copy. eapply wp_method; [exact Hr|].
    cbv iota beta. apply wp_bind, wp_LOG_info, wp_ret. solve_read.
  - apply wp_new_frame. apply wp_bind. unfold copy.
    eapply wp_method; [apply read_heap_new|].
    cbv iota beta. apply wp_bind, wp_LOG_info, wp_ret. solve_read.
Qed.

Lemma agrees_same_table {I C} (o1 o2 : outcome (DataFrame I C)) w1 w2 r :
  agrees o1 w1 r -> agrees o2 w2 r -> same_table o1 o2.
Proof.
  intros [_ H1] [_ H2]. unfold same_table.
  destruct o1 as [d1 w1'|e1 w1']; destruct o2 as [d2 w2'|e2 w2'];
    destruct r as [e|g]; try contradiction.
  - exists g. split; assumption.
  - congruence.
Qed.

Lemma agrees2_same_tables {I C J D}
      (o1 o2 : outcome (DataFrame I C * DataFrame J D)) w1 w2 r :
  agrees2 o1 w1 r -> agrees2 o2 w2 r -> same_tables2 o1 o2.
Proof.
  intros [_ H1] [_ H2]. unfold same_tables2.
  destruct o1 as [[a1 b1] w1'|e1 w1']; destruct o2 as [[a2 b2] w2'|e2 w2'];
    destruct r as [e|[g1 g2]]; try contradiction.
  - destruct H1, H2. split; [exists g1|exists g2]; split; assumption.
  - congruence.
Qed.

(** C10.  [build_data_dictionary], [make_clean_view], [descriptive_stats]
    and [correlation_matrix] are deterministic: run on two objects with
    equal content, in any two worlds, each returns tables of equal content
    (or raises the same exception); and each run changes its world only by
    appending log records and allocating new buffers. *)
Theorem computations_deterministic
        (df1 df2 : DataFrame Z string) (w1 w2 : world) (f : frame Z string) :
  read w1 df1 = Some f ->
  read w2 df2 = Some f ->
  (same_table (build_data_dictionary df1 w1) (build_data_dictionary df2 w2) /\
   only_logged w1 (final_world (build_data_dictionary df1 w1))) /\
  (same_table (make_clean_view df1 w1) (make_clean_view df2 w2) /\
   only_logged w1 (final_world (make_clean_view df1 w1))) /\
  (same_tables2 (descriptive_stats df1 w1) (descriptive_stats df2 w2) /\
   only_logged w1 (final_world (descriptive_stats df1 w1))) /\
  (same_table (correlation_matrix df1 w1) (correlation_matrix df2 w2) /\
   only_logged w1 (final_world (correlation_matrix df1 w1))).
Proof.
  intros H1 H2.
  split; [split|split; [split|split; [split|split]]].
  - eapply agrees_same_table; apply build_data_dictionary_agrees; eassumption.
  - apply logs_only_build_data_dictionary.
  - eapply agrees_same_table; apply make_clean_view_agrees; eassumption.
  - apply logs_only_make_clean_view.
  - eapply agrees2_same_tables; apply descriptive_stats_agrees; eassumption.
  - apply logs_only_descriptive_stats.
  - eapply agrees_same_table; apply correlation_matrix_agrees; eassumption.
  - apply logs_only_correlation_matrix.
Qed.

Lemma missing_labels_spec (hdr subset : list string) (c : string) :
  In c (missing_labels (get_indexer_for hdr subset)) <->
  In c subset /\ ~ In c hdr.
Proof.
  unfold missing_labels, get_indexer_for.
  rewrite in_map_iff. split.
  - intros ([c' ps] & <- & Hin). apply filter_In in Hin. destruct Hin as [Hin Hnil].
    apply in_map_iff in Hin. destruct Hin as (c0 & Hpair & Hc0).
    injection Hpair as -> <-. cbn [fst snd] in *.
    split; [exact Hc0|]. intros Hhdr.
    apply In_nth_error in Hhdr. destruct Hhdr as [j Hj].
    apply positions_spec in Hj.
    destruct (positions c' hdr); [contradiction|discriminate].
  - intros [Hc Hn]. exists (c, positions c hdr). split; [reflexivity|].
    apply filter_In. split.
    + apply in_map_iff. exists c. split; [reflexivity|exact Hc].
    + cbn [snd]. destruct (positions c hdr) as [|p ps] eqn:E; [reflexivity|].
      exfalso. apply Hn.
      assert (Hp : In p (positions c hdr)) by (rewrite E; left; reflexivity).
      apply positions_spec in Hp. eapply nth_error_In; exact Hp.
Qed.

(** Outside the schema: when one of the six columns is missing,
    [make_clean_view] returns nothing; it raises [KeyError] with the
    missing labels. *)
Lemma make_clean_view_missing_column (df : DataFrame Z string) (w : world) f c :
  read w df = Some f ->
  In c (NUMERIC_COLS ++ [GROUP_COL]) -> ~ In c (columns f) ->
  exists labels w',
    make_clean_view df w = Raise (KeyError labels) w' /\
    forall c', In c' labels <->
               In c' (NUMERIC_COLS ++ [GROUP_COL]) /\ ~ In c' (columns f).
Proof.
  intros Hr Hc Hn.
  pose proof (make_clean_view_agrees df w f Hr) as [_ H].
  unfold clean_view_of in H. cbv zeta in H.
  destruct (missing_labels (get_indexer_for (columns f) (NUMERIC_COLS ++ [GROUP_COL])))
    as [|m ms] eqn:E.
  - exfalso.
    assert (Hin : In c (missing_labels
                          (get_indexer_for (columns f) (NUMERIC_COLS ++ [GROUP_COL]))))
      by (apply missing_labels_spec; split; assumption).
    rewrite E in Hin. contradiction.
  - destruct (make_clean_view df w) as [d w'|e w']; [contradiction|].
    subst e. exists (m :: ms), w'. split; [reflexivity|].
    intros c'. rewrite <- E. apply missing_labels_spec.
Qed.

(** * Further properties of the script *)

(** ** The cleaning step: what it keeps *)

Lemma clean_view_of_schema (f : frame Z string) :
  has_columns (columns f) (NUMERIC_COLS ++ [GROUP_COL]) ->
  clean_view_of f =
  inr (if forallb (fun b => b)
                  (map (keeps (NUMERIC_COLS ++ [GROUP_COL]) (columns f)) (data f))
       then f
       else Frame (select (map (keeps (NUMERIC_COLS ++ [GROUP_COL]) (columns f)) (data f))
                          (index f))
                  (columns f) (dtypes f)
                  (select (map (keeps (NUMERIC_COLS ++ [GROUP_COL]) (columns f)) (data f))
                          (data f))).
Proof.
  intros Hc. unfold clean_view_of. cbv zeta.
  rewrite (missing_labels_nil _ _ Hc). reflexivity.
Qed.

Lemma select_length_eq {A B} (m : list bool) (xs : list A) (ys : list B) :
  length xs = length ys -> length (select m xs) = length (select m ys).
Proof.
  revert xs ys; induction m as [|b m IH]; intros xs ys H; [reflexivity|].
  destruct xs as [|x xs]; destruct ys as [|y ys]; simpl in *; try discriminate;
    [reflexivity|].
  destruct b; simpl; rewrite (IH xs ys) by lia; reflexivity.
Qed.

Lemma forallb_keeps_cleaned (f : frame Z string) :
  forallb (fun b => b)
          (map (keeps (NUMERIC_COLS ++ [GROUP_COL]) (columns f)) (data f)) = true <->
  cleaned f.
Proof.
  rewrite forallb_forall. unfold cleaned. split.
  - intros H r Hr. apply keeps_spec. apply H. apply in_map. exact Hr.
  - intros H b Hb. apply in_map_iff in Hb. destruct Hb as (r & <- & Hr).
    apply keeps_spec. apply H. exact Hr.
Qed.

(** The content of the cleaned view, for a table with the six columns. *)
Lemma make_clean_view_content (df : DataFrame Z string) (w : world) f :
  read w df = Some f ->
  has_columns (columns f) (NUMERIC_COLS ++ [GROUP_COL]) ->
  exists df' w' f',
    make_clean_view df w = Ok df' w' /\
    read w' df' = Some f' /\
    clean_view_of f = inr f' /\
    only_logged w w' /\
    length (heap w) <= buf df'.
Proof.
  intros Hr Hc.
  destruct (make_clean_view_run df w f Hr Hc)
    as (df' & w' & f' & extra & Hrun & Hr' & _ & _ & _ & _ & _ & Hfresh & _).
  pose proof (make_clean_view_agrees df w f Hr) as [Hl Hag].
  rewrite Hrun in Hag, Hl. cbn [final_world] in Hl.
  destruct (clean_view_of f) as [e|g] eqn:Eg; [contradiction|].
  exists df', w', g. repeat split; try assumption; apply Hl.
Qed.

Lemma clean_view_of_facts (f f' : frame Z string) :
  has_columns (columns f) (NUMERIC_COLS ++ [GROUP_COL]) ->
  clean_view_of f = inr f' ->
  columns f' = columns f /\
  dtypes f' = dtypes f /\
  data f' = filter (keeps (NUMERIC_COLS ++ [GROUP_COL]) (columns f)) (data f) /\
  (length (index f) = length (data f) -> length (index f') = length (data f')) /\
  (cleaned f -> f' = f).
Proof.
  intros Hc Hcv. rewrite (clean_view_of_schema f Hc) in Hcv.
  set (six := NUMERIC_COLS ++ [GROUP_COL]) in *.
  destruct (forallb (fun b => b) (map (keeps six (columns f)) (data f))) eqn:Eall.
  - assert (Hf : f' = f) by congruence. subst f'.
    split; [reflexivity|]. split; [reflexivity|].
    split; [symmetry; apply filter_all; exact Eall|]. tauto.
  - assert (Hf : f' = Frame (select (map (keeps six (columns f)) (data f)) (index f))
                            (columns f) (dtypes f)
                            (select (map (keeps six (columns f)) (data f)) (data f)))
      by congruence.
    subst f'. cbn [index columns dtypes data].
    split; [reflexivity|]. split; [reflexivity|].
    split; [apply select_map_filter|].
    split; [apply select_length_eq|].
    intros Hcl. apply forallb_keeps_cleaned in Hcl. fold six in Hcl. congruence.
Qed.

(** X1.  The cleaned view is a cleaned table, and cleaning keeps what the
    later stages rely on: a well-formed table stays well formed, the
    numeric schema and the grouping column stay in place, and the cells of
    numeric columns stay numbers. *)
Theorem make_clean_view_establishes_cleaned
        (df : DataFrame Z string) (w : world) (f : frame Z string) :
  read w df = Some f ->
  has_columns (columns f) (NUMERIC_COLS ++ [GROUP_COL]) ->
  exists df' w' f',
    make_clean_view df w = Ok df' w' /\
    read w' df' = Some f' /\
    cleaned f' /\
    (wf_frame f -> wf_frame f') /\
    (numeric_schema f -> numeric_schema f') /\
    (group_column f -> group_column f') /\
    (dtypes_respected f -> dtypes_respected f').
Proof.
  intros Hr Hc.
  destruct (make_clean_view_content df w f Hr Hc)
    as (df' & w' & f' & Hrun & Hr' & Hcv & _).
  destruct (clean_view_of_facts f f' Hc Hcv) as (Hcols & Hty & Hdata & Hlen & _).
  exists df', w', f'. split; [exact Hrun|]. split; [exact Hr'|].
  split; [|split; [|split; [|split]]].
  - intros r Hin. rewrite Hdata in Hin. apply filter_In in Hin.
    rewrite Hcols. apply keeps_spec. exact (proj2 Hin).
  - intros (Hi & Ht & Hrows). unfold wf_frame.
    split; [apply Hlen; exact Hi|]. split; [rewrite Hty, Hcols; exact Ht|].
    rewrite Hdata, Hcols. apply Forall_forall. intros r Hin.
    apply filter_In in Hin. rewrite Forall_forall in Hrows. apply Hrows.
    exact (proj1 Hin).
  - intros Hs c Hin. unfold numeric_column. rewrite Hcols, Hty. apply (Hs c Hin).
  - unfold group_column. rewrite Hcols. tauto.
  - intros Ht j r Hin Hn. rewrite Hdata in Hin. apply filter_In in Hin.
    rewrite Hty in Hn. apply Ht; [exact (proj1 Hin)|exact Hn].
Qed.

(** X2.  On a table that is already cleaned, [make_clean_view] drops
    nothing: the result has exactly the content of the input (index,
    columns, dtypes and rows), in a buffer of its own. *)
Theorem make_clean_view_of_cleaned
        (df : DataFrame Z string) (w : world) (f : frame Z string) :
  read w df = Some f ->
  has_columns (columns f) (NUMERIC_COLS ++ [GROUP_COL]) ->
  cleaned f ->
  exists df' w',
    make_clean_view df w = Ok df' w' /\
    read w' df' = Some f /\
    read w' df = Some f /\
    buf df' <> buf df.
Proof.
  intros Hr Hc Hcl.
  destruct (make_clean_view_content df w f Hr Hc)
    as (df' & w' & f' & Hrun & Hr' & Hcv & Hlog & Hfresh).
  destruct (clean_view_of_facts f f' Hc Hcv) as (_ & _ & _ & _ & Hsame).
  rewrite (Hsame Hcl) in Hr'.
  exists df', w'. split; [exact Hrun|]. split; [exact Hr'|].
  split; [eapply read_heap_preserved; [exact (proj1 Hlog)|exact Hr]|].
  assert (Hlt : buf df < length (heap w)).
  { unfold read, read_heap in Hr.
    destruct (nth_error (heap w) (buf df)) eqn:E; [|discriminate].
    apply nth_error_Some. congruence. }
  lia.
Qed.

Lemma clean_has_columns :
  has_columns (columns clean_frame) (NUMERIC_COLS ++ [GROUP_COL]).
Proof.
  intros c Hc. simpl in Hc. simpl.
  repeat (destruct Hc as [<-|Hc]; [tauto|]). contradiction.
Qed.

(** X3.  Cleaning is idempotent: cleaning the cleaned view again returns
    a table of the same content. *)
Theorem make_clean_view_idempotent
        (df : DataFrame Z string) (w : world) (f : frame Z string) :
  read w df = Some f ->
  has_columns (columns f) (NUMERIC_COLS ++ [GROUP_COL]) ->
  exists d1 w1 d2 w2 g,
    make_clean_view df w = Ok d1 w1 /\
    make_clean_view d1 w1 = Ok d2 w2 /\
    read w1 d1 = Some g /\
    read w2 d2 = Some g.
Proof.
  intros Hr Hc.
  destruct (make_clean_view_content df w f Hr Hc)
    as (d1 & w1 & g & Hrun1 & Hr1 & Hcv & _).
  destruct (clean_view_of_facts f g Hc Hcv) as (Hcols & _ & Hdata & _ & _).
  assert (Hcl : cleaned g).
  { intros r Hin. rewrite Hdata in Hin. apply filter_In in Hin.
    rewrite Hcols. apply keeps_spec. exact (proj2 Hin). }
  assert (Hc1 : has_columns (columns g) (NUMERIC_COLS ++ [GROUP_COL]))
    by (rewrite Hcols; exact Hc).
  destruct (make_clean_view_content d1 w1 g Hr1 Hc1)
    as (d2 & w2 & g2 & Hrun2 & Hr2 & Hcv2 & _).
  destruct (clean_view_of_facts g g2 Hc1 Hcv2) as (_ & _ & _ & _ & Hsame).
  rewrite (Hsame Hcl) in Hr2.
  exists d1, w1, d2, w2, g. repeat split; assumption.
Qed.

(** ** Loading and inspecting *)


Lemma count_notna_isna (col : list value) :
  length (filter notna col) + count_na col = length col.
Proof.
  unfold count_na, count_true, notna.
  induction col as [|v col IH]; simpl; [reflexivity|].
  destruct (isna v); simpl; lia.
Qed.

Lemma length_column_at (rows : list (list value)) (j : nat) :
  length (column_at rows j) = length rows.
Proof. unfold column_at. apply length_map. Qed.

Lemma wp_info (df : DataFrame Z string) f w (Q : unit -> world -> Prop) E :
  read w df = Some f ->
  Q tt (World (heap w) (log w) (stdout w ++ [info_report_of f])
              (files w) (figures w) (shown w)) ->
  wp (info df) w Q E.
Proof.
  intros Hr HQ. unfold info. apply wp_bind. eapply wp_snapshot; [exact Hr|].
  exact HQ.
Qed.

(** The run of [inspect_basic] on a live table. *)
Lemma inspect_basic_run (df : DataFrame Z string) (w : world) f :
  read w df = Some f ->
  exists w',
    inspect_basic df w = Ok tt w' /\
    heap w' = heap w ++ [firstn 5 (data f)] /\
    log w' = log w ++
      [Rec INFO "Inspecting first rows of data" [];
       Rec DEBUG "\n%s" [ATable (head_frame f)];
       Rec INFO "Column names" [];
       Rec DEBUG "%s" [AStrs (columns f)];
       Rec INFO "DataFrame info (types and non-null counts)" [];
       Rec INFO "Dataset shape: %s rows, %s columns"
           [AInt (Z.of_nat (length (index f))); AInt (Z.of_nat (length (columns f)))]] /\
    stdout w' = stdout w ++ [info_report_of f] /\
    files w' = files w /\ figures w' = figures w /\ shown w' = shown w.
Proof.
  intros Hr.
  assert (Hhdr : ob_index df = index f /\ ob_columns df = columns f).
  { unfold read, read_heap in Hr. destruct (nth_error (heap w) (buf df)); [|discriminate].
    injection Hr as <-. split; reflexivity. }
  destruct Hhdr as [Hi Hc].
  assert (H : wp (inspect_basic df) w
                 (fun a w' => a = tt /\
                    heap w' = heap w ++ [firstn 5 (data f)] /\
                    log w' = log w ++
                      [Rec INFO "Inspecting first rows of data" [];
                       Rec DEBUG "\n%s" [ATable (head_frame f)];
                       Rec INFO "Column names" [];
                       Rec DEBUG "%s" [AStrs (columns f)];
                       Rec INFO "DataFrame info (types and non-null counts)" [];
                       Rec INFO "Dataset shape: %s rows, %s columns"
                           [AInt (Z.of_nat (length (index f)));
                            AInt (Z.of_nat (length (columns f)))]] /\
                    stdout w' = stdout w ++ [info_report_of f] /\
                    files w' = files w /\ figures w' = figures w /\
                    shown w' = shown w)
                 (fun _ _ => False)).
  { unfold inspect_basic.
    apply wp_bind, wp_LOG_info.
    apply wp_bind. unfold head. eapply wp_method; [exact Hr|].
    cbv iota beta.
    apply wp_bind. unfold table_of. apply wp_bind.
    eapply wp_snapshot; [apply read_heap_new|].
    apply wp_ret, wp_bind, wp_LOG_debug, wp_bind, wp_LOG_info.
    apply wp_bind, wp_LOG_debug, wp_bind, wp_LOG_info.
    apply wp_bind. eapply wp_info; [solve_read|].
    apply wp_LOG_info.
    split; [reflexivity|].
    unfold shape. rewrite Hi, Hc.
    cbn [heap log stdout files figures shown set_log set_heap head_frame data fst snd].
    rewrite <- !app_assoc. repeat split; reflexivity. }
  apply wp_ok in H. destruct H as (a & w' & Hrun & -> & H).
  exists w'. split; assumption.
Qed.

(** X5.  [inspect_basic] only reports: on any live table it returns
    without raising, the table keeps its content, every earlier buffer is
    untouched, files and figures are as before; it logs the first rows
    (five, or all of them when there are fewer), the column names and the
    shape, and prints one report. *)
Theorem inspect_basic_only_reports
        (df : DataFrame Z string) (w : world) (f : frame Z string) :
  read w df = Some f ->
  exists w' first_rows,
    inspect_basic df w = Ok tt w' /\
    read w' df = Some f /\
    heap_preserved w w' /\
    files w' = files w /\ figures w' = figures w /\ shown w' = shown w /\
    stdout w' = stdout w ++ [info_report_of f] /\
    log w' = log w ++
      [Rec INFO "Inspecting first rows of data" [];
       Rec DEBUG "\n%s" [ATable first_rows];
       Rec INFO "Column names" [];
       Rec DEBUG "%s" [AStrs (columns f)];
       Rec INFO "DataFrame info (types and non-null counts)" [];
       Rec INFO "Dataset shape: %s rows, %s columns"
           [AInt (Z.of_nat (length (index f))); AInt (Z.of_nat (length (columns f)))]] /\
    data first_rows = firstn 5 (data f) /\
    length (data first_rows) = Nat.min 5 (length (data f)) /\
    (length (data f) <= 5 -> data first_rows = data f).
Proof.
  intros Hr.
  destruct (inspect_basic_run df w f Hr) as (w' & Hrun & Hheap & Hlog & Hout & Hf & Hg & Hs).
  assert (Hp : heap_preserved w w') by (eapply heap_preserved_app; exact Hheap).
  exists w', (head_frame f).
  split; [exact Hrun|].
  split; [eapply read_heap_preserved; eassumption|].
  split; [exact Hp|].
  repeat (split; [assumption|]).
  cbn [head_frame data].
  split; [reflexivity|]. split; [apply length_firstn|].
  intros Hle. apply firstn_all2. exact Hle.
Qed.


(** Row [j] of the data dictionary. *)
Lemma data_dictionary_row (f : frame Z string) (j : nat) (c : string) :
  nth_error (columns f) j = Some c ->
  nth_error (data (data_dictionary_of f)) j =
  Some [VStr c; VStr (dtype_str (nth j (dtypes f) object_));
        VInt (Z.of_nat (count_na (column_at (data f) j)));
        VFloat (np_round 2 (Z2F (Z.of_nat (count_na (column_at (data f) j)))
                            / Z2F (Z.of_nat (length (data f))) * 100)%float)].
Proof.
  intros Hj.
  assert (Hlt : j < length (columns f)) by (apply nth_error_Some; congruence).
  unfold data_dictionary_of, frame_of_columns. cbn [data snd fst].
  rewrite length_map. rewrite nth_error_map_seq by exact Hlt.
  cbn [map snd fst]. f_equal.
  rewrite (nth_map_of_nth_error VStr (columns f) j c VNone Hj).
  rewrite (nth_map_of_nth_error (fun t => VStr (dtype_str t)) (frame_dtypes f) j
             (nth j (dtypes f) object_) VNone)
    by (unfold frame_dtypes;
        apply (nth_error_map_seq (fun i => nth i (dtypes f) object_)); exact Hlt).
  rewrite (nth_map_of_nth_error VInt (map snd (isna_sum f)) j
             (Z.of_nat (count_na (column_at (data f) j))) VNone)
    by (unfold isna_sum; rewrite !nth_error_map, (nth_error_enumerate _ _ _ Hj);
        reflexivity).
  rewrite (nth_map_of_nth_error VFloat
             (map (np_round 2) (map (fun x => (x * 100)%float) (map snd (isna_mean f)))) j
             (np_round 2 (Z2F (Z.of_nat (count_na (column_at (data f) j)))
                          / Z2F (Z.of_nat (length (data f))) * 100)%float) VNone)
    by (unfold isna_mean; rewrite !nth_error_map, (nth_error_enumerate _ _ _ Hj);
        reflexivity).
  reflexivity.
Qed.

(** X6.  What [inspect_basic] prints and what [build_data_dictionary]
    returns describe the same table: both have one line per column, in
    order, with the same name and the same dtype string, and the non-null
    count printed for a column plus the missing_count of its dictionary
    row is the number of rows. *)
Theorem inspect_basic_and_dictionary_agree
        (df : DataFrame Z string) (w : world) (f : frame Z string) :
  read w df = Some f ->
  exists w1 report d w2 g,
    inspect_basic df w = Ok tt w1 /\
    stdout w1 = stdout w ++ [report] /\
    build_data_dictionary df w1 = Ok d w2 /\
    read w2 d = Some g /\
    length (per_column report) = length (data g) /\
    forall j c, nth_error (columns f) j = Some c ->
      exists nonnull missing t pct,
        nth_error (per_column report) j = Some (c, nonnull, t) /\
        nth_error (data g) j = Some [VStr c; VStr t; VInt missing; VFloat pct] /\
        (nonnull + missing = Z.of_nat (length (data f)))%Z.
Proof.
  intros Hr.
  destruct (inspect_basic_run df w f Hr) as (w1 & Hrun & Hheap & _ & Hout & _).
  assert (Hr1 : read w1 df = Some f).
  { eapply read_heap_preserved; [|exact Hr]. eapply heap_preserved_app. exact Hheap. }
  pose proof (build_data_dictionary_agrees df w1 f Hr1) as [_ H].
  destruct (build_data_dictionary df w1) as [d w2|e w2] eqn:Erun; [|contradiction].
  exists w1, (info_report_of f), d, w2, (data_dictionary_of f).
  split; [exact Hrun|]. split; [exact Hout|]. split; [exact Erun|].
  split; [exact H|].
  split.
  { unfold info_report_of, data_dictionary_of, frame_of_columns.
    cbn [per_column data snd fst].
    rewrite !length_map, length_enumerate, length_seq. reflexivity. }
  intros j c Hj.
  eexists; eexists; eexists; eexists.
  split.
  { unfold info_report_of. cbn [per_column].
    rewrite nth_error_map, (nth_error_enumerate _ _ _ Hj). reflexivity. }
  split; [apply data_dictionary_row; exact Hj|].
  cbn [fst snd].
  pose proof (count_notna_isna (column_at (data f) j)) as Hc.
  rewrite length_column_at in Hc. lia.
Qed.


(** ** The quality check: duplicates and missing columns *)

Lemma row_eqb_sym (r1 r2 : list value) : row_eqb r1 r2 = row_eqb r2 r1.
Proof.
  unfold row_eqb. rewrite (Nat.eqb_sym (length r1) (length r2)). f_equal.
  revert r2; induction r1 as [|a r1 IH]; intros [|b r2]; simpl; try reflexivity.
  rewrite (value_eqb_sym a b), IH. reflexivity.
Qed.

Lemma count_true_zero (bs : list bool) :
  count_true bs = 0 <-> forall k, nth_error bs k <> Some true.
Proof.
  unfold count_true. induction bs as [|b bs IH]; simpl.
  - split; [intros _ [|k]; discriminate|reflexivity].
  - destruct b; simpl.
    + split; [discriminate|]. intros H. exfalso. apply (H 0). reflexivity.
    + rewrite IH. split.
      * intros H [|k]; [discriminate|apply H].
      * intros H k. apply (H (S k)).
Qed.

Lemma count_true_le (bs : list bool) : count_true bs <= length bs.
Proof. unfold count_true. apply filter_length_le. Qed.

(** No row is marked exactly when no two distinct rows are identical;
    the first row is never marked. *)
Lemma duplicated_none {I C} (f : frame I C) :
  columns f <> [] ->
  (count_true (duplicated f) = 0 <->
   forall a b ra rb, a <> b ->
     nth_error (data f) a = Some ra -> nth_error (data f) b = Some rb ->
     ~ identical ra rb).
Proof.
  intros Hcols. unfold duplicated. destruct (columns f) as [|c cs]; [congruence|].
  rewrite count_true_zero. split.
  - intros Hnone a b ra rb Hab Ha Hb Hid.
    destruct (Nat.lt_total a b) as [Hlt|[Heq|Hlt]]; [|contradiction|].
    + apply (Hnone b). rewrite (duplicated_from_nth [] (data f) b rb Hb). f_equal.
      apply existsb_earlier. exists a, ra. split; [exact Hlt|]. split; [exact Ha|].
      rewrite row_eqb_sym. exact Hid.
    + apply (Hnone a). rewrite (duplicated_from_nth [] (data f) a ra Ha). f_equal.
      apply existsb_earlier. exists b, rb. split; [exact Hlt|]. split; [exact Hb|].
      exact Hid.
  - intros Hno k Hmark.
    assert (Hlt : k < length (data f)).
    { rewrite <- (duplicated_from_length [] (data f)).
      apply nth_error_Some. congruence. }
    destruct (nth_error (data f) k) as [rk|] eqn:Ek;
      [|apply nth_error_None in Ek; lia].
    rewrite (duplicated_from_nth [] (data f) k rk Ek) in Hmark.
    injection Hmark as Hmark. apply existsb_earlier in Hmark.
    destruct Hmark as (a & ra & Hak & Ha & He).
    apply (Hno k a rk ra); [lia|exact Ek|exact Ha|exact He].
Qed.

Lemma duplicated_below_rows {I C} (f : frame I C) :
  data f <> [] -> count_true (duplicated f) < length (data f).
Proof.
  intros Hrows. unfold duplicated.
  destruct (columns f); [unfold count_true; simpl; destruct (data f); [congruence|simpl; lia]|].
  destruct (data f) as [|r rows]; [congruence|].
  cbn [duplicated_from existsb]. unfold count_true. cbn [filter length].
  pose proof (count_true_le (duplicated_from [r] rows)) as Hle.
  unfold count_true in Hle. rewrite duplicated_from_length in Hle. lia.
Qed.

(** X7.  The number [check_quality] logs as "Duplicate rows detected" is
    logged whether or not the call goes on to raise.  For a table with at
    least one column it is 0 exactly when no two distinct rows are
    identical; it is always below the number of rows (the first row is
    never counted); and a table without columns reports 0 whatever rows
    it has. *)
Theorem check_quality_duplicate_count
        (df : DataFrame Z string) (w : world) (f : frame Z string) :
  read w df = Some f ->
  exists n later,
    log (final_world (check_quality df w)) =
    log w ++
      [Rec INFO "Checking missing values per column" [];
       Rec DEBUG "\n%s" [ACounts (sort_counts (isna_sum f))];
       Rec INFO "Duplicate rows detected: %s" [AInt (Z.of_nat n)]] ++ later /\
    (columns f <> [] ->
     (n = 0 <->
      forall a b ra rb, a <> b ->
        nth_error (data f) a = Some ra -> nth_error (data f) b = Some rb ->
        ~ identical ra rb)) /\
    (data f <> [] -> n < length (data f)) /\
    (columns f = [] -> n = 0).
Proof.
  intros Hr.
  exists (count_true (duplicated f)).
  assert (Hlog : exists later,
    log (final_world (check_quality df w)) =
    log w ++
      [Rec INFO "Checking missing values per column" [];
       Rec DEBUG "\n%s" [ACounts (sort_counts (isna_sum f))];
       Rec INFO "Duplicate rows detected: %s"
           [AInt (Z.of_nat (count_true (duplicated f)))]] ++ later).
  { unfold check_quality.
    erewrite final_world_bind_ok by reflexivity.
    erewrite final_world_bind_ok by (apply snapshot_run; exact Hr).
    erewrite final_world_bind_ok by reflexivity.
    erewrite final_world_bind_ok by reflexivity.
    match goal with
    | |- context [final_world (?m ?w0)] =>
        assert (Hm : logs_only m)
          by (unfold getitem, describe, stats_of; logs_only_steps);
        destruct (Hm w0) as (_ & [later Hl] & _)
    end.
    exists later. rewrite Hl. cbn [log set_log]. rewrite <- !app_assoc. reflexivity. }
  destruct Hlog as [later Hlog]. exists later.
  split; [exact Hlog|].
  split; [apply duplicated_none|].
  split; [apply duplicated_below_rows|].
  intros Hc. unfold duplicated. rewrite Hc. reflexivity.
Qed.

Lemma wp_raises {A} (m : M A) w (E : exn -> world -> Prop) :
  wp m w (fun _ _ => False) E -> exists e w', m w = Raise e w' /\ E e w'.
Proof.
  unfold wp. destruct (m w) as [a w'|e w']; [contradiction|].
  intros H. exists e, w'. split; [reflexivity|exact H].
Qed.

(** The labels [df[labels]] reports as missing: those that are no column,
    in the order asked. *)
Lemma missing_labels_filter (hdr labels : list string) :
  missing_labels (get_indexer_for hdr labels) =
  filter (fun l => negb (existsb (String.eqb l) hdr)) labels.
Proof.
  unfold missing_labels, get_indexer_for.
  induction labels as [|l labels IH]; [reflexivity|].
  cbn [map filter snd fst].
  assert (Hp : match positions l hdr with [] => true | _ => false end =
               negb (existsb (String.eqb l) hdr)).
  { destruct (existsb (String.eqb l) hdr) eqn:Ex.
    - apply existsb_exists in Ex. destruct Ex as (x & Hx & Heq).
      apply String.eqb_eq in Heq. subst x.
      apply In_nth_error in Hx. destruct Hx as [j Hj].
      apply positions_spec in Hj.
      destruct (positions l hdr); [contradiction|reflexivity].
    - destruct (positions l hdr) as [|p ps] eqn:Ep; [reflexivity|].
      assert (Hpin : In p (positions l hdr)) by (rewrite Ep; left; reflexivity).
      apply positions_spec in Hpin. apply nth_error_In in Hpin.
      assert (Ht : existsb (String.eqb l) hdr = true)
        by (apply existsb_exists; exists l; split;
            [exact Hpin|apply String.eqb_refl]).
      congruence. }
  rewrite Hp. destruct (negb (existsb (String.eqb l) hdr));
    cbn [map fst]; rewrite IH; reflexivity.
Qed.

(** X8.  When a numeric column is absent from the table, [check_quality]
    raises [KeyError] naming exactly the absent numeric columns, in the
    order of [NUMERIC_COLS].  It does so after logging the missing-value
    counts and the duplicate count, before any summary is computed:
    nothing has been allocated. *)
Theorem check_quality_missing_column
        (df : DataFrame Z string) (w : world) (f : frame Z string) (c : string) :
  read w df = Some f ->
  In c NUMERIC_COLS -> ~ In c (columns f) ->
  exists labels w',
    check_quality df w = Raise (KeyError labels) w' /\
    labels = filter (fun l => negb (existsb (String.eqb l) (columns f))) NUMERIC_COLS /\
    In c labels /\
    (forall l, In l labels <-> In l NUMERIC_COLS /\ ~ In l (columns f)) /\
    heap w' = heap w /\
    log w' = log w ++
      [Rec INFO "Checking missing values per column" [];
       Rec DEBUG "\n%s" [ACounts (sort_counts (isna_sum f))];
       Rec INFO "Duplicate rows detected: %s"
           [AInt (Z.of_nat (count_true (duplicated f)))];
       Rec INFO "Basic sanity check for numeric columns" []].
Proof.
  intros Hr Hc Hn.
  assert (Hin : In c (missing_labels (get_indexer_for (columns f) NUMERIC_COLS)))
    by (apply missing_labels_spec; split; assumption).
  pose proof (missing_labels_filter (columns f) NUMERIC_COLS) as Hfilter.
  destruct (missing_labels (get_indexer_for (columns f) NUMERIC_COLS))
    as [|m ms] eqn:E; [contradiction|].
  assert (H : wp (check_quality df) w (fun _ _ => False)
                 (fun e w' =>
                    e = KeyError (m :: ms) /\ heap w' = heap w /\
                    log w' = log w ++
                      [Rec INFO "Checking missing values per column" [];
                       Rec DEBUG "\n%s" [ACounts (sort_counts (isna_sum f))];
                       Rec INFO "Duplicate rows detected: %s"
                           [AInt (Z.of_nat (count_true (duplicated f)))];
                       Rec INFO "Basic sanity check for numeric columns" []])).
  { unfold check_quality.
    apply wp_bind, wp_LOG_info.
    apply wp_bind. eapply wp_snapshot; [exact Hr|].
    apply wp_bind, wp_LOG_debug.
    apply wp_bind, wp_LOG_info.
    apply wp_bind, wp_LOG_info.
    apply wp_bind. unfold getitem. eapply wp_method; [exact Hr|].
    unfold getitem_frame. cbv zeta. rewrite E.
    split; [reflexivity|]. split; [reflexivity|].
    cbn [log set_log]. rewrite <- !app_assoc. reflexivity. }
  apply wp_raises in H. destruct H as (e & w' & Hrun & -> & Hheap & Hlog).
  exists (m :: ms), w'.
  split; [exact Hrun|]. split; [exact Hfilter|]. split; [exact Hin|].
  split; [|split; assumption].
  intros l. rewrite <- E. apply missing_labels_spec.
Qed.


(** ** Descriptive statistics: counts *)

(** The successful run of [descriptive_stats] on a table with the
    schema. *)
Lemma descriptive_stats_run (df : DataFrame Z string) (w : world) f :
  read w df = Some f ->
  group_column f -> numeric_schema f -> dtypes_respected f ->
  exists overall grouped w' s g,
    descriptive_stats df w = Ok (overall, grouped) w' /\
    summary_of f = inr s /\
    groupby_agg_frame GROUP_COL NUMERIC_COLS
                      ["count"; "mean"; "std"; "min"; "max"]%string f = inr g /\
    columns g = grouped_columns /\
    read w' overall = Some (T_frame s) /\
    read w' grouped = Some g.
Proof.
  intros Hr Hg Hs Ht.
  pose proof (descriptive_stats_agrees df w f Hr) as [_ Hrun].
  unfold descriptive_stats_of in Hrun.
  destruct (groupby_agg_frame_succeeds f Hg Hs Ht) as (g & Hgrp & Hcols).
  pose proof (summary_of_schema f Hs) as Hsum.
  rewrite Hsum, Hgrp in Hrun.
  destruct (descriptive_stats df w) as [[overall grouped] w'|e w']; [|contradiction].
  destruct Hrun as [Ho Hgr].
  eexists overall, grouped, w', _, g.
  split; [reflexivity|]. split; [exact Hsum|]. split; [exact Hgrp|].
  split; [exact Hcols|]. split; assumption.
Qed.

Lemma numeric_values_length (col : list value) :
  (forall v, In v col -> exists x, to_float v = Some x) ->
  length (numeric_values col) = length (filter notna col).
Proof.
  unfold numeric_values, notna.
  induction col as [|v col IH]; intros H; simpl; [reflexivity|].
  destruct (H v (or_introl eq_refl)) as [x Hx].
  rewrite length_app, IH by (intros v' Hv'; apply H; right; exact Hv').
  destruct (isna v); simpl; [reflexivity|]. rewrite Hx. reflexivity.
Qed.

Lemma numeric_column_floats {I} (f : frame I string) (c : string) (v : value) :
  numeric_schema f -> dtypes_respected f -> In c NUMERIC_COLS ->
  In v (column_at (data f) (col_pos c (columns f))) ->
  exists x, to_float v = Some x.
Proof.
  intros Hs Ht Hin Hv. unfold column_at in Hv. apply in_map_iff in Hv.
  destruct Hv as (r & <- & Hr).
  apply (Ht (col_pos c (columns f)) r Hr). apply (Hs c Hin).
Qed.


Lemma sample_group_column : group_column sample_frame.
Proof. vm_compute. reflexivity. Qed.

Lemma sample_dtypes_respected : dtypes_respected sample_frame.
Proof.
  intros j r Hr Hn.
  do 13 (destruct j as [|j];
         [simpl in Hn; try discriminate Hn; simpl in Hr;
          repeat (destruct Hr as [<-|Hr]; [eexists; reflexivity|]); contradiction|]).
  simpl in Hn. destruct j; discriminate Hn.
Qed.


Lemma value_eqb_str (s : string) (k : value) :
  value_eqb (VStr s) k = true -> k = VStr s.
Proof.
  unfold value_eqb. cbn [isna].
  destruct k as [|b|z|x|t]; cbn [isna to_float]; try discriminate.
  - destruct (PrimFloat.is_nan x); discriminate.
  - intros H. apply String.eqb_eq in H. congruence.
Qed.

(** Among keys no two of which are equal, a string equal to one of them
    is equal to exactly one. *)
Lemma one_key_matches (s : string) (keys : list value) :
  distinct_by value_eqb keys ->
  (exists k, In k keys /\ value_eqb (VStr s) k = true) ->
  length (filter (value_eqb (VStr s)) keys) = 1.
Proof.
  induction 1 as [|k0 keys Hother Hd IH]; intros (k & Hin & He).
  - contradiction.
  - cbn [filter]. destruct (value_eqb (VStr s) k0) eqn:E0.
    + apply value_eqb_str in E0. subst k0. cbn [length]. f_equal.
      assert (Hnone : forall y, In y keys -> value_eqb (VStr s) y = false)
        by exact Hother.
      clear -Hnone. induction keys as [|y keys IH]; [reflexivity|].
      cbn [filter]. rewrite (Hnone y (or_introl eq_refl)).
      apply IH. intros y' Hy'. apply Hnone. right. exact Hy'.
    + apply IH. destruct Hin as [<-|Hin]; [congruence|].
      exists k. split; assumption.
Qed.

(** Counting rows group by group is counting, row by row, the keys the
    row matches. *)
Lemma group_sizes_cons (j : nat) (keys : list value) (r : list value)
      (rows : list (list value)) :
  list_sum (map (fun k => length (group_rows j k (r :: rows))) keys) =
  length (filter (value_eqb (cell r j)) keys) +
  list_sum (map (fun k => length (group_rows j k rows)) keys).
Proof.
  induction keys as [|k keys IH]; [reflexivity|].
  change (list_sum (map (fun k => length (group_rows j k (r :: rows))) (k :: keys)))
    with (length (group_rows j k (r :: rows)) +
          list_sum (map (fun k => length (group_rows j k (r :: rows))) keys)).
  rewrite IH.
  change (list_sum (map (fun k => length (group_rows j k rows)) (k :: keys)))
    with (length (group_rows j k rows) +
          list_sum (map (fun k => length (group_rows j k rows)) keys)).
  unfold group_rows. cbn [filter].
  destruct (value_eqb (cell r j) k); cbn [length]; lia.
Qed.

Lemma group_sizes_sum (j : nat) (keys : list value) (rows : list (list value)) :
  (forall r, In r rows -> length (filter (value_eqb (cell r j)) keys) = 1) ->
  list_sum (map (fun k => length (group_rows j k rows)) keys) = length rows.
Proof.
  induction rows as [|r rows IH]; intros H.
  - unfold group_rows. cbn [filter length]. clear H.
    induction keys as [|k keys IHk]; [reflexivity|exact IHk].
  - rewrite group_sizes_cons, (H r (or_introl eq_refl)).
    rewrite IH by (intros r' Hr'; apply H; right; exact Hr'). reflexivity.
Qed.

(** X10.  In the grouped table returned by [descriptive_stats] for a
    cleaned table with the schema, the count of every numeric column in
    the row of a furnishing status is the number of rows with that
    status, which is at least one; the statuses being strings, these
    group sizes add up to the number of rows: every row is counted in
    exactly one group. *)
Theorem descriptive_stats_group_counts
        (df : DataFrame Z string) (w : world) (f : frame Z string) :
  read w df = Some f ->
  cleaned f -> group_column f -> numeric_schema f -> dtypes_respected f ->
  status_strings f ->
  exists overall grouped w' g,
    descriptive_stats df w = Ok (overall, grouped) w' /\
    read w' grouped = Some g /\
    (forall a k m c,
        nth_error (index g) a = Some k ->
        nth_error NUMERIC_COLS m = Some c ->
        nth_error (columns g) (5 * m) = Some (c, "count"%string) /\
        cell (nth a (data g) []) (5 * m) =
          VInt (Z.of_nat (length (group_rows (col_pos GROUP_COL (columns f)) k (data f)))) /\
        1 <= length (group_rows (col_pos GROUP_COL (columns f)) k (data f))) /\
    list_sum (map (fun k => length (group_rows (col_pos GROUP_COL (columns f)) k (data f)))
                  (index g)) = length (data f).
Proof.
  intros Hr Hc Hg Hs Ht Hstr.
  destruct (descriptive_stats_run df w f Hr Hg Hs Ht)
    as (overall & grouped & w' & s & g & Hrun & _ & Hgrp & Hcols & _ & Hread).
  destruct (groupby_agg_frame_inr _ _ _ f g Hgrp) as (j & Hj & Hidx & Hlen & Hcells).
  assert (Ej : j = col_pos GROUP_COL (columns f)).
  { unfold group_column in Hg. rewrite Hg in Hj. injection Hj as <-. reflexivity. }
  subst j.
  destruct (group_keys_spec (column_at (data f) (col_pos GROUP_COL (columns f))))
    as (Hin & Hcov & Hdist).
  exists overall, grouped, w', g.
  split; [exact Hrun|]. split; [exact Hread|].
  split.
  - intros a k m c Ha Hm.
    assert (Hq : nth_error (columns g) (5 * m) = Some (c, "count"%string)).
    { rewrite Hcols.
      do 5 (destruct m as [|m]; [injection Hm as <-; reflexivity|]).
      destruct m; discriminate Hm. }
    split; [exact Hq|].
    assert (Hcn : In c NUMERIC_COLS) by (eapply nth_error_In; exact Hm).
    destruct (Hcells a k (5 * m) c "count"%string Ha Hq)
      as (p & fn & dt & Hp & Hnamed & Hfn).
    destruct (Hs c Hcn) as [Hpos _]. rewrite Hpos in Hp.
    destruct Hp as [<-|[]].
    change (agg_named "count") with (Some (agg_count, fun _ : dtype => int64)) in Hnamed.
    injection Hnamed as <- _.
    unfold agg_count in Hfn.
    assert (Hcell :
              cell (nth a (data g) []) (5 * m) =
              VInt (Z.of_nat (length (filter notna
                      (column_at (group_rows (col_pos GROUP_COL (columns f)) k (data f))
                                 (col_pos c (columns f)))))))
      by (injection Hfn as Hfn; symmetry; exact Hfn).
    rewrite Hcell.
    split.
    + rewrite filter_notna_all; [rewrite length_column_at; reflexivity|].
      intros v Hv. unfold column_at in Hv. apply in_map_iff in Hv.
      destruct Hv as (r & <- & Hrin).
      unfold group_rows in Hrin. apply filter_In in Hrin.
      apply (cleaned_numeric_notna f c _ Hc Hs Hcn).
      unfold column_at.
      apply (in_map (fun r0 => cell r0 (col_pos c (columns f)))).
      exact (proj1 Hrin).
    + rewrite Hidx in Ha. apply nth_error_In in Ha.
      destruct (Hin k Ha) as [Hk _].
      unfold column_at in Hk. apply in_map_iff in Hk.
      destruct Hk as (r & Hkey & Hrin).
      assert (Hmem : In r (group_rows (col_pos GROUP_COL (columns f)) k (data f))).
      { unfold group_rows. apply filter_In. split; [exact Hrin|].
        rewrite Hkey. apply value_eqb_refl. }
      destruct (group_rows (col_pos GROUP_COL (columns f)) k (data f));
        [contradiction|cbn [length]; lia].
  - apply group_sizes_sum. intros r Hrin.
    destruct (Hstr r Hrin) as [st Hst]. rewrite Hst.
    rewrite Hidx. apply one_key_matches; [exact Hdist|].
    apply Hcov.
    + rewrite <- Hst. unfold column_at.
      apply (in_map (fun r0 => cell r0 (col_pos GROUP_COL (columns f)))).
      exact Hrin.
    + reflexivity.
Qed.

Lemma clean_status_strings : status_strings clean_frame.
Proof.
  intros r Hr. simpl in Hr.
  repeat (destruct Hr as [<-|Hr]; [eexists; vm_compute; reflexivity|]).
  contradiction.
Qed.


(** ** Descriptive statistics: text in a numeric column *)

Lemma sequence_err_app {A} (l1 l2 : list (exn + A)) :
  sequence_err (l1 ++ l2) =
  match sequence_err l1 with
  | inl e => inl e
  | inr a1 =>
      match sequence_err l2 with
      | inl e => inl e
      | inr a2 => inr (a1 ++ a2)
      end
  end.
Proof.
  induction l1 as [|x l1 IH]; simpl.
  - destruct (sequence_err l2); reflexivity.
  - destruct x as [e|a]; [reflexivity|]. rewrite IH.
    destruct (sequence_err l1); [reflexivity|].
    destruct (sequence_err l2); reflexivity.
Qed.

(** When [e] is the only error a list of results can hold, it is the
    only error their sequence can give, and it is given as soon as one
    result holds it. *)
Lemma sequence_err_only {A} (e : exn) (l : list (exn + A)) :
  (forall x, In x l -> (exists a, x = inr a) \/ x = inl e) ->
  ((exists l', sequence_err l = inr l') \/ sequence_err l = inl e) /\
  (In (inl e) l -> sequence_err l = inl e).
Proof.
  induction l as [|x l IH]; intros H.
  - split; [left; exists []; reflexivity|intros []].
  - destruct IH as [IH1 IH2]; [intros y Hy; apply H; right; exact Hy|].
    simpl. destruct (H x (or_introl eq_refl)) as [[a ->]| ->].
    + split.
      * destruct IH1 as [[l' ->]| ->]; [left; eexists; reflexivity|right; reflexivity].
      * intros [Hx|Hin]; [discriminate|]. rewrite (IH2 Hin). reflexivity.
    + split; [right; reflexivity|reflexivity].
Qed.

Lemma floats_of_cases (how : string) (col : list value) :
  ((exists xs, floats_of how col = inr xs) \/ floats_of how col = inl (TypeError how)) /\
  (forall s, In (VStr s) col -> floats_of how col = inl (TypeError how)).
Proof.
  unfold floats_of.
  match goal with
  | |- context [sequence_err ?l] =>
      destruct (sequence_err_only (TypeError how) l) as [H1 H2]
  end.
  { intros x Hx. apply in_map_iff in Hx. destruct Hx as (v & <- & _).
    destruct (to_float v); [left; eexists; reflexivity|right; reflexivity]. }
  split; [exact H1|].
  intros s Hs. apply H2.
  apply in_map_iff. exists (VStr s). split; [reflexivity|].
  apply filter_In. split; [exact Hs|reflexivity].
Qed.

Lemma floats_of_inr_numbers (how : string) (col : list value) (xs : list float) :
  floats_of how col = inr xs ->
  forall v, In v col -> exists x, to_float v = Some x.
Proof.
  intros H v Hv. destruct v as [|b|z|x|s]; try (eexists; reflexivity).
  rewrite (proj2 (floats_of_cases how col) s Hv) in H. discriminate.
Qed.

(** The five statistics of one column, group by group: they all succeed,
    or the mean is the first to fail; and the mean fails when a row of
    some group holds text in the column. *)
Lemma agg_column_block (j : nat) (keys : list value) (rows : list (list value))
      (p : nat) :
  let block := [agg_column j keys rows p agg_count;
                agg_column j keys rows p agg_mean;
                agg_column j keys rows p agg_std;
                agg_column j keys rows p agg_min;
                agg_column j keys rows p agg_max] in
  ((exists cs, sequence_err block = inr cs) \/
   sequence_err block = inl (TypeError mean_failed)) /\
  (forall k r s, In k keys -> In r rows ->
                 value_eqb (cell r j) k = true -> cell r p = VStr s ->
                 sequence_err block = inl (TypeError mean_failed)).
Proof.
  intros block.
  assert (Hcount : exists cs, agg_column j keys rows p agg_count = inr cs).
  { unfold agg_column. apply sequence_err_all. apply Forall_forall.
    intros y Hy. apply in_map_iff in Hy. destruct Hy as (k & <- & _).
    eexists. reflexivity. }
  destruct Hcount as [cs Hcount].
  destruct (sequence_err_only (TypeError mean_failed)
              (map (fun k => agg_mean (column_at (group_rows j k rows) p)) keys))
    as [Hm1 Hm2].
  { intros x Hx. apply in_map_iff in Hx. destruct Hx as (k & <- & _).
    unfold agg_mean.
    destruct (proj1 (floats_of_cases mean_failed (column_at (group_rows j k rows) p)))
      as [[xs Hxs]|Hxs]; unfold mean_failed in Hxs; rewrite Hxs;
      [left; eexists; reflexivity|right; reflexivity]. }
  fold (agg_column j keys rows p agg_mean) in Hm1, Hm2.
  assert (Hfail : agg_column j keys rows p agg_mean = inl (TypeError mean_failed) ->
                  sequence_err block = inl (TypeError mean_failed)).
  { intros E. unfold block. cbn [sequence_err]. rewrite Hcount, E. reflexivity. }
  split.
  - destruct Hm1 as [[ms Hmean]|Hmean]; [|right; apply Hfail; exact Hmean].
    left.
    assert (Hnum : forall k, In k keys ->
              forall v, In v (column_at (group_rows j k rows) p) ->
                        exists x, to_float v = Some x).
    { intros k Hk.
      pose proof (sequence_err_inr _ _ Hmean) as Hall.
      assert (Hin : In (agg_mean (column_at (group_rows j k rows) p)) (map inr ms)).
      { unfold agg_column in Hall. rewrite <- Hall.
        apply (in_map (fun k0 => agg_mean (column_at (group_rows j k0 rows) p))).
        exact Hk. }
      apply in_map_iff in Hin. destruct Hin as (m & Hm & _).
      unfold agg_mean in Hm.
      destruct (floats_of "agg function failed [how->mean,dtype->object]"
                          (column_at (group_rows j k rows) p)) as [e|xs] eqn:Ef;
        [discriminate|].
      exact (floats_of_inr_numbers _ _ xs Ef). }
    assert (Hall : forall fn, reduces_numbers fn ->
              exists col, agg_column j keys rows p fn = inr col).
    { intros fn Hfn. unfold agg_column. apply sequence_err_all. apply Forall_forall.
      intros y Hy. apply in_map_iff in Hy. destruct Hy as (k & <- & Hk).
      apply Hfn. exact (Hnum k Hk). }
    destruct (Hall agg_std agg_std_numbers) as [c3 H3].
    destruct (Hall agg_min agg_min_numbers) as [c4 H4].
    destruct (Hall agg_max agg_max_numbers) as [c5 H5].
    unfold block. cbn [sequence_err]. rewrite Hcount, Hmean, H3, H4, H5.
    eexists. reflexivity.
  - intros k r s Hk Hr Hkey Hcell. apply Hfail, Hm2.
    apply in_map_iff. exists k. split; [|exact Hk].
    unfold agg_mean.
    rewrite (proj2 (floats_of_cases "agg function failed [how->mean,dtype->object]"
                      (column_at (group_rows j k rows) p)) s); [reflexivity|].
    rewrite <- Hcell. unfold column_at.
    apply (in_map (fun r0 => cell r0 p)).
    unfold group_rows. apply filter_In. split; assumption.
Qed.

(** The whole plan of the grouped statistics: column after column, the
    first failure is a mean over text. *)
Lemma agg_plan_text (hdr : list string) (j : nat) (keys : list value)
      (rows : list (list value)) (labels : list string) :
  let results :=
    map (fun q : string * nat * (string * ((list value -> exn + value) * (dtype -> dtype))) =>
           agg_column j keys rows (snd (fst q)) (fst (snd (snd q))))
        (flat_map (fun cp => map (fun nf => (cp, nf))
                     [("count"%string, (agg_count, fun _ : dtype => int64));
                      ("mean"%string, (agg_mean, fun _ : dtype => float64));
                      ("std"%string, (agg_std, fun _ : dtype => float64));
                      ("min"%string, (agg_min, fun t : dtype => t));
                      ("max"%string, (agg_max, fun t : dtype => t))])
                  (map (fun c => (c, col_pos c hdr)) labels)) in
  ((exists cs, sequence_err results = inr cs) \/
   sequence_err results = inl (TypeError mean_failed)) /\
  (forall c k r s, In c labels -> In k keys -> In r rows ->
                   value_eqb (cell r j) k = true -> cell r (col_pos c hdr) = VStr s ->
                   sequence_err results = inl (TypeError mean_failed)).
Proof.
  induction labels as [|c0 labels IH]; intros results.
  - split; [left; exists []; reflexivity|intros c k r s []].
  - destruct IH as [IH1 IH2].
    destruct (agg_column_block j keys rows (col_pos c0 hdr)) as [B1 B2].
    unfold results. cbn [map flat_map]. rewrite map_app, sequence_err_app.
    cbn [map fst snd] in IH1, IH2, B1, B2 |- *.
    split.
    + destruct B1 as [[cs ->]| ->]; [|right; reflexivity].
      destruct IH1 as [[cs' ->]| ->]; [left; eexists; reflexivity|right; reflexivity].
    + intros c k r s [<-|Hc] Hk Hr Hkey Hcell.
      * rewrite (B2 k r s Hk Hr Hkey Hcell). reflexivity.
      * destruct B1 as [[cs ->]| ->]; [|reflexivity].
        rewrite (IH2 c k r s Hc Hk Hr Hkey Hcell). reflexivity.
Qed.

(** With the columns in place, text in a numeric column makes the grouped
    statistics fail. *)
Lemma groupby_agg_frame_text {I} (f : frame I string) (c : string)
      (r : list value) (s : string) :
  group_column f ->
  (forall c', In c' NUMERIC_COLS ->
              positions c' (columns f) = [col_pos c' (columns f)]) ->
  In c NUMERIC_COLS -> In r (data f) ->
  cell r (col_pos c (columns f)) = VStr s ->
  isna (cell r (col_pos GROUP_COL (columns f))) = false ->
  groupby_agg_frame GROUP_COL NUMERIC_COLS
                    ["count"; "mean"; "std"; "min"; "max"]%string f
  = inl (TypeError mean_failed).
Proof.
  intros Hg Hcols Hc Hr Hcell Hkey.
  unfold groupby_agg_frame. rewrite Hg.
  rewrite get_indexer_for_once by exact Hcols.
  rewrite missing_labels_once, selected_once.
  change (sequence_err
            (map (fun n => match agg_named n with
                           | Some fd => inr (n, fd)
                           | None => inl (AttributeError n)
                           end) ["count"; "mean"; "std"; "min"; "max"]%string))
    with (@inr exn _
            [("count"%string, (agg_count, fun _ : dtype => int64));
             ("mean"%string, (agg_mean, fun _ : dtype => float64));
             ("std"%string, (agg_std, fun _ : dtype => float64));
             ("min"%string, (agg_min, fun t : dtype => t));
             ("max"%string, (agg_max, fun t : dtype => t))]).
  cbv iota beta zeta.
  destruct (group_keys_spec (column_at (data f) (col_pos GROUP_COL (columns f))))
    as (_ & Hcov & _).
  destruct (Hcov (cell r (col_pos GROUP_COL (columns f)))) as (k & Hk & Hmatch).
  { unfold column_at.
    apply (in_map (fun r0 => cell r0 (col_pos GROUP_COL (columns f)))). exact Hr. }
  { exact Hkey. }
  rewrite (proj2 (agg_plan_text (columns f) (col_pos GROUP_COL (columns f))
                    (group_keys (column_at (data f) (col_pos GROUP_COL (columns f))))
                    (data f) NUMERIC_COLS) c k r s Hc Hk Hr Hmatch Hcell).
  reflexivity.
Qed.

(** The run of [descriptive_stats] on a table with text in a numeric
    column: the overall statistics are logged, then the grouped mean
    fails. *)
Lemma descriptive_stats_text_run
      (df : DataFrame Z string) (w : world) (f : frame Z string)
      (c : string) (r : list value) (s : string) :
  read w df = Some f ->
  group_column f ->
  (forall c', In c' NUMERIC_COLS ->
              positions c' (columns f) = [col_pos c' (columns f)]) ->
  In c NUMERIC_COLS -> In r (data f) ->
  cell r (col_pos c (columns f)) = VStr s ->
  isna (cell r (col_pos GROUP_COL (columns f))) = false ->
  exists w' o,
    descriptive_stats df w = Raise (TypeError mean_failed) w' /\
    summary_of f = inr o /\
    log w' = log w ++
      [Rec INFO "Computing overall descriptive statistics" [];
       Rec DEBUG "\n%s" [AStats (T_frame o)];
       Rec INFO "Computing descriptive statistics by %s" [AStr GROUP_COL]].
Proof.
  intros Hr Hg Hcols Hc Hin Hcell Hkey.
  pose proof (groupby_agg_frame_text f c r s Hg Hcols Hc Hin Hcell Hkey) as Hgrp.
  assert (Hsum : exists o, summary_of f = inr o).
  { unfold summary_of. rewrite (getitem_frame_once NUMERIC_COLS f Hcols).
    unfold describe_frame. cbn [columns NUMERIC_COLS].
    match goal with
    | |- context [filter ?p ?l] => destruct (filter p l)
    end; eexists; reflexivity. }
  destruct Hsum as [o Hsum].
  assert (H : wp (descriptive_stats df) w (fun _ _ => False)
                 (fun e w' =>
                    e = TypeError mean_failed /\
                    log w' = log w ++
                      [Rec INFO "Computing overall descriptive statistics" [];
                       Rec DEBUG "\n%s" [AStats (T_frame o)];
                       Rec INFO "Computing descriptive statistics by %s"
                           [AStr GROUP_COL]])).
  { unfold descriptive_stats. unfold summary_of in Hsum.
    apply wp_bind, wp_LOG_info.
    apply wp_bind. unfold getitem. eapply wp_method; [exact Hr|].
    destruct (getitem_frame NUMERIC_COLS f) as [e|g0]; [discriminate|].
    apply wp_bind. unfold describe. eapply wp_method; [apply read_heap_new|].
    rewrite Hsum.
    apply wp_bind. unfold T. eapply wp_method; [apply read_heap_new|].
    cbv iota beta.
    apply wp_bind. unfold stats_of. apply wp_bind.
    eapply wp_snapshot; [apply read_heap_new|].
    apply wp_ret, wp_bind, wp_LOG_debug, wp_bind, wp_LOG_info.
    apply wp_bind. unfold groupby_agg. eapply wp_method; [solve_read|].
    rewrite Hgrp.
    split; [reflexivity|].
    cbn [log set_log set_heap]. rewrite <- !app_assoc. reflexivity. }
  apply wp_raises in H. destruct H as (e & w' & Hrun & -> & Hlog).
  exists w', o.
  split; [exact Hrun|]. split; [exact Hsum|exact Hlog].
Qed.

(** X11.  When a numeric column of the table holds text in a row that
    has a furnishing status, [descriptive_stats] returns no table: it
    raises [TypeError] for the mean, whichever column holds the text.
    The overall statistics have been computed and logged by then; the
    run has only logged, and the input table is as it was. *)
Theorem descriptive_stats_text_column
        (df : DataFrame Z string) (w : world) (f : frame Z string)
        (c : string) (r : list value) (s : string) :
  read w df = Some f ->
  group_column f ->
  (forall c', In c' NUMERIC_COLS ->
              positions c' (columns f) = [col_pos c' (columns f)]) ->
  In c NUMERIC_COLS -> In r (data f) ->
  cell r (col_pos c (columns f)) = VStr s ->
  isna (cell r (col_pos GROUP_COL (columns f))) = false ->
  exists w' overall,
    descriptive_stats df w = Raise (TypeError mean_failed) w' /\
    log w' = log w ++
      [Rec INFO "Computing overall descriptive statistics" [];
       Rec DEBUG "\n%s" [AStats overall];
       Rec INFO "Computing descriptive statistics by %s" [AStr GROUP_COL]] /\
    only_logged w w' /\
    read w' df = Some f.
Proof.
  intros Hr Hg Hcols Hc Hin Hcell Hkey.
  destruct (descriptive_stats_text_run df w f c r s Hr Hg Hcols Hc Hin Hcell Hkey)
    as (w' & o & Hrun & Hsum & Hlog).
  pose proof (logs_only_descriptive_stats df w) as Honly.
  rewrite Hrun in Honly. cbn [final_world] in Honly.
  exists w', (T_frame o).
  split; [exact Hrun|]. split; [exact Hlog|].
  split; [exact Honly|].
  eapply read_heap_preserved; [exact (proj1 Honly)|exact Hr].
Qed.


(** ** Correlations: no rows, text, missing columns *)

(** X12.  On a table that has the numeric columns but no row,
    [correlation_matrix] raises nothing: it returns the 5 by 5 table
    labelled by the numeric columns in which every coefficient, the
    diagonal included, is NaN. *)
Theorem correlation_matrix_no_rows
        (df : DataFrame Z string) (w : world) (f : frame Z string) :
  read w df = Some f ->
  (forall c, In c NUMERIC_COLS ->
             positions c (columns f) = [col_pos c (columns f)]) ->
  data f = [] ->
  exists d w' c,
    correlation_matrix df w = Ok d w' /\
    read w' d = Some c /\
    index c = NUMERIC_COLS /\
    columns c = NUMERIC_COLS /\
    length (data c) = 5 /\
    (forall i j, i < 5 -> j < 5 ->
       exists x, cell (nth i (data c) []) j = VFloat x /\
                 PrimFloat.is_nan x = true).
Proof.
  intros Hr Hcols Hempty.
  pose proof (correlation_matrix_agrees df w f Hr) as [_ Hrun].
  unfold correlation_of in Hrun.
  rewrite (getitem_frame_once NUMERIC_COLS f Hcols), Hempty in Hrun.
  unfold corr_frame, to_numpy_float in Hrun.
  cbn [data map sequence_err columns] in Hrun.
  destruct (correlation_matrix df w) as [d w'|e w']; [|contradiction].
  eexists d, w', _. split; [reflexivity|]. split; [exact Hrun|].
  cbn [index columns data].
  split; [reflexivity|]. split; [reflexivity|].
  change (length NUMERIC_COLS) with 5.
  split; [exact (proj1 (nancorr_shape 5 []))|].
  intros i j Hi Hj. exists (nancorr_entry [] i j).
  split; [apply nancorr_cell; assumption|].
  unfold nancorr_entry. destruct (Nat.leb j i); reflexivity.
Qed.

(** A cell converts or gives the one message. *)
Lemma float_of_cell_cases (msg : string) (v : value) :
  (exists x, float_of_cell msg v = inr x) \/ float_of_cell msg v = inl (ValueError msg).
Proof.
  destruct v as [|b|z|x|s]; cbn [float_of_cell];
    try (left; eexists; reflexivity).
  destruct (py_float s); [left; eexists; reflexivity|right; reflexivity].
Qed.

(** Text that Python's [float] rejects, in a selected column, makes the
    conversion to floats fail. *)
Lemma correlation_of_text (f : frame Z string) (c : string)
      (r : list value) (s : string) :
  (forall c', In c' NUMERIC_COLS ->
              positions c' (columns f) = [col_pos c' (columns f)]) ->
  In c NUMERIC_COLS -> In r (data f) ->
  cell r (col_pos c (columns f)) = VStr s ->
  py_float s = None ->
  exists msg, correlation_of f = inl (ValueError msg).
Proof.
  intros Hcols Hc Hr Hcell Hpy. unfold correlation_of.
  rewrite (getitem_frame_once NUMERIC_COLS f Hcols).
  unfold corr_frame, to_numpy_float. cbn [data].
  match goal with
  | |- context [float_of_cell ?m] => set (msg := m)
  end.
  exists msg.
  match goal with
  | |- context [sequence_err ?l] =>
      destruct (sequence_err_only (ValueError msg) l) as [_ H2]
  end.
  { intros x Hx. apply in_map_iff in Hx. destruct Hx as (row & <- & _).
    match goal with
    | |- context [sequence_err ?l] =>
        destruct (sequence_err_only (ValueError msg) l) as [H1 _]
    end.
    { intros y Hy. apply in_map_iff in Hy. destruct Hy as (v & <- & _).
      apply float_of_cell_cases. }
    destruct H1 as [[xs ->]| ->]; [left; eexists; reflexivity|right; reflexivity]. }
  rewrite H2; [reflexivity|].
  apply in_map_iff.
  exists (take (map (fun c0 => col_pos c0 (columns f)) NUMERIC_COLS) r).
  split; [|apply in_map; exact Hr].
  match goal with
  | |- sequence_err ?l = _ =>
      destruct (sequence_err_only (ValueError msg) l) as [_ H3]
  end.
  { intros y Hy. apply in_map_iff in Hy. destruct Hy as (v & <- & _).
    apply float_of_cell_cases. }
  apply H3. apply in_map_iff. exists (VStr s).
  split; [cbn [float_of_cell]; rewrite Hpy; reflexivity|].
  unfold take. rewrite <- Hcell.
  apply (in_map (cell r)).
  apply (in_map (fun c0 => col_pos c0 (columns f))). exact Hc.
Qed.


(** X14.  When a numeric column is absent from the table,
    [descriptive_stats] and [correlation_matrix] both stop at their first
    step: each raises [KeyError] naming exactly the absent numeric
    columns, after its first log record and nothing else. *)
Theorem statistics_missing_column
        (df : DataFrame Z string) (w : world) (f : frame Z string) (c : string) :
  read w df = Some f ->
  In c NUMERIC_COLS -> ~ In c (columns f) ->
  exists labels,
    descriptive_stats df w =
      Raise (KeyError labels) (logged "Computing overall descriptive statistics" w) /\
    correlation_matrix df w =
      Raise (KeyError labels)
            (logged "Computing correlation matrix for numeric columns" w) /\
    In c labels /\
    forall l, In l labels <-> In l NUMERIC_COLS /\ ~ In l (columns f).
Proof.
  intros Hr Hc Hn.
  assert (Hin : In c (missing_labels (get_indexer_for (columns f) NUMERIC_COLS)))
    by (apply missing_labels_spec; split; assumption).
  destruct (missing_labels (get_indexer_for (columns f) NUMERIC_COLS))
    as [|m ms] eqn:E; [contradiction|].
  assert (Hget : forall w0, read w0 df = Some f ->
            getitem NUMERIC_COLS df w0 = Raise (KeyError (m :: ms)) w0).
  { intros w0 Hr0. unfold getitem, method, bind.
    rewrite (snapshot_run df w0 f Hr0).
    unfold getitem_frame. cbv zeta. rewrite E. reflexivity. }
  exists (m :: ms).
  split.
  { unfold descriptive_stats, bind, LOG_info.
    rewrite Hget by exact Hr. reflexivity. }
  split.
  { unfold correlation_matrix, bind, LOG_info.
    rewrite Hget by exact Hr. reflexivity. }
  split; [exact Hin|].
  intros l. rewrite <- E. apply missing_labels_spec.
Qed.


(** ** The plots *)

Lemma is_column_In (c : string) (hdr : list string) :
  is_column c hdr = true <-> In c hdr.
Proof.
  unfold is_column. rewrite existsb_exists. split.
  - intros (x & Hx & He). apply String.eqb_eq in He. subst x. exact Hx.
  - intros H. exists c. split; [exact H|apply String.eqb_refl].
Qed.

Lemma update_nth_last {A} (g : A -> A) (l : list A) (x : A) :
  update_nth (length l) g (l ++ [x]) = l ++ [g x].
Proof.
  induction l as [|y l IH]; simpl; [reflexivity|]. rewrite IH. reflexivity.
Qed.

Lemma current_figures_of (w : world) : current_figures w = current_of (figures w).
Proof. unfold current_figures, current_of. destruct (figures w); reflexivity. Qed.

Lemma current_of_last (fs : list figure) :
  length (current_of fs) - 1 = length (removelast (current_of fs)).
Proof.
  assert (Hne : current_of fs <> []) by (destruct fs; discriminate).
  rewrite (app_removelast_last empty_figure Hne) at 1.
  rewrite length_app. simpl. lia.
Qed.

Lemma current_of_app (l : list figure) (x : figure) :
  current_of (l ++ [x]) = l ++ [x].
Proof. destruct l; reflexivity. Qed.

(** Every plot variable names a column, or the first that does not is
    found. *)
Lemma not_in_data_none (hdr : list string) (vars : list (string * string)) :
  (forall kv, In kv vars -> In (snd kv) hdr) -> not_in_data hdr vars = None.
Proof.
  intros H. unfold not_in_data.
  induction vars as [|kv vars IH]; [reflexivity|].
  cbn [find].
  assert (Hc : is_column (snd kv) hdr = true)
    by (apply is_column_In, H; left; reflexivity).
  rewrite Hc. cbn [negb]. apply IH. intros kv' Hkv'. apply H. right. exact Hkv'.
Qed.

Lemma not_in_data_some (hdr : list string) (vars : list (string * string))
      (kv : string * string) :
  In kv vars -> ~ In (snd kv) hdr ->
  exists kv', not_in_data hdr vars = Some kv' /\ In kv' vars /\ ~ In (snd kv') hdr.
Proof.
  intros Hin Hn. unfold not_in_data.
  induction vars as [|kv0 vars IH]; [contradiction|].
  cbn [find]. destruct (is_column (snd kv0) hdr) eqn:E; cbn [negb].
  - destruct Hin as [->|Hin].
    + exfalso. apply Hn. apply is_column_In. exact E.
    + destruct (IH Hin) as (kv' & Hf & Hi & Hno).
      exists kv'. split; [exact Hf|]. split; [right; exact Hi|exact Hno].
  - exists kv0. split; [reflexivity|]. split; [left; reflexivity|].
    intros Hc. apply is_column_In in Hc. congruence.
Qed.

Lemma scatter_run (df : DataFrame Z string) (x y hue : string) f w :
  read w df = Some f ->
  not_in_data (columns f) [("x", x); ("y", y); ("hue", hue)]%string = None ->
  sns_scatterplot df x y hue w =
  Ok (length (removelast (current_of (figures w))))
     (set_figures (removelast (current_of (figures w)) ++
                   [Fig (plots (last (current_of (figures w)) empty_figure)
                         ++ [ScatterPlot x y hue f]) x y
                        (title (last (current_of (figures w)) empty_figure))]) w).
Proof.
  intros Hr Hc. unfold sns_scatterplot, bind. rewrite (snapshot_run df w f Hr).
  rewrite Hc. unfold on_current. rewrite current_figures_of, current_of_last.
  reflexivity.
Qed.

Lemma boxplot_run (df : DataFrame Z string) (x y : string) f w :
  read w df = Some f ->
  not_in_data (columns f) [("x", x); ("y", y)]%string = None ->
  sns_boxplot df x y w =
  Ok tt
     (set_figures (removelast (current_of (figures w)) ++
                   [Fig (plots (last (current_of (figures w)) empty_figure)
                         ++ [BoxPlot x y f]) x y
                        (title (last (current_of (figures w)) empty_figure))]) w).
Proof.
  intros Hr Hc. unfold sns_boxplot, bind. rewrite (snapshot_run df w f Hr).
  rewrite Hc. unfold on_current. rewrite current_figures_of.
  reflexivity.
Qed.

Lemma make_plots_run (df : DataFrame Z string) (w : world) (f : frame Z string) :
  read w df = Some f ->
  (forall c, In c PLOT_COLS -> In c (columns f)) ->
  make_plots df w =
  Ok tt (World (heap w)
               (log w ++ [Rec INFO "Creating scatter plot: area vs price" []])
               (stdout w) (files w)
               (removelast (current_of (figures w)) ++
                [scatter_figure (last (current_of (figures w)) empty_figure) f;
                 box_figure f])
               true).
Proof.
  intros Hr Hcols.
  assert (Hscatter : not_in_data (columns f)
                       [("x", "area"); ("y", "price"); ("hue", GROUP_COL)]%string = None).
  { apply not_in_data_none. intros kv Hkv. apply Hcols.
    simpl in Hkv. destruct Hkv as [<-|[<-|[<-|[]]]]; simpl; tauto. }
  assert (Hbox : not_in_data (columns f)
                   [("x", GROUP_COL); ("y", "price")]%string = None).
  { apply not_in_data_none. intros kv Hkv. apply Hcols.
    simpl in Hkv. destruct Hkv as [<-|[<-|[]]]; simpl; tauto. }
  unfold make_plots.
  unfold bind at 1. unfold LOG_info at 1.
  unfold bind at 1.
  rewrite (scatter_run df "area" "price" GROUP_COL f)
    by (try exact Hr; exact Hscatter).
  cbn [figures set_log].
  set (base := removelast (current_of (figures w))).
  set (g0 := last (current_of (figures w)) empty_figure).
  unfold bind at 1. unfold set_xlabel, on_axes at 1.
  cbn [figures set_figures]. rewrite update_nth_last.
  unfold bind at 1. unfold set_ylabel, on_axes at 1.
  cbn [figures set_figures]. rewrite update_nth_last.
  unfold bind at 1. unfold set_title, on_axes at 1.
  cbn [figures set_figures]. rewrite update_nth_last.
  cbn [plots xlabel ylabel title heap log stdout files shown set_log].
  unfold bind at 1. unfold plt_figure at 1.
  cbn [figures set_figures heap log stdout files shown].
  unfold bind at 1.
  rewrite (boxplot_run _ GROUP_COL "price" f)
    by (try (unfold read in *; exact Hr); exact Hbox).
  cbn [figures set_figures heap log stdout files shown].
  rewrite current_of_app, removelast_last, last_last.
  unfold bind at 1. unfold plt_title, on_current.
  rewrite current_figures_of.
  cbn [figures set_figures heap log stdout files shown].
  rewrite current_of_app, removelast_last, last_last.
  unfold plt_show.
  cbn [figures set_figures heap log stdout files shown plots xlabel ylabel title app].
  rewrite <- app_assoc. reflexivity.
Qed.

(** X15.  When the table has the columns area, price and
    furnishingstatus, [make_plots] returns after drawing two figures from
    the content of the table: the scatter plot of price against area,
    coloured by furnishing status, on the figure that was current (a new
    one when there was none), with its labels and title, and the box plot
    of price by furnishing status on a new figure, with its title.  The
    figures are then shown; one record is logged; no buffer, file or
    printed output changes. *)
Theorem make_plots_draws
        (df : DataFrame Z string) (w : world) (f : frame Z string) :
  read w df = Some f ->
  (forall c, In c PLOT_COLS -> In c (columns f)) ->
  exists w',
    make_plots df w = Ok tt w' /\
    figures w' =
      removelast (current_figures w) ++
      [scatter_figure (last (current_figures w) empty_figure) f; box_figure f] /\
    shown w' = true /\
    log w' = log w ++ [Rec INFO "Creating scatter plot: area vs price" []] /\
    heap w' = heap w /\ stdout w' = stdout w /\ files w' = files w /\
    (figures w = [] -> figures w' = [scatter_figure empty_figure f; box_figure f]).
Proof.
  intros Hr Hcols.
  eexists. split; [exact (make_plots_run df w f Hr Hcols)|].
  cbn [heap log stdout files figures shown].
  rewrite current_figures_of.
  repeat (split; [reflexivity|]).
  intros Hnone. rewrite Hnone. reflexivity.
Qed.

(** X16.  When area, price or furnishingstatus is no column of the
    table, [make_plots] draws nothing at all: it raises [ValueError] in
    the scatter plot, after its one log record, with the platform's
    message for one of the plot variables x = area, y = price, hue =
    furnishingstatus whose column is absent; no figure is created or
    changed and nothing is shown.  The box plot needs no column the
    scatter plot does not need, so either both are drawn or none. *)
Theorem make_plots_missing_column
        (df : DataFrame Z string) (w : world) (f : frame Z string) (c : string) :
  read w df = Some f ->
  In c PLOT_COLS -> ~ In c (columns f) ->
  exists key val,
    make_plots df w =
      Raise (ValueError (plot_error key val))
            (logged "Creating scatter plot: area vs price" w) /\
    In (key, val) [("x", "area"); ("y", "price"); ("hue", "furnishingstatus")]%string /\
    ~ In val (columns f) /\
    figures (final_world (make_plots df w)) = figures w /\
    shown (final_world (make_plots df w)) = shown w.
Proof.
  intros Hr Hc Hn.
  destruct (not_in_data_some (columns f)
              [("x", "area"); ("y", "price"); ("hue", GROUP_COL)]%string
              (match c with
               | "area" => ("x", "area")
               | "price" => ("y", "price")
               | _ => ("hue", GROUP_COL)
               end)%string)
    as ([key val] & Hfind & Hin & Hno).
  { simpl in Hc. destruct Hc as [<-|[<-|[<-|[]]]]; simpl; tauto. }
  { simpl in Hc. destruct Hc as [<-|[<-|[<-|[]]]]; exact Hn. }
  assert (Hrun : make_plots df w =
                 Raise (ValueError (plot_error key val))
                       (logged "Creating scatter plot: area vs price" w)).
  { unfold make_plots. unfold bind at 1. unfold LOG_info at 1.
    unfold bind at 1. unfold sns_scatterplot, bind.
    rewrite (snapshot_run df _ f) by exact Hr.
    rewrite Hfind. reflexivity. }
  exists key, val. rewrite Hrun.
  split; [reflexivity|]. split; [exact Hin|]. split; [exact Hno|].
  split; reflexivity.
Qed.


(** ** The whole run *)

(** [main], stage by stage. *)
Lemma main_by_stages (w : world) :
  main w =
  match load_data (started w) with
  | Raise e w' => Raise e w'
  | Ok df w2 =>
    match inspect_basic df
            (logged "Section 3: Inspect data shape and basic structure" w2) with
    | Raise e w' => Raise e w'
    | Ok _ w3 =>
      match build_data_dictionary df (logged "Section 4: Check data quality" w3) with
      | Raise e w' => Raise e w'
      | Ok _ w4 =>
        match check_quality df w4 with
        | Raise e w' => Raise e w'
        | Ok _ w5 =>
          match make_clean_view df
                  (logged "Section 5: Create a cleaned view for EDA" w5) with
          | Raise e w' => Raise e w'
          | Ok df_clean w6 =>
            match descriptive_stats df_clean
                    (logged "Section 6: Compute descriptive statistics for numeric columns" w6) with
            | Raise e w' => Raise e w'
            | Ok _ w7 =>
              match correlation_matrix df_clean
                      (logged "Section 7: Show correlation matrix for numeric columns" w7) with
              | Raise e w' => Raise e w'
              | Ok _ w8 =>
                match make_plots df_clean (logged "Section 8: Make plots" w8) with
                | Raise e w' => Raise e w'
                | Ok _ w9 => Ok tt (finished w9)
                end
              end
            end
          end
        end
      end
    end
  end.
Proof. reflexivity. Qed.

Lemma load_data_run (w : world) header types records :
  files w "Housing.csv"%string = Some (Csv header types records) ->
  exists df w',
    load_data w = Ok df w' /\
    read w' df = Some (Frame (map Z.of_nat (seq 0 (length records)))
                             header types records) /\
    only_logged w w'.
Proof.
  intros Hfile.
  unfold load_data, bind, LOG_info, read_csv. cbn [files set_log].
  rewrite Hfile. unfold new_frame, ret.
  cbn [heap set_log set_heap index columns dtypes data].
  eexists; eexists. split; [reflexivity|].
  split.
  { unfold read, read_heap. cbn [heap set_log set_heap buf].
    rewrite nth_error_app2 by lia. rewrite Nat.sub_diag. reflexivity. }
  split.
  { intros a Ha. cbn [heap set_log set_heap]. apply nth_error_app1. exact Ha. }
  cbn [heap log stdout files figures shown set_log set_heap].
  split; [rewrite <- app_assoc; eexists; reflexivity|].
  repeat split; reflexivity.
Qed.

Lemma only_logged_logged (m : string) (w : world) : only_logged w (logged m w).
Proof. unfold logged. apply only_logged_log. Qed.

(** [main] has only logged when it calls [load_data]. *)
Lemma only_logged_started (w : world) : only_logged w (started w).
Proof.
  unfold started.
  eapply only_logged_trans; [apply only_logged_log|].
  eapply only_logged_trans; apply only_logged_logged.
Qed.

Lemma only_logged_ok {A} (m : M A) (w : world) (a : A) (w' : world) :
  logs_only m -> m w = Ok a w' -> only_logged w w'.
Proof. intros Hl E. pose proof (Hl w) as H. rewrite E in H. exact H. Qed.

Lemma schema_has_columns (f : frame Z string) :
  numeric_schema f -> group_column f ->
  has_columns (columns f) (NUMERIC_COLS ++ [GROUP_COL]).
Proof.
  intros Hs Hg c Hc. apply in_app_or in Hc.
  destruct Hc as [Hc|[<-|[]]].
  - eapply nth_error_In. apply col_pos_label. apply (Hs c Hc).
  - eapply nth_error_In. apply col_pos_label. exact Hg.
Qed.

(** The cleaned view keeps the schema. *)
Lemma clean_view_keeps_schema (f f' : frame Z string) :
  has_columns (columns f) (NUMERIC_COLS ++ [GROUP_COL]) ->
  clean_view_of f = inr f' ->
  numeric_schema f -> group_column f -> dtypes_respected f ->
  numeric_schema f' /\ group_column f' /\ dtypes_respected f'.
Proof.
  intros Hc Hcv Hs Hg Ht.
  destruct (clean_view_of_facts f f' Hc Hcv) as (Hcols & Hty & Hdata & _ & _).
  split; [|split].
  - intros c Hin. unfold numeric_column. rewrite Hcols, Hty. apply (Hs c Hin).
  - unfold group_column. rewrite Hcols. exact Hg.
  - intros j r Hin Hn. rewrite Hdata in Hin. apply filter_In in Hin.
    rewrite Hty in Hn. apply Ht; [exact (proj1 Hin)|exact Hn].
Qed.

(** X17.  When Housing.csv parses to a table with the schema (the five
    numeric columns once each with numeric dtypes and cells, and the
    furnishingstatus column once), [main] runs all eight stages and
    returns: no stage raises.  It ends with the two figures drawn from
    the cleaned view and shown, one report printed, the files untouched,
    and the three closing records last in the log. *)
Theorem main_completes (w : world) (header : list string) (types : list dtype)
        (records : list (list value)) :
  files w "Housing.csv"%string = Some (Csv header types records) ->
  numeric_schema (Frame (map Z.of_nat (seq 0 (length records))) header types records) ->
  group_column (Frame (map Z.of_nat (seq 0 (length records))) header types records) ->
  dtypes_respected (Frame (map Z.of_nat (seq 0 (length records))) header types records) ->
  exists w' f_clean earlier,
    main w = Ok tt w' /\
    clean_view_of (Frame (map Z.of_nat (seq 0 (length records))) header types records)
      = inr f_clean /\
    figures w' =
      removelast (current_figures w) ++
      [scatter_figure (last (current_figures w) empty_figure) f_clean;
       box_figure f_clean] /\
    shown w' = true /\
    files w' = files w /\
    stdout w' =
      stdout w ++
      [info_report_of (Frame (map Z.of_nat (seq 0 (length records))) header types records)] /\
    log w' =
      log w ++ earlier ++
      [Rec INFO "EDA workflow complete" [];
       Rec INFO "IMPORTANT: This script creates chart windows." [];
       Rec INFO "Close any chart windows and terminate this process with CTRL+c as needed." []].
Proof.
  intros Hfile Hs Hg Ht.
  set (f := Frame (map Z.of_nat (seq 0 (length records))) header types records) in *.
  pose proof (schema_has_columns f Hs Hg) as Hc.
  rewrite main_by_stages.
  (* stage 1 *)
  pose proof (only_logged_started w) as Ho0.
  destruct (load_data_run (started w) header types records Hfile)
    as (df & w2 & E1 & Hr2 & Ho2).
  fold f in Hr2. rewrite E1.
  (* stage 2 *)
  pose proof (only_logged_logged "Section 3: Inspect data shape and basic structure" w2)
    as Ho2'.
  destruct (inspect_basic_run df
              (logged "Section 3: Inspect data shape and basic structure" w2) f Hr2)
    as (w3 & E2 & Hheap3 & Hlog3 & Hout3 & Hfiles3 & Hfig3 & Hshown3).
  rewrite E2.
  assert (Hr3 : read w3 df = Some f).
  { eapply read_heap_preserved; [eapply heap_preserved_app; exact Hheap3|exact Hr2]. }
  pose proof (only_logged_trans _ _ _ Ho0 (only_logged_trans _ _ _ Ho2 Ho2')) as HoA.
  (* stage 3 *)
  pose proof (build_data_dictionary_agrees df
                (logged "Section 4: Check data quality" w3) f Hr3) as [Ho4 H4].
  destruct (build_data_dictionary df (logged "Section 4: Check data quality" w3))
    as [d w4|e w4]; [|contradiction].
  cbn [final_world] in Ho4.
  pose proof (only_logged_trans _ _ _
                (only_logged_logged "Section 4: Check data quality" w3) Ho4) as Ho4'.
  assert (Hr4 : read w4 df = Some f)
    by (eapply read_heap_preserved; [exact (proj1 Ho4')|exact Hr3]).
  (* stage 4 *)
  destruct (check_quality_run df w4 f _ Hr4 (summary_of_schema f Hs)) as (w5 & E4 & _).
  rewrite E4.
  pose proof (only_logged_ok _ _ _ _ (logs_only_check_quality df) E4) as Ho5.
  pose proof (only_logged_trans _ _ _ Ho5
                (only_logged_logged "Section 5: Create a cleaned view for EDA" w5)) as Ho5'.
  assert (Hr5 : read (logged "Section 5: Create a cleaned view for EDA" w5) df = Some f)
    by (eapply read_heap_preserved; [exact (proj1 Ho5')|exact Hr4]).
  (* stage 5 *)
  destruct (make_clean_view_content df _ f Hr5 Hc)
    as (df' & w6 & f' & E5 & Hr6 & Hcv & Ho6 & _).
  rewrite E5.
  destruct (clean_view_keeps_schema f f' Hc Hcv Hs Hg Ht) as (Hs' & Hg' & Ht').
  (* stage 6 *)
  pose proof (only_logged_logged
                "Section 6: Compute descriptive statistics for numeric columns" w6) as Ho6'.
  assert (Hr6' : read (logged "Section 6: Compute descriptive statistics for numeric columns" w6)
                      df' = Some f') by exact Hr6.
  destruct (descriptive_stats_run df' _ f' Hr6' Hg' Hs' Ht')
    as (o & g & w7 & s & gg & E6 & _).
  rewrite E6.
  pose proof (only_logged_ok _ _ _ _ (logs_only_descriptive_stats df') E6) as Ho7.
  pose proof (only_logged_trans _ _ _ Ho7
                (only_logged_logged
                   "Section 7: Show correlation matrix for numeric columns" w7)) as Ho7'.
  assert (Hr7 : read (logged "Section 7: Show correlation matrix for numeric columns" w7)
                     df' = Some f')
    by (eapply read_heap_preserved; [exact (proj1 Ho7')|exact Hr6']).
  (* stage 7 *)
  pose proof (correlation_matrix_agrees df' _ f' Hr7) as [Ho8 H8].
  destruct (correlation_of_schema f' Hs' Ht') as [mat Hmat].
  rewrite Hmat in H8.
  destruct (correlation_matrix df'
              (logged "Section 7: Show correlation matrix for numeric columns" w7))
    as [c w8|e w8]; [|contradiction].
  cbn [final_world] in Ho8.
  pose proof (only_logged_trans _ _ _ Ho8
                (only_logged_logged "Section 8: Make plots" w8)) as Ho8'.
  assert (Hr8 : read (logged "Section 8: Make plots" w8) df' = Some f')
    by (eapply read_heap_preserved; [exact (proj1 Ho8')|exact Hr7]).
  (* stage 8 *)
  remember (logged "Section 8: Make plots" w8) as w8' eqn:E8.
  assert (Hplot : forall c0, In c0 PLOT_COLS -> In c0 (columns f')).
  { pose proof (schema_has_columns f' Hs' Hg') as Hc'.
    intros c0 Hc0. apply Hc'. simpl in Hc0. simpl.
    destruct Hc0 as [<-|[<-|[<-|[]]]]; tauto. }
  rewrite (make_plots_run df' _ f' Hr8 Hplot).
  (* the world it ends in *)
  pose proof (only_logged_trans _ _ _ Ho4'
                (only_logged_trans _ _ _ Ho5'
                   (only_logged_trans _ _ _ Ho6
                      (only_logged_trans _ _ _ Ho6'
                         (only_logged_trans _ _ _ Ho7' Ho8'))))) as HoB.
  destruct HoA as (_ & [lA HlA] & HoutA & HfilesA & HfigA & _).
  destruct HoB as (_ & [lB HlB] & HoutB & HfilesB & HfigB & _).
  assert (Hl3 : exists l3,
            log w3 = log (logged "Section 3: Inspect data shape and basic structure" w2)
                     ++ l3) by (eexists; exact Hlog3).
  destruct Hl3 as [l3 Hl3]. clear Hlog3.
  eexists _, f',
    (lA ++ l3 ++ lB ++ [Rec INFO "Creating scatter plot: area vs price" []]).
  split; [reflexivity|]. split; [exact Hcv|].
  unfold finished, logged.
  cbn [heap log stdout files figures shown set_log].
  rewrite HfigB, Hfig3, HfigA, <- current_figures_of.
  split; [reflexivity|]. split; [reflexivity|].
  split; [rewrite HfilesB, Hfiles3, HfilesA; reflexivity|].
  split; [rewrite HoutB, Hout3, HoutA; reflexivity|].
  rewrite HlB, Hl3, HlA. rewrite <- !app_assoc. reflexivity.
Qed.


(** ** Where a run stops *)

(** The run of [make_clean_view] on a table without one of the key
    columns. *)
Lemma make_clean_view_missing_run
      (df : DataFrame Z string) (w : world) (f : frame Z string)
      (m : string) (ms : list string) :
  read w df = Some f ->
  missing_labels (get_indexer_for (columns f) (NUMERIC_COLS ++ [GROUP_COL])) = m :: ms ->
  make_clean_view df w =
    Raise (KeyError (m :: ms))
          (logged "Creating cleaned view for EDA (dropping rows with key missing values)" w).
Proof.
  intros Hr E.
  unfold make_clean_view. unfold bind at 1. unfold LOG_info at 1.
  unfold bind at 1. unfold dropna, bind.
  rewrite (snapshot_run df _ f) by exact Hr.
  cbv zeta. rewrite E. reflexivity.
Qed.

(** X18.  When one of the six key columns is absent from the table,
    [make_clean_view] returns nothing: it raises [KeyError] naming
    exactly the absent key columns, numeric columns first, after its
    first log record; nothing is allocated and "Cleaned view shape" is
    not logged. *)
Theorem make_clean_view_missing_key
        (df : DataFrame Z string) (w : world) (f : frame Z string) (c : string) :
  read w df = Some f ->
  In c (NUMERIC_COLS ++ [GROUP_COL]) -> ~ In c (columns f) ->
  exists labels,
    make_clean_view df w =
      Raise (KeyError labels)
            (logged "Creating cleaned view for EDA (dropping rows with key missing values)" w) /\
    labels = filter (fun l => negb (existsb (String.eqb l) (columns f)))
                    (NUMERIC_COLS ++ [GROUP_COL]) /\
    In c labels /\
    (forall l, In l labels <-> In l (NUMERIC_COLS ++ [GROUP_COL]) /\ ~ In l (columns f)).
Proof.
  intros Hr Hc Hn.
  assert (Hin : In c (missing_labels
                        (get_indexer_for (columns f) (NUMERIC_COLS ++ [GROUP_COL]))))
    by (apply missing_labels_spec; split; assumption).
  pose proof (missing_labels_filter (columns f) (NUMERIC_COLS ++ [GROUP_COL])) as Hfilter.
  destruct (missing_labels (get_indexer_for (columns f) (NUMERIC_COLS ++ [GROUP_COL])))
    as [|m ms] eqn:E; [contradiction|].
  exists (m :: ms).
  split; [exact (make_clean_view_missing_run df w f m ms Hr E)|].
  split; [exact Hfilter|]. split; [exact Hin|].
  intros l. rewrite <- E. apply missing_labels_spec.
Qed.


(** The run of [check_quality] on a table without one of the numeric
    columns. *)
Lemma check_quality_missing_run
      (df : DataFrame Z string) (w : world) (f : frame Z string) (c : string) :
  read w df = Some f ->
  In c NUMERIC_COLS -> ~ In c (columns f) ->
  exists labels w' l,
    check_quality df w = Raise (KeyError labels) w' /\
    In c labels /\
    (forall l0, In l0 labels <-> In l0 NUMERIC_COLS /\ ~ In l0 (columns f)) /\
    only_logged w w' /\
    log w' = log w ++ l ++ [Rec INFO "Basic sanity check for numeric columns" []].
Proof.
  intros Hr Hc Hn.
  assert (Hin : In c (missing_labels (get_indexer_for (columns f) NUMERIC_COLS)))
    by (apply missing_labels_spec; split; assumption).
  destruct (missing_labels (get_indexer_for (columns f) NUMERIC_COLS))
    as [|m ms] eqn:E; [contradiction|].
  assert (H : wp (check_quality df) w (fun _ _ => False)
                 (fun e w' =>
                    e = KeyError (m :: ms) /\
                    log w' = log w ++
                      [Rec INFO "Checking missing values per column" [];
                       Rec DEBUG "\n%s" [ACounts (sort_counts (isna_sum f))];
                       Rec INFO "Duplicate rows detected: %s"
                           [AInt (Z.of_nat (count_true (duplicated f)))]] ++
                      [Rec INFO "Basic sanity check for numeric columns" []])).
  { unfold check_quality.
    apply wp_bind, wp_LOG_info.
    apply wp_bind. eapply wp_snapshot; [exact Hr|].
    apply wp_bind, wp_LOG_debug.
    apply wp_bind, wp_LOG_info.
    apply wp_bind, wp_LOG_info.
    apply wp_bind. unfold getitem. eapply wp_method; [exact Hr|].
    unfold getitem_frame. cbv zeta. rewrite E.
    split; [reflexivity|].
    cbn [log set_log]. rewrite <- !app_assoc. reflexivity. }
  apply wp_raises in H. destruct H as (e & w' & Hrun & -> & Hlog).
  pose proof (logs_only_check_quality df w) as Honly.
  rewrite Hrun in Honly. cbn [final_world] in Honly.
  eexists (m :: ms), w', _.
  split; [exact Hrun|]. split; [exact Hin|].
  split; [intros l0; rewrite <- E; apply missing_labels_spec|].
  split; [exact Honly|exact Hlog].
Qed.

(** X20.  When Housing.csv parses but lacks a numeric column, [main]
    gets as far as [check_quality]: the table is loaded, inspected and
    its data dictionary built, then [KeyError] names exactly the absent
    numeric columns.  The last record logged is "Basic sanity check for
    numeric columns"; no cleaned view is made and nothing is drawn or
    shown. *)
Theorem main_missing_numeric_column
        (w : world) (header : list string) (types : list dtype)
        (records : list (list value)) (c : string) :
  files w "Housing.csv"%string = Some (Csv header types records) ->
  In c NUMERIC_COLS -> ~ In c header ->
  exists labels w' earlier,
    main w = Raise (KeyError labels) w' /\
    In c labels /\
    (forall l, In l labels <-> In l NUMERIC_COLS /\ ~ In l header) /\
    figures w' = figures w /\ shown w' = shown w /\ files w' = files w /\
    log w' = log w ++ earlier ++ [Rec INFO "Basic sanity check for numeric columns" []].
Proof.
  intros Hfile Hc Hn.
  set (f := Frame (map Z.of_nat (seq 0 (length records))) header types records).
  rewrite main_by_stages.
  pose proof (only_logged_started w) as Ho0.
  destruct (load_data_run (started w) header types records Hfile)
    as (df & w2 & E1 & Hr2 & Ho2).
  fold f in Hr2. rewrite E1.
  pose proof (only_logged_logged "Section 3: Inspect data shape and basic structure" w2)
    as Ho2'.
  destruct (inspect_basic_run df
              (logged "Section 3: Inspect data shape and basic structure" w2) f Hr2)
    as (w3 & E2 & Hheap3 & Hlog3 & Hout3 & Hfiles3 & Hfig3 & Hshown3).
  rewrite E2.
  assert (Hr3 : read w3 df = Some f).
  { eapply read_heap_preserved; [eapply heap_preserved_app; exact Hheap3|exact Hr2]. }
  pose proof (only_logged_trans _ _ _ Ho0 (only_logged_trans _ _ _ Ho2 Ho2')) as HoA.
  pose proof (build_data_dictionary_agrees df
                (logged "Section 4: Check data quality" w3) f Hr3) as [Ho4 H4].
  destruct (build_data_dictionary df (logged "Section 4: Check data quality" w3))
    as [d w4|e w4]; [|contradiction].
  cbn [final_world] in Ho4.
  pose proof (only_logged_trans _ _ _
                (only_logged_logged "Section 4: Check data quality" w3) Ho4) as Ho4'.
  assert (Hr4 : read w4 df = Some f)
    by (eapply read_heap_preserved; [exact (proj1 Ho4')|exact Hr3]).
  destruct (check_quality_missing_run df w4 f c Hr4 Hc Hn)
    as (labels & w5 & l5 & E4 & Hin & Hlabels & Ho5 & Hlog5).
  rewrite E4.
  assert (Hl3 : exists l3,
            log w3 = log (logged "Section 3: Inspect data shape and basic structure" w2)
                     ++ l3) by (eexists; exact Hlog3).
  destruct Hl3 as [l3 Hl3].
  destruct HoA as (_ & [lA HlA] & _ & HfilesA & HfigA & HshownA).
  destruct Ho4' as (_ & [l4 Hl4] & _ & Hfiles4 & Hfig4 & Hshown4).
  destruct Ho5 as (_ & _ & _ & Hfiles5 & Hfig5 & Hshown5).
  exists labels, w5, (lA ++ l3 ++ l4 ++ l5).
  split; [reflexivity|]. split; [exact Hin|]. split; [exact Hlabels|].
  split; [rewrite Hfig5, Hfig4, Hfig3, HfigA; reflexivity|].
  split; [rewrite Hshown5, Hshown4, Hshown3, HshownA; reflexivity|].
  split; [rewrite Hfiles5, Hfiles4, Hfiles3, HfilesA; reflexivity|].
  rewrite Hlog5, Hl4, Hl3, HlA. rewrite <- !app_assoc. reflexivity.
Qed.


(** X21.  When Housing.csv parses to a table with the numeric schema but
    without the furnishingstatus column, [main] gets past the quality
    check and stops in [make_clean_view]: it raises [KeyError] naming
    furnishingstatus alone.  The last records logged are "Section 5" and
    "Creating cleaned view ..."; no statistics are computed and nothing
    is drawn or shown. *)
Theorem main_missing_status_column
        (w : world) (header : list string) (types : list dtype)
        (records : list (list value)) :
  files w "Housing.csv"%string = Some (Csv header types records) ->
  numeric_schema (Frame (map Z.of_nat (seq 0 (length records))) header types records) ->
  ~ In GROUP_COL header ->
  exists w' earlier,
    main w = Raise (KeyError [GROUP_COL]) w' /\
    figures w' = figures w /\ shown w' = shown w /\ files w' = files w /\
    log w' =
      log w ++ earlier ++
      [Rec INFO "Section 5: Create a cleaned view for EDA" [];
       Rec INFO "Creating cleaned view for EDA (dropping rows with key missing values)" []].
Proof.
  intros Hfile Hs Hn.
  set (f := Frame (map Z.of_nat (seq 0 (length records))) header types records) in *.
  rewrite main_by_stages.
  pose proof (only_logged_started w) as Ho0.
  destruct (load_data_run (started w) header types records Hfile)
    as (df & w2 & E1 & Hr2 & Ho2).
  fold f in Hr2. rewrite E1.
  pose proof (only_logged_logged "Section 3: Inspect data shape and basic structure" w2)
    as Ho2'.
  destruct (inspect_basic_run df
              (logged "Section 3: Inspect data shape and basic structure" w2) f Hr2)
    as (w3 & E2 & Hheap3 & Hlog3 & Hout3 & Hfiles3 & Hfig3 & Hshown3).
  rewrite E2.
  assert (Hr3 : read w3 df = Some f).
  { eapply read_heap_preserved; [eapply heap_preserved_app; exact Hheap3|exact Hr2]. }
  pose proof (only_logged_trans _ _ _ Ho0 (only_logged_trans _ _ _ Ho2 Ho2')) as HoA.
  pose proof (build_data_dictionary_agrees df
                (logged "Section 4: Check data quality" w3) f Hr3) as [Ho4 H4].
  destruct (build_data_dictionary df (logged "Section 4: Check data quality" w3))
    as [d w4|e w4]; [|contradiction].
  cbn [final_world] in Ho4.
  pose proof (only_logged_trans _ _ _
                (only_logged_logged "Section 4: Check data quality" w3) Ho4) as Ho4'.
  assert (Hr4 : read w4 df = Some f)
    by (eapply read_heap_preserved; [exact (proj1 Ho4')|exact Hr3]).
  destruct (check_quality_run df w4 f _ Hr4 (summary_of_schema f Hs)) as (w5 & E4 & _).
  rewrite E4.
  pose proof (only_logged_ok _ _ _ _ (logs_only_check_quality df) E4) as Ho5.
  assert (Hr5 : read (logged "Section 5: Create a cleaned view for EDA" w5) df = Some f)
    by (eapply read_heap_preserved; [exact (proj1 Ho5)|exact Hr4]).
  assert (Hone : missing_labels
                   (get_indexer_for (columns f) (NUMERIC_COLS ++ [GROUP_COL]))
                 = [GROUP_COL]).
  { rewrite missing_labels_filter, filter_app.
    assert (Hnum : filter (fun l => negb (existsb (String.eqb l) (columns f)))
                          NUMERIC_COLS = []).
    { assert (Hall : forall l, In l NUMERIC_COLS ->
                existsb (String.eqb l) (columns f) = true).
      { intros l Hl. apply existsb_exists. exists l.
        split; [|apply String.eqb_refl].
        eapply nth_error_In. apply col_pos_label. apply (Hs l Hl). }
      generalize Hall. generalize NUMERIC_COLS as ls.
      induction ls as [|l ls IH]; intros H; [reflexivity|].
      cbn [filter]. rewrite (H l (or_introl eq_refl)). cbn [negb].
      apply IH. intros l' Hl'. apply H. right. exact Hl'. }
    rewrite Hnum. cbn [app filter].
    destruct (existsb (String.eqb GROUP_COL) (columns f)) eqn:Ex; [|reflexivity].
    exfalso. apply Hn. apply existsb_exists in Ex.
    destruct Ex as (x & Hx & Heq). apply String.eqb_eq in Heq. subst x. exact Hx. }
  rewrite (make_clean_view_missing_run df _ f GROUP_COL [] Hr5 Hone).
  assert (Hl3 : exists l3,
            log w3 = log (logged "Section 3: Inspect data shape and basic structure" w2)
                     ++ l3) by (eexists; exact Hlog3).
  destruct Hl3 as [l3 Hl3].
  destruct HoA as (_ & [lA HlA] & _ & HfilesA & HfigA & HshownA).
  destruct Ho4' as (_ & [l4 Hl4] & _ & Hfiles4 & Hfig4 & Hshown4).
  destruct Ho5 as (_ & [l5 Hl5] & _ & Hfiles5 & Hfig5 & Hshown5).
  eexists _, (lA ++ l3 ++ l4 ++ l5).
  split; [reflexivity|].
  unfold logged. cbn [heap log stdout files figures shown set_log].
  split; [rewrite Hfig5, Hfig4, Hfig3, HfigA; reflexivity|].
  split; [rewrite Hshown5, Hshown4, Hshown3, HshownA; reflexivity|].
  split; [rewrite Hfiles5, Hfiles4, Hfiles3, HfilesA; reflexivity|].
  rewrite Hl5, Hl4, Hl3, HlA. rewrite <- !app_assoc. reflexivity.
Qed.

Lemma ungrouped_numeric_schema :
  numeric_schema (Frame (map Z.of_nat (seq 0 (length ungrouped_records)))
                        ungrouped_header ungrouped_types ungrouped_records).
Proof.
  intros c Hc. simpl in Hc.
  repeat (destruct Hc as [<-|Hc]; [split; vm_compute; reflexivity|]).
  contradiction.
Qed.

(** ** What no stage does *)

Lemma make_plots_heap (df : DataFrame Z string) (w : world) (f : frame Z string) :
  read w df = Some f -> heap (final_world (make_plots df w)) = heap w.
Proof.
  intros Hr.
  destruct (not_in_data (columns f)
              [("x", "area"); ("y", "price"); ("hue", GROUP_COL)]%string) as [kv|] eqn:E.
  - assert (Hrun : make_plots df w =
                   Raise (ValueError (plot_error (fst kv) (snd kv)))
                         (logged "Creating scatter plot: area vs price" w)).
    { unfold make_plots. unfold bind at 1. unfold LOG_info at 1.
      unfold bind at 1. unfold sns_scatterplot, bind.
      rewrite (snapshot_run df _ f) by exact Hr.
      rewrite E. reflexivity. }
    rewrite Hrun. reflexivity.
  - rewrite (make_plots_run df w f Hr); [reflexivity|].
    intros c Hc. apply is_column_In.
    unfold not_in_data in E. cbn [find snd] in E.
    destruct (is_column "area" (columns f)) eqn:Ea; [|discriminate E].
    destruct (is_column "price" (columns f)) eqn:Ep; [|discriminate E].
    destruct (is_column GROUP_COL (columns f)) eqn:Eg; [|discriminate E].
    simpl in Hc. destruct Hc as [<-|[<-|[<-|[]]]]; assumption.
Qed.

(** X22.  No stage that only reports changes a table.  After
    [inspect_basic], [build_data_dictionary], [check_quality],
    [descriptive_stats], [correlation_matrix] or [make_plots], every
    table that was readable before the call, the argument or any other,
    has the same content as before, whether the call returned or
    raised. *)
Theorem stages_leave_tables_alone
        (df : DataFrame Z string) (w : world) (f : frame Z string)
        (other : DataFrame Z string) (g : frame Z string) :
  read w df = Some f ->
  read w other = Some g ->
  read (final_world (inspect_basic df w)) other = Some g /\
  read (final_world (build_data_dictionary df w)) other = Some g /\
  read (final_world (check_quality df w)) other = Some g /\
  read (final_world (descriptive_stats df w)) other = Some g /\
  read (final_world (correlation_matrix df w)) other = Some g /\
  read (final_world (make_plots df w)) other = Some g.
Proof.
  intros Hr Hg.
  split.
  { destruct (inspect_basic_run df w f Hr) as (w' & E & Hheap & _).
    rewrite E. cbn [final_world].
    eapply read_heap_preserved; [eapply heap_preserved_app; exact Hheap|exact Hg]. }
  split.
  { eapply read_heap_preserved;
      [exact (proj1 (logs_only_build_data_dictionary df w))|exact Hg]. }
  split.
  { eapply read_heap_preserved;
      [exact (proj1 (logs_only_check_quality df w))|exact Hg]. }
  split.
  { eapply read_heap_preserved;
      [exact (proj1 (logs_only_descriptive_stats df w))|exact Hg]. }
  split.
  { eapply read_heap_preserved;
      [exact (proj1 (logs_only_correlation_matrix df w))|exact Hg]. }
  unfold read. rewrite (make_plots_heap df w f Hr). exact Hg.
Qed.


(** ** Where a run stops: text in a numeric column *)

(** X23.  When Housing.csv parses to a table that has the six key
    columns once each, and a row without a null in them holds text in a
    numeric column, [main] gets past the quality check and the cleaning
    and stops in [descriptive_stats] with the [TypeError] of the grouped
    mean: the correlation matrix is not computed and nothing is drawn or
    shown. *)
Theorem main_text_in_numeric_column
        (w : world) (header : list string) (types : list dtype)
        (records : list (list value)) (c : string) (r : list value) (s : string) :
  files w "Housing.csv"%string = Some (Csv header types records) ->
  (forall c', In c' (NUMERIC_COLS ++ [GROUP_COL]) ->
              positions c' header = [col_pos c' header]) ->
  In c NUMERIC_COLS -> In r records ->
  cell r (col_pos c header) = VStr s ->
  complete_on (NUMERIC_COLS ++ [GROUP_COL]) header r ->
  exists w' earlier,
    main w = Raise (TypeError mean_failed) w' /\
    figures w' = figures w /\ shown w' = shown w /\ files w' = files w /\
    log w' =
      log w ++ earlier ++
      [Rec INFO "Computing descriptive statistics by %s" [AStr GROUP_COL]].
Proof.
  intros Hfile Hcols Hc Hin Hcell Hcomplete.
  set (f := Frame (map Z.of_nat (seq 0 (length records))) header types records) in *.
  assert (Hnum : forall c', In c' NUMERIC_COLS ->
                   positions c' (columns f) = [col_pos c' (columns f)])
    by (intros c' Hc'; apply Hcols; apply in_or_app; left; exact Hc').
  assert (Hg : group_column f)
    by (apply Hcols; apply in_or_app; right; left; reflexivity).
  assert (Hhas : has_columns (columns f) (NUMERIC_COLS ++ [GROUP_COL])).
  { intros c' Hc'. eapply nth_error_In. apply col_pos_label. apply Hcols. exact Hc'. }
  assert (Hsum : exists o, summary_of f = inr o).
  { unfold summary_of. rewrite (getitem_frame_once NUMERIC_COLS f Hnum).
    unfold describe_frame. cbn [columns NUMERIC_COLS].
    match goal with
    | |- context [filter ?p ?l] => destruct (filter p l)
    end; eexists; reflexivity. }
  destruct Hsum as [o Hsum].
  rewrite main_by_stages.
  pose proof (only_logged_started w) as Ho0.
  destruct (load_data_run (started w) header types records Hfile)
    as (df & w2 & E1 & Hr2 & Ho2).
  fold f in Hr2. rewrite E1.
  pose proof (only_logged_logged "Section 3: Inspect data shape and basic structure" w2)
    as Ho2'.
  destruct (inspect_basic_run df
              (logged "Section 3: Inspect data shape and basic structure" w2) f Hr2)
    as (w3 & E2 & Hheap3 & Hlog3 & Hout3 & Hfiles3 & Hfig3 & Hshown3).
  rewrite E2.
  assert (Hr3 : read w3 df = Some f).
  { eapply read_heap_preserved; [eapply heap_preserved_app; exact Hheap3|exact Hr2]. }
  pose proof (only_logged_trans _ _ _ Ho0 (only_logged_trans _ _ _ Ho2 Ho2')) as HoA.
  pose proof (build_data_dictionary_agrees df
                (logged "Section 4: Check data quality" w3) f Hr3) as [Ho4 H4].
  destruct (build_data_dictionary df (logged "Section 4: Check data quality" w3))
    as [d w4|e w4]; [|contradiction].
  cbn [final_world] in Ho4.
  pose proof (only_logged_trans _ _ _
                (only_logged_logged "Section 4: Check data quality" w3) Ho4) as Ho4'.
  assert (Hr4 : read w4 df = Some f)
    by (eapply read_heap_preserved; [exact (proj1 Ho4')|exact Hr3]).
  destruct (check_quality_run df w4 f o Hr4 Hsum) as (w5 & E4 & _).
  rewrite E4.
  pose proof (only_logged_ok _ _ _ _ (logs_only_check_quality df) E4) as Ho5.
  pose proof (only_logged_trans _ _ _ Ho5
                (only_logged_logged "Section 5: Create a cleaned view for EDA" w5)) as Ho5'.
  assert (Hr5 : read (logged "Section 5: Create a cleaned view for EDA" w5) df = Some f)
    by (eapply read_heap_preserved; [exact (proj1 Ho5')|exact Hr4]).
  destruct (make_clean_view_content df _ f Hr5 Hhas)
    as (df' & w6 & f' & E5 & Hr6 & Hcv & Ho6 & _).
  rewrite E5.
  destruct (clean_view_of_facts f f' Hhas Hcv) as (Hcols' & _ & Hdata' & _ & _).
  pose proof (only_logged_logged
                "Section 6: Compute descriptive statistics for numeric columns" w6) as Ho6'.
  assert (Hr6' : read (logged "Section 6: Compute descriptive statistics for numeric columns" w6)
                      df' = Some f') by exact Hr6.
  assert (Hin' : In r (data f')).
  { rewrite Hdata'. apply filter_In. split; [exact Hin|].
    apply keeps_spec. exact Hcomplete. }
  destruct (descriptive_stats_text_run df' _ f' c r s Hr6')
    as (w7 & o' & E6 & _ & Hlog7).
  { unfold group_column. rewrite Hcols'. exact Hg. }
  { intros c' Hc'. rewrite Hcols'. apply Hnum. exact Hc'. }
  { exact Hc. }
  { exact Hin'. }
  { rewrite Hcols'. exact Hcell. }
  { rewrite Hcols'. apply (Hcomplete (col_pos GROUP_COL header) GROUP_COL).
    - apply col_pos_label. exact Hg.
    - apply in_or_app. right. left. reflexivity. }
  pose proof (logs_only_descriptive_stats df'
                (logged "Section 6: Compute descriptive statistics for numeric columns" w6))
    as Ho7.
  rewrite E6 in Ho7 |- *. cbn [final_world] in Ho7.
  assert (Hl3 : exists l3,
            log w3 = log (logged "Section 3: Inspect data shape and basic structure" w2)
                     ++ l3) by (eexists; exact Hlog3).
  destruct Hl3 as [l3 Hl3].
  pose proof (only_logged_trans _ _ _ Ho4'
                (only_logged_trans _ _ _ Ho5'
                   (only_logged_trans _ _ _ Ho6 Ho6'))) as HoB.
  destruct HoA as (_ & [lA HlA] & _ & HfilesA & HfigA & HshownA).
  destruct HoB as (_ & [lB HlB] & _ & HfilesB & HfigB & HshownB).
  destruct Ho7 as (_ & _ & _ & Hfiles7 & Hfig7 & Hshown7).
  eexists w7,
    (lA ++ l3 ++ lB ++
     [Rec INFO "Computing overall descriptive statistics" [];
      Rec DEBUG "\n%s" [AStats (T_frame o')]]).
  split; [reflexivity|].
  split; [rewrite Hfig7, HfigB, Hfig3, HfigA; reflexivity|].
  split; [rewrite Hshown7, HshownB, Hshown3, HshownA; reflexivity|].
  split; [rewrite Hfiles7, HfilesB, Hfiles3, HfilesA; reflexivity|].
  rewrite Hlog7, HlB, Hl3, HlA. rewrite <- !app_assoc. reflexivity.
Qed.

(** ** The pipeline: failures propagate *)

Lemma nothing_drawn_refl (w : world) : nothing_drawn w w.
Proof. repeat split. Qed.

Lemma nothing_drawn_trans (w1 w2 w3 : world) :
  nothing_drawn w1 w2 -> nothing_drawn w2 w3 -> nothing_drawn w1 w3.
Proof.
  intros (F1 & S1 & L1) (F2 & S2 & L2). unfold nothing_drawn.
  rewrite F2, S2, L2. repeat split; assumption.
Qed.

Lemma only_logged_nothing_drawn (w w' : world) :
  only_logged w w' -> nothing_drawn w w'.
Proof. intros (_ & _ & _ & Hf & Hfig & Hs). repeat split; assumption. Qed.

(** When Housing.csv parses, the first three stages return: the table is
    loaded, inspected and its dictionary built. *)
Lemma run_to_dictionary (w : world) (header : list string) (types : list dtype)
      (records : list (list value)) :
  files w "Housing.csv"%string = Some (Csv header types records) ->
  exists df w4,
    ran_dictionary w df w4 /\
    read w4 df = Some (Frame (map Z.of_nat (seq 0 (length records)))
                             header types records) /\
    nothing_drawn w w4.
Proof.
  intros Hfile.
  set (f := Frame (map Z.of_nat (seq 0 (length records))) header types records).
  destruct (load_data_run (started w) header types records Hfile)
    as (df & w2 & E1 & Hr2 & Ho2).
  fold f in Hr2.
  destruct (inspect_basic_run df
              (logged "Section 3: Inspect data shape and basic structure" w2) f Hr2)
    as (w3 & E2 & Hheap3 & _ & _ & Hfiles3 & Hfig3 & Hshown3).
  assert (Hr3 : read w3 df = Some f).
  { eapply read_heap_preserved; [eapply heap_preserved_app; exact Hheap3|exact Hr2]. }
  pose proof (build_data_dictionary_agrees df
                (logged "Section 4: Check data quality" w3) f Hr3) as [Ho4 H4].
  destruct (build_data_dictionary df (logged "Section 4: Check data quality" w3))
    as [d w4|e w4] eqn:E3; [|contradiction].
  cbn [final_world] in Ho4.
  pose proof (only_logged_trans _ _ _
                (only_logged_logged "Section 4: Check data quality" w3) Ho4) as Ho4'.
  exists df, w4. split; [|split].
  - exists w3, d. split; [|exact E3]. exists w2. split; [exact E1|exact E2].
  - eapply read_heap_preserved; [exact (proj1 Ho4')|exact Hr3].
  - apply (nothing_drawn_trans _ w2);
      [apply only_logged_nothing_drawn;
       exact (only_logged_trans _ _ _ (only_logged_started w) Ho2)|].
    apply (nothing_drawn_trans _ w3);
      [|apply only_logged_nothing_drawn; exact Ho4'].
    repeat split; assumption.
Qed.

(** When its summary can be computed, the quality check returns too. *)
Lemma run_to_quality (w : world) (header : list string) (types : list dtype)
      (records : list (list value)) (o : frame string string) :
  files w "Housing.csv"%string = Some (Csv header types records) ->
  summary_of (Frame (map Z.of_nat (seq 0 (length records))) header types records)
    = inr o ->
  exists df w5,
    ran_quality w df w5 /\
    read w5 df = Some (Frame (map Z.of_nat (seq 0 (length records)))
                             header types records) /\
    nothing_drawn w w5.
Proof.
  intros Hfile Hsum.
  destruct (run_to_dictionary w header types records Hfile)
    as (df & w4 & R3 & Hr4 & Hd4).
  destruct (check_quality_run df w4 _ o Hr4 Hsum) as (w5 & E4 & _).
  pose proof (only_logged_ok _ _ _ _ (logs_only_check_quality df) E4) as Ho5.
  exists df, w5. split; [|split].
  - exists w4. split; [exact R3|exact E4].
  - eapply read_heap_preserved; [exact (proj1 Ho5)|exact Hr4].
  - exact (nothing_drawn_trans _ _ _ Hd4 (only_logged_nothing_drawn _ _ Ho5)).
Qed.

(** And with the six key columns in place, so does the cleaning. *)
Lemma run_to_clean (w : world) (header : list string) (types : list dtype)
      (records : list (list value)) (o : frame string string) :
  files w "Housing.csv"%string = Some (Csv header types records) ->
  summary_of (Frame (map Z.of_nat (seq 0 (length records))) header types records)
    = inr o ->
  has_columns header (NUMERIC_COLS ++ [GROUP_COL]) ->
  exists df_clean w6 f',
    ran_clean w df_clean w6 /\
    read w6 df_clean = Some f' /\
    clean_view_of (Frame (map Z.of_nat (seq 0 (length records))) header types records)
      = inr f' /\
    nothing_drawn w w6.
Proof.
  intros Hfile Hsum Hhas.
  destruct (run_to_quality w header types records o Hfile Hsum)
    as (df & w5 & R4 & Hr5 & Hd5).
  assert (Hr5' : read (logged "Section 5: Create a cleaned view for EDA" w5) df
                 = Some (Frame (map Z.of_nat (seq 0 (length records)))
                               header types records)) by exact Hr5.
  destruct (make_clean_view_content df _ _ Hr5' Hhas)
    as (df' & w6 & f' & E5 & Hr6 & Hcv & Ho6 & _).
  exists df', w6, f'. split; [|split; [exact Hr6|split; [exact Hcv|]]].
  - exists df, w5. split; [exact R4|exact E5].
  - apply (nothing_drawn_trans _ _ _ Hd5).
    apply only_logged_nothing_drawn.
    exact (only_logged_trans _ _ _ (only_logged_logged _ w5) Ho6).
Qed.

(** With the numeric columns in place, furnishingstatus is the one key
    column that can be missing. *)
Lemma only_status_missing (f : frame Z string) :
  numeric_schema f -> ~ In GROUP_COL (columns f) ->
  missing_labels (get_indexer_for (columns f) (NUMERIC_COLS ++ [GROUP_COL]))
  = [GROUP_COL].
Proof.
  intros Hs Hn. rewrite missing_labels_filter, filter_app.
  assert (Hnum : filter (fun l => negb (existsb (String.eqb l) (columns f)))
                        NUMERIC_COLS = []).
  { assert (Hall : forall l, In l NUMERIC_COLS ->
              existsb (String.eqb l) (columns f) = true).
    { intros l Hl. apply existsb_exists. exists l.
      split; [|apply String.eqb_refl].
      eapply nth_error_In. apply col_pos_label. apply (Hs l Hl). }
    generalize Hall. generalize NUMERIC_COLS as ls.
    induction ls as [|l ls IH]; intros H; [reflexivity|].
    cbn [filter]. rewrite (H l (or_introl eq_refl)). cbn [negb].
    apply IH. intros l' Hl'. apply H. right. exact Hl'. }
  rewrite Hnum. cbn [app filter].
  destruct (existsb (String.eqb GROUP_COL) (columns f)) eqn:Ex; [|reflexivity].
  exfalso. apply Hn. apply existsb_exists in Ex.
  destruct Ex as (x & Hx & Heq). apply String.eqb_eq in Heq. subst x. exact Hx.
Qed.

(** The quality check raises what the selection or the summary raises. *)
Lemma check_quality_raises (df : DataFrame Z string) (w : world) f (e : exn) :
  read w df = Some f ->
  summary_of f = inl e ->
  exists w', check_quality df w = Raise e w'.
Proof.
  intros Hr Hsum.
  assert (H : wp (check_quality df) w (fun _ _ => False) (fun e' _ => e' = e)).
  { unfold check_quality.
    apply wp_bind, wp_LOG_info.
    apply wp_bind. eapply wp_snapshot; [exact Hr|].
    apply wp_bind, wp_LOG_debug.
    apply wp_bind, wp_LOG_info.
    apply wp_bind, wp_LOG_info.
    apply wp_bind. unfold getitem. eapply wp_method; [exact Hr|].
    unfold summary_of in Hsum.
    destruct (getitem_frame NUMERIC_COLS f) as [e0|g];
      [injection Hsum as ->; reflexivity|].
    apply wp_bind. unfold describe. eapply wp_method; [apply read_heap_new|].
    rewrite Hsum. reflexivity. }
  apply wp_raises in H. destruct H as (e' & w' & Hrun & ->).
  exists w'. exact Hrun.
Qed.

Ltac stage_clash :=
  repeat match goal with
         | H : ran_plots _ _ |- _ => destruct H as (? & ? & ? & ?)
         | H : ran_corr _ _ _ |- _ => destruct H as (? & ? & ? & ?)
         | H : ran_stats _ _ _ |- _ => destruct H as (? & ? & ? & ?)
         | H : ran_clean _ _ _ |- _ => destruct H as (? & ? & ? & ?)
         | H : ran_quality _ _ _ |- _ => destruct H as (? & ? & ?)
         | H : ran_dictionary _ _ _ |- _ => destruct H as (? & ? & ? & ?)
         | H : ran_inspect _ _ _ |- _ => destruct H as (? & ? & ?)
         | H : ran_load _ _ _ |- _ => unfold ran_load in H
         | H1 : ?m = Ok _ _, H2 : ?m = Raise _ _ |- _ =>
             rewrite H1 in H2; discriminate H2
         | H1 : ?m = Raise _ _, H2 : ?m = Raise _ _ |- _ =>
             rewrite H1 in H2; injection H2; intros; subst; clear H2
         | H1 : ?m = Ok _ _, H2 : ?m = Ok _ _ |- _ =>
             rewrite H1 in H2; injection H2; intros; subst; clear H2
         end.

(** C8.  [main] catches nothing, and neither does any stage.

    - [main] raises [e] and stops in world [w'] exactly when one of its
      eight stages, run after the stages before it have returned, raises
      [e] and stops in [w']: the exception is the stage's own and the
      world is the one the stage left, so no later stage has run.  And it
      returns exactly when all eight stages return.
    - The failures the pipeline can meet do come out of [main]: without
      the input file, [FileNotFoundError], and no table is created; when
      the file parses and a numeric column is missing, [KeyError] naming
      it; when the numeric columns are there and furnishingstatus is
      missing, [KeyError] naming that; when a complete row holds text in
      a numeric column, the [TypeError] of the grouped mean.  Each time,
      no figure is drawn and nothing is shown: the plots were not
      reached.
    - Inside the stages, what [pd.read_csv], the selection of the numeric
      columns, [describe], [dropna], the grouped aggregation, [corr] or
      the scatter plot raises is what the stage raises. *)
Theorem main_fails_fast (w : world) :
  (forall e w', main w = Raise e w' <-> stage_raises w e w') /\
  (forall w', main w = Ok tt w' <-> exists w9, ran_plots w w9 /\ w' = finished w9) /\
  (files w "Housing.csv"%string = None ->
   exists w',
     main w = Raise (FileNotFoundError "Housing.csv") w' /\
     heap w' = heap w /\ nothing_drawn w w') /\
  (forall header types records,
     files w "Housing.csv"%string = Some (Csv header types records) ->
     (forall c, In c NUMERIC_COLS -> ~ In c header ->
        exists labels w',
          main w = Raise (KeyError labels) w' /\ In c labels /\ nothing_drawn w w') /\
     (numeric_schema (Frame (map Z.of_nat (seq 0 (length records)))
                            header types records) ->
      ~ In GROUP_COL header ->
      exists w', main w = Raise (KeyError [GROUP_COL]) w' /\ nothing_drawn w w') /\
     (forall c r s,
        (forall c', In c' (NUMERIC_COLS ++ [GROUP_COL]) ->
                    positions c' header = [col_pos c' header]) ->
        In c NUMERIC_COLS -> In r records ->
        cell r (col_pos c header) = VStr s ->
        complete_on (NUMERIC_COLS ++ [GROUP_COL]) header r ->
        exists w',
          main w = Raise (TypeError "agg function failed [how->mean,dtype->object]") w' /\
          nothing_drawn w w')) /\
  (forall w0 e w1,
     read_csv "Housing.csv" (logged "Loading housing dataset from CSV" w0) = Raise e w1 ->
     load_data w0 = Raise e w1) /\
  (forall df w0 f e,
     read w0 df = Some f ->
     (summary_of f = inl e -> raised (check_quality df w0) = Some e) /\
     (clean_view_of f = inl e -> raised (make_clean_view df w0) = Some e) /\
     (descriptive_stats_of f = inl e -> raised (descriptive_stats df w0) = Some e) /\
     (correlation_of f = inl e -> raised (correlation_matrix df w0) = Some e) /\
     (forall kv,
        not_in_data (columns f)
                    [("x", "area"); ("y", "price"); ("hue", "furnishingstatus")]%string
        = Some kv ->
        raised (make_plots df w0) = Some (ValueError (plot_error (fst kv) (snd kv))))).
Proof.
  assert (Hstages :
    (forall e w', main w = Raise e w' <-> stage_raises w e w') /\
    (forall w', main w = Ok tt w' <-> exists w9, ran_plots w w9 /\ w' = finished w9)).
  { rewrite main_by_stages.
    destruct (load_data (started w)) as [df w2|e0 w0] eqn:E1.
    2:{ split; [intros e w'; split; intros H|intros w'; split; intros H].
        - injection H as <- <-. apply raises_load_data. exact E1.
        - destruct H; stage_clash; reflexivity.
        - discriminate H.
        - destruct H as (w9 & H & _). stage_clash. }
    destruct (inspect_basic df _) as [[] w3|e0 w0] eqn:E2.
    2:{ split; [intros e w'; split; intros H|intros w'; split; intros H].
        - injection H as <- <-. eapply raises_inspect_basic; [exact E1|exact E2].
        - destruct H; stage_clash; reflexivity.
        - discriminate H.
        - destruct H as (w9 & H & _). stage_clash. }
    destruct (build_data_dictionary df _) as [d w4|e0 w0] eqn:E3.
    2:{ split; [intros e w'; split; intros H|intros w'; split; intros H].
        - injection H as <- <-. eapply raises_build_data_dictionary; [|exact E3].
          exists w2. split; assumption.
        - destruct H; stage_clash; reflexivity.
        - discriminate H.
        - destruct H as (w9 & H & _). stage_clash. }
    assert (R3 : ran_dictionary w df w4).
    { exists w3, d. split; [exists w2; split; assumption|exact E3]. }
    destruct (check_quality df w4) as [[] w5|e0 w0] eqn:E4.
    2:{ split; [intros e w'; split; intros H|intros w'; split; intros H].
        - injection H as <- <-. eapply raises_check_quality; [exact R3|exact E4].
        - clear R3. destruct H; stage_clash; reflexivity.
        - discriminate H.
        - clear R3. destruct H as (w9 & H & _). stage_clash. }
    assert (R4 : ran_quality w df w5) by (exists w4; split; assumption).
    destruct (make_clean_view df _) as [df_clean w6|e0 w0] eqn:E5.
    2:{ split; [intros e w'; split; intros H|intros w'; split; intros H].
        - injection H as <- <-. eapply raises_make_clean_view; [exact R4|exact E5].
        - clear R3 R4. destruct H; stage_clash; reflexivity.
        - discriminate H.
        - clear R3 R4. destruct H as (w9 & H & _). stage_clash. }
    assert (R5 : ran_clean w df_clean w6) by (exists df, w5; split; assumption).
    destruct (descriptive_stats df_clean _) as [r w7|e0 w0] eqn:E6.
    2:{ split; [intros e w'; split; intros H|intros w'; split; intros H].
        - injection H as <- <-. eapply raises_descriptive_stats; [exact R5|exact E6].
        - clear R3 R4 R5. destruct H; stage_clash; reflexivity.
        - discriminate H.
        - clear R3 R4 R5. destruct H as (w9 & H & _). stage_clash. }
    assert (R6 : ran_stats w df_clean w7) by (exists w6, r; split; assumption).
    destruct (correlation_matrix df_clean _) as [c w8|e0 w0] eqn:E7.
    2:{ split; [intros e w'; split; intros H|intros w'; split; intros H].
        - injection H as <- <-. eapply raises_correlation_matrix; [exact R6|exact E7].
        - clear R3 R4 R5 R6. destruct H; stage_clash; reflexivity.
        - discriminate H.
        - clear R3 R4 R5 R6. destruct H as (w9 & H & _). stage_clash. }
    assert (R7 : ran_corr w df_clean w8) by (exists w7, c; split; assumption).
    destruct (make_plots df_clean _) as [[] w9|e0 w0] eqn:E8.
    2:{ split; [intros e w'; split; intros H|intros w'; split; intros H].
        - injection H as <- <-. eapply raises_make_plots; [exact R7|exact E8].
        - clear R3 R4 R5 R6 R7. destruct H; stage_clash; reflexivity.
        - discriminate H.
        - clear R3 R4 R5 R6 R7. destruct H as (w9 & H & _). stage_clash. }
    split; [intros e w'; split; intros H|intros w'; split; intros H].
    - discriminate H.
    - clear R3 R4 R5 R6 R7. destruct H; stage_clash.
    - injection H as <-. exists w9. split; [|reflexivity].
      exists df_clean, w8. split; assumption.
    - clear R3 R4 R5 R6 R7. destruct H as (w9' & H & ->). stage_clash. reflexivity. }
  destruct Hstages as [Hraise Hret].
  split; [exact Hraise|]. split; [exact Hret|].
  split; [|split; [|split]].
  - (* no input file *)
    intros Hnone.
    exists (logged "Loading housing dataset from CSV" (started w)).
    split; [|split; [reflexivity|repeat split]].
    apply Hraise. apply raises_load_data.
    unfold load_data, bind, LOG_info, read_csv, logged at 1. cbn [files set_log].
    change (files (started w) "Housing.csv"%string)
      with (files w "Housing.csv"%string).
    rewrite Hnone. reflexivity.
  - intros header types records Hfile.
    set (f := Frame (map Z.of_nat (seq 0 (length records))) header types records).
    split; [|split].
    + (* a numeric column is missing *)
      intros c Hc Hn.
      destruct (run_to_dictionary w header types records Hfile)
        as (df & w4 & R3 & Hr4 & Hd4).
      destruct (check_quality_missing_run df w4 _ c Hr4 Hc Hn)
        as (labels & w5 & l5 & E4 & Hin & _ & Ho5 & _).
      exists labels, w5.
      split; [apply Hraise; eapply raises_check_quality; [exact R3|exact E4]|].
      split; [exact Hin|].
      exact (nothing_drawn_trans _ _ _ Hd4 (only_logged_nothing_drawn _ _ Ho5)).
    + (* furnishingstatus is missing *)
      intros Hs Hn.
      destruct (run_to_quality w header types records _ Hfile (summary_of_schema f Hs))
        as (df & w5 & R4 & Hr5 & Hd5).
      assert (Hr5' : read (logged "Section 5: Create a cleaned view for EDA" w5) df
                     = Some f) by exact Hr5.
      pose proof (make_clean_view_missing_run df _ f GROUP_COL [] Hr5'
                    (only_status_missing f Hs Hn)) as E5.
      eexists. split; [apply Hraise; eapply raises_make_clean_view; [exact R4|exact E5]|].
      apply (nothing_drawn_trans _ _ _ Hd5). repeat split.
    + (* text in a numeric column *)
      intros c r s Hcols Hc Hin Hcell Hcomplete.
      assert (Hnum : forall c', In c' NUMERIC_COLS ->
                       positions c' (columns f) = [col_pos c' (columns f)])
        by (intros c' Hc'; apply Hcols; apply in_or_app; left; exact Hc').
      assert (Hg : group_column f)
        by (apply Hcols; apply in_or_app; right; left; reflexivity).
      assert (Hhas : has_columns (columns f) (NUMERIC_COLS ++ [GROUP_COL])).
      { intros c' Hc'. eapply nth_error_In. apply col_pos_label. apply Hcols. exact Hc'. }
      assert (Hsum : exists o, summary_of f = inr o).
      { unfold summary_of. rewrite (getitem_frame_once NUMERIC_COLS f Hnum).
        unfold describe_frame. cbn [columns NUMERIC_COLS].
        match goal with
        | |- context [filter ?p ?l] => destruct (filter p l)
        end; eexists; reflexivity. }
      destruct Hsum as [o Hsum].
      destruct (run_to_clean w header types records o Hfile Hsum Hhas)
        as (df' & w6 & f' & R5 & Hr6 & Hcv & Hd6).
      destruct (clean_view_of_facts f f' Hhas Hcv) as (Hcols' & _ & Hdata' & _ & _).
      assert (Hr6' : read (logged "Section 6: Compute descriptive statistics for numeric columns" w6)
                          df' = Some f') by exact Hr6.
      assert (Hin' : In r (data f')).
      { rewrite Hdata'. apply filter_In. split; [exact Hin|].
        apply keeps_spec. exact Hcomplete. }
      destruct (descriptive_stats_text_run df' _ f' c r s Hr6')
        as (w7 & o' & E6 & _ & _).
      { unfold group_column. rewrite Hcols'. exact Hg. }
      { intros c' Hc'. rewrite Hcols'. apply Hnum. exact Hc'. }
      { exact Hc. }
      { exact Hin'. }
      { rewrite Hcols'. exact Hcell. }
      { rewrite Hcols'. apply (Hcomplete (col_pos GROUP_COL header) GROUP_COL).
        - apply col_pos_label. exact Hg.
        - apply in_or_app. right. left. reflexivity. }
      exists w7.
      split; [apply Hraise; eapply raises_descriptive_stats; [exact R5|exact E6]|].
      apply (nothing_drawn_trans _ _ _ Hd6).
      pose proof (logs_only_descriptive_stats df'
                    (logged "Section 6: Compute descriptive statistics for numeric columns" w6))
        as Ho7.
      rewrite E6 in Ho7. cbn [final_world] in Ho7.
      apply only_logged_nothing_drawn.
      exact (only_logged_trans _ _ _ (only_logged_logged _ w6) Ho7).
  - (* [load_data] passes on what [pd.read_csv] raises *)
    intros w0 e w1 H. unfold load_data, bind, LOG_info.
    unfold logged in H. rewrite H. reflexivity.
  - intros df w0 f e Hr.
    split; [|split; [|split; [|split]]].
    + intros Hsum. destruct (check_quality_raises df w0 f e Hr Hsum) as [w1 ->].
      reflexivity.
    + intros Hcv. pose proof (make_clean_view_agrees df w0 f Hr) as [_ Hag].
      rewrite Hcv in Hag.
      destruct (make_clean_view df w0) as [d w1|e1 w1]; [contradiction|].
      cbn [raised]. congruence.
    + intros Hds. pose proof (descriptive_stats_agrees df w0 f Hr) as [_ Hag].
      rewrite Hds in Hag.
      destruct (descriptive_stats df w0) as [[d1 d2] w1|e1 w1]; [contradiction|].
      cbn [raised]. congruence.
    + intros Hco. pose proof (correlation_matrix_agrees df w0 f Hr) as [_ Hag].
      rewrite Hco in Hag.
      destruct (correlation_matrix df w0) as [d w1|e1 w1]; [contradiction|].
      cbn [raised]. congruence.
    + intros kv Hfind.
      assert (Hrun : make_plots df w0 =
                     Raise (ValueError (plot_error (fst kv) (snd kv)))
                           (logged "Creating scatter plot: area vs price" w0)).
      { unfold make_plots. unfold bind at 1. unfold LOG_info at 1.
        unfold bind at 1. unfold sns_scatterplot, bind.
        rewrite (snapshot_run df _ f) by exact Hr.
        change GROUP_COL with "furnishingstatus"%string.
        rewrite Hfind. reflexivity. }
      rewrite Hrun. reflexivity.
Qed.

End Proofs.

(* ================================================================= *)
(** * The script on the sample tables *)

#[local] Existing Instance sample_platform.

(** The sample platform sorts in descending order. *)
Lemma sample_sorts_descending : sorts_descending sample_platform.
Proof.
  intros s. split.
  - apply sort_values_desc_perm.
  - apply sort_values_desc_descending.
Qed.


Lemma make_clean_view_keeps_complete_rows_witness :
  exists df' w' f',
    make_clean_view sample_df sample_world = Ok df' w' /\
    read w' df' = Some f' /\
    data f' = filter (keeps (NUMERIC_COLS ++ [GROUP_COL]) (columns sample_frame))
                     (data sample_frame) /\
    (forall r, In r (data f') <->
               In r (data sample_frame) /\
               complete_on (NUMERIC_COLS ++ [GROUP_COL]) (columns sample_frame) r) /\
    (forall r r',
        (forall j c, nth_error (columns sample_frame) j = Some c ->
                     In c (NUMERIC_COLS ++ [GROUP_COL]) -> cell r j = cell r' j) ->
        keeps (NUMERIC_COLS ++ [GROUP_COL]) (columns sample_frame) r =
        keeps (NUMERIC_COLS ++ [GROUP_COL]) (columns sample_frame) r') /\
    length (data f') <= length (data sample_frame).
Proof.
  apply (make_clean_view_keeps_complete_rows sample_df sample_world sample_frame).
  - reflexivity.
  - exact sample_has_columns.
Defined.

(** On the sample, exactly the house without an area is dropped; the one
    without a [mainroad] stays. *)
Example make_clean_view_sample :
  exists df' w',
    make_clean_view sample_df sample_world = Ok df' w' /\
    option_map (fun f => index f) (read w' df') = Some [0; 1; 3; 4]%Z.
Proof. eexists; eexists; split; vm_compute; reflexivity. Qed.

Lemma make_clean_view_same_columns_same_order_witness :
  exists df' w' f',
    make_clean_view sample_df sample_world = Ok df' w' /\
    read w' df' = Some f' /\
    columns f' = columns sample_frame /\
    ob_columns df' = ob_columns sample_df /\
    dtypes f' = dtypes sample_frame /\
    subseq (data f') (data sample_frame) /\
    subseq (labelled f') (labelled sample_frame) /\
    labelled f' =
      filter (fun q => keeps (NUMERIC_COLS ++ [GROUP_COL]) (columns sample_frame) (snd q))
             (labelled sample_frame).
Proof.
  apply (make_clean_view_same_columns_same_order sample_df sample_world sample_frame).
  - reflexivity.
  - exact sample_has_columns.
Defined.

Lemma make_clean_view_leaves_input_alone_witness :
  exists df' w',
    make_clean_view sample_df sample_world = Ok df' w' /\
    read w' sample_df = Some sample_frame /\
    heap_preserved sample_world w' /\
    ~ live sample_world df' /\ live w' df' /\ buf df' <> buf sample_df /\
    (forall (I C : Type) (d : DataFrame I C) (g : frame I C) (b : block),
        read sample_world d = Some g ->
        read w' d = Some g /\ read (overwrite df' b w') d = Some g).
Proof.
  apply (make_clean_view_leaves_input_alone sample_df sample_world sample_frame).
  - reflexivity.
  - exact sample_has_columns.
Defined.

Lemma build_data_dictionary_one_row_per_column_witness :
  exists d w' g,
    build_data_dictionary sample_df sample_world = Ok d w' /\
    read w' d = Some g /\
    columns g = ["column"; "dtype"; "missing_count"; "missing_pct"]%string /\
    length (data g) = length (columns sample_frame) /\
    (forall j c, nth_error (columns sample_frame) j = Some c ->
       let missing_count :=
         Z.of_nat (length (filter isna
                             (map (fun r => nth j r VNone) (data sample_frame)))) in
       let row_count := Z.of_nat (length (data sample_frame)) in
       exists r,
         rounded_to_integer
           (PrimFloat.of_uint63 (Uint63.of_Z missing_count)
            / PrimFloat.of_uint63 (Uint63.of_Z row_count) * 100 * 100)%float r /\
         nth_error (data g) j =
         Some [VStr c; VStr (dtype_str (nth j (dtypes sample_frame) object_));
               VInt missing_count; VFloat (r / 100)%float]) /\
    (data sample_frame = [] ->
     forall r, In r (data g) ->
       nth 2 r VNone = VInt 0 /\
       exists x, nth 3 r VNone = VFloat x /\ PrimFloat.is_nan x = true).
Proof.
  apply (build_data_dictionary_one_row_per_column sample_df sample_world sample_frame).
  reflexivity.
Defined.

(** A table without rows: the dictionary still has a row per column,
    with a count of 0 and NaN for the percentage. *)
Example data_dictionary_no_rows :
  map (fun r => nth 2 r VNone) (data (data_dictionary_of empty_frame)) =
  map (fun _ => VInt 0) sample_header /\
  forallb (fun r => match nth 3 r VNone with
                    | VFloat x => PrimFloat.is_nan x
                    | _ => false
                    end) (data (data_dictionary_of empty_frame)) = true.
Proof. split; vm_compute; reflexivity. Qed.

(** On the sample, one house in five lacks an area: 20 percent. *)
Example data_dictionary_sample_area :
  nth_error (data (data_dictionary_of sample_frame)) 1 =
  Some [VStr "area"; VStr "float64"; VInt 1; VFloat 20].
Proof. vm_compute. reflexivity. Qed.

(** Rounding to two decimals, ties to even. *)
Example np_round_examples :
  np_round 2 (1 / 3 * 100)%float = (3333 / 100)%float /\
  np_round 2 3.125%float = (312 / 100)%float /\
  np_round 2 (2 / 3 * 100)%float = (6667 / 100)%float.
Proof. repeat split; vm_compute; reflexivity. Qed.

Lemma check_quality_one_duplicate_witness :
  count_true (duplicated sample_frame) = 1 /\
  exists counts later,
    log (final_world (check_quality sample_df sample_world)) =
    log sample_world ++
      [Rec INFO "Checking missing values per column" [];
       Rec DEBUG "\n%s" [ACounts counts];
       Rec INFO "Duplicate rows detected: %s" [AInt 1]] ++ later.
Proof.
  apply (check_quality_one_duplicate sample_df sample_world sample_frame 0 4
           (nth 0 sample_records []) (nth 4 sample_records [])).
  - reflexivity.
  - discriminate.
  - lia.
  - reflexivity.
  - reflexivity.
  - vm_compute. reflexivity.
  - intros a b ra rb Hab Ha Hb Hid.
    destruct a as [|[|[|[|[|a]]]]]; try (destruct a; discriminate Ha);
      destruct b as [|[|[|[|[|b]]]]]; try (destruct b; discriminate Hb);
      try (exfalso; apply Hab; reflexivity);
      try (left; split; reflexivity); try (right; split; reflexivity);
      simpl in Ha, Hb; injection Ha as <-; injection Hb as <-;
      vm_compute in Hid; discriminate Hid.
Defined.


(** On the sample the counts of area and mainroad, 1 each, come first;
    the sample platform's sort keeps them in the order of the table. *)
Example sort_values_sample :
  firstn 3 (sort_counts (isna_sum sample_frame)) =
  [("area", 1%Z); ("mainroad", 1%Z); ("price", 0%Z)]%string.
Proof. vm_compute. reflexivity. Qed.

(** The summary of the sample's area column: four areas are known. *)
Example summary_sample_area :
  match summary_of sample_frame with
  | inr s => map (fun r => nth 1 r VNone) (data s) =
             map VFloat [4; 7450; 0x1.2e3a53a81e281p+10; 6000; 7065; 7420; 7805; 8960]%float
  | inl _ => False
  end.
Proof. vm_compute. reflexivity. Qed.


(** On the cleaned sample: two statuses, two rows, two houses each; the
    furnished houses cost 13300000 both, the unfurnished ones 9100000 and
    12250000; their areas are 7420 twice, and 8960 and 6000. *)
Example grouped_sample :
  match descriptive_stats_of clean_frame with
  | inr (_, g) =>
      index g = [VStr "furnished"; VStr "unfurnished"] /\
      map (firstn 10) (data g) =
      [[VInt 2; VFloat 13300000; VFloat 0; VInt 13300000; VInt 13300000;
        VInt 2; VFloat 7420; VFloat 0; VFloat 7420; VFloat 7420];
       [VInt 2; VFloat 10675000; VFloat 0x1.0fe5d2e2ca686p+21;
        VInt 9100000; VInt 12250000;
        VInt 2; VFloat 7480; VFloat 0x1.05a127811f237p+11;
        VFloat 6000; VFloat 8960]]
  | inl _ => False
  end.
Proof. vm_compute. split; reflexivity. Qed.


(** On the cleaned sample the columns price, area, bathrooms and stories
    are regular: their squared deviations are finite, not zero, and the
    root of their square gives them back; their diagonal entries are 1.0.
    Every house there has four bedrooms: the squared deviations of
    bedrooms are zero, and its row and column of the matrix hold NaN. *)
Example correlation_sample_diagonal :
  map (fun p =>
         let a := squared_deviations
                    (map (fun r => as_float (nth p r VNone)) (data clean_frame)) in
         (is_finite a, PrimFloat.eqb a 0, PrimFloat.eqb (PrimFloat.sqrt (a * a)) a))
      [0; 1; 2; 3; 4] =
  [(true, false, true); (true, false, true); (true, true, true);
   (true, false, true); (true, false, true)] /\
  match correlation_of clean_frame with
  | inr c =>
      map (fun k => match nth k (nth k (data c) []) VNone with
                    | VFloat x => if PrimFloat.is_nan x then None else Some x
                    | _ => None
                    end) [0; 1; 2; 3; 4] =
      [Some 1%float; Some 1%float; None; Some 1%float; Some 1%float]
  | inl _ => False
  end.
Proof. split; vm_compute; reflexivity. Qed.


Lemma computations_deterministic_witness :
  (same_table (build_data_dictionary sample_df sample_world)
              (build_data_dictionary other_df other_world) /\
   only_logged sample_world (final_world (build_data_dictionary sample_df sample_world))) /\
  (same_table (make_clean_view sample_df sample_world)
              (make_clean_view other_df other_world) /\
   only_logged sample_world (final_world (make_clean_view sample_df sample_world))) /\
  (same_tables2 (descriptive_stats sample_df sample_world)
                (descriptive_stats other_df other_world) /\
   only_logged sample_world (final_world (descriptive_stats sample_df sample_world))) /\
  (same_table (correlation_matrix sample_df sample_world)
              (correlation_matrix other_df other_world) /\
   only_logged sample_world (final_world (correlation_matrix sample_df sample_world))).
Proof.
  apply (computations_deterministic sample_df other_df sample_world other_world
                                    sample_frame).
  - reflexivity.
  - reflexivity.
Defined.

Example main_no_file :
  raised (main world_without_file) = Some (FileNotFoundError "Housing.csv") /\
  map msg (log (final_world (main world_without_file))) =
  ["Exploratory Data Analysis (EDA) - Housing Prices";
   "Section 1: Setup at the top of the file";
   "Section 2: Load the data";
   "Loading housing dataset from CSV"]%string.
Proof. split; vm_compute; reflexivity. Qed.

(** A file without the stories column: [check_quality] raises [KeyError]
    at its last step, and no later section is logged. *)
Example main_missing_column :
  raised (main world_without_stories) = Some (KeyError ["stories"%string]) /\
  last (map msg (log (final_world (main world_without_stories)))) EmptyString =
  "Basic sanity check for numeric columns"%string /\
  figures (final_world (main world_without_stories)) = [].
Proof. repeat split; vm_compute; reflexivity. Qed.

(** A price column that holds text: the grouped mean raises [TypeError]
    in [descriptive_stats]; the correlation and the plots never run. *)
Example main_type_mismatch :
  raised (main world_with_text_price) =
  Some (TypeError "agg function failed [how->mean,dtype->object]") /\
  last (map msg (log (final_world (main world_with_text_price)))) EmptyString =
  "Computing descriptive statistics by %s"%string /\
  figures (final_world (main world_with_text_price)) = [] /\
  shown (final_world (main world_with_text_price)) = false.
Proof. repeat split; vm_compute; reflexivity. Qed.

(** With the sample file every stage runs: two figures are shown. *)
Example main_sample_completes :
  raised (main world_with_sample) = None /\
  length (figures (final_world (main world_with_sample))) = 2 /\
  shown (final_world (main world_with_sample)) = true /\
  last (map msg (log (final_world (main world_with_sample)))) EmptyString =
  "Close any chart windows and terminate this process with CTRL+c as needed."%string.
Proof. repeat split; vm_compute; reflexivity. Qed.

(** [dropna] alone may hand back the buffer of its input: when no row is
    dropped the result is a shallow copy.  With its own [copy],
    [make_clean_view] returns a buffer of its own either way. *)
Example dropna_shares_buffer :
  exists d w',
    dropna (NUMERIC_COLS ++ [GROUP_COL]) clean_df clean_world = Ok d w' /\
    buf d = buf clean_df.
Proof. eexists; eexists; split; vm_compute; reflexivity. Qed.

(** In float64 even a column that varies can miss 1.0 on the diagonal:
    with prices of 2^270 and 3 * 2^270 the sum of squared deviations is
    2^541, its square overflows, the divisor is infinite and the
    coefficient of price with itself comes out as 0. *)
Example correlation_diagonal_overflow :
  nancorr_pair [0x1p+270; 0x3p+270]%float [0x1p+270; 0x3p+270]%float = 0%float.
Proof. vm_compute. reflexivity. Qed.

Lemma make_clean_view_establishes_cleaned_witness :
  exists df' w' f',
    make_clean_view sample_df sample_world = Ok df' w' /\
    read w' df' = Some f' /\
    cleaned f' /\
    (wf_frame sample_frame -> wf_frame f') /\
    (numeric_schema sample_frame -> numeric_schema f') /\
    (group_column sample_frame -> group_column f') /\
    (dtypes_respected sample_frame -> dtypes_respected f').
Proof.
  apply (make_clean_view_establishes_cleaned sample_df sample_world sample_frame).
  - reflexivity.
  - exact sample_has_columns.
Defined.

Lemma make_clean_view_of_cleaned_witness :
  exists df' w',
    make_clean_view clean_df clean_world = Ok df' w' /\
    read w' df' = Some clean_frame /\
    read w' clean_df = Some clean_frame /\
    buf df' <> buf clean_df.
Proof.
  apply (make_clean_view_of_cleaned clean_df clean_world clean_frame).
  - reflexivity.
  - exact clean_has_columns.
  - exact clean_is_cleaned.
Defined.

Lemma make_clean_view_idempotent_witness :
  exists d1 w1 d2 w2 g,
    make_clean_view sample_df sample_world = Ok d1 w1 /\
    make_clean_view d1 w1 = Ok d2 w2 /\
    read w1 d1 = Some g /\
    read w2 d2 = Some g.
Proof.
  apply (make_clean_view_idempotent sample_df sample_world sample_frame).
  - reflexivity.
  - exact sample_has_columns.
Defined.

Lemma inspect_basic_only_reports_witness :
  exists w' first_rows,
    inspect_basic sample_df sample_world = Ok tt w' /\
    read w' sample_df = Some sample_frame /\
    heap_preserved sample_world w' /\
    files w' = files sample_world /\ figures w' = figures sample_world /\
    shown w' = shown sample_world /\
    stdout w' = stdout sample_world ++ [info_report_of sample_frame] /\
    log w' = log sample_world ++
      [Rec INFO "Inspecting first rows of data" [];
       Rec DEBUG "\n%s" [ATable first_rows];
       Rec INFO "Column names" [];
       Rec DEBUG "%s" [AStrs (columns sample_frame)];
       Rec INFO "DataFrame info (types and non-null counts)" [];
       Rec INFO "Dataset shape: %s rows, %s columns"
           [AInt (Z.of_nat (length (index sample_frame)));
            AInt (Z.of_nat (length (columns sample_frame)))]] /\
    data first_rows = firstn 5 (data sample_frame) /\
    length (data first_rows) = Nat.min 5 (length (data sample_frame)) /\
    (length (data sample_frame) <= 5 -> data first_rows = data sample_frame).
Proof.
  apply (inspect_basic_only_reports sample_df sample_world sample_frame).
  reflexivity.
Defined.

Lemma inspect_basic_and_dictionary_agree_witness :
  exists w1 report d w2 g,
    inspect_basic sample_df sample_world = Ok tt w1 /\
    stdout w1 = stdout sample_world ++ [report] /\
    build_data_dictionary sample_df w1 = Ok d w2 /\
    read w2 d = Some g /\
    length (per_column report) = length (data g) /\
    forall j c, nth_error (columns sample_frame) j = Some c ->
      exists nonnull missing t pct,
        nth_error (per_column report) j = Some (c, nonnull, t) /\
        nth_error (data g) j = Some [VStr c; VStr t; VInt missing; VFloat pct] /\
        (nonnull + missing = Z.of_nat (length (data sample_frame)))%Z.
Proof.
  apply (inspect_basic_and_dictionary_agree sample_df sample_world sample_frame).
  reflexivity.
Defined.

Lemma check_quality_duplicate_count_witness :
  exists n later,
    log (final_world (check_quality clean_df clean_world)) =
    log clean_world ++
      [Rec INFO "Checking missing values per column" [];
       Rec DEBUG "\n%s" [ACounts (sort_counts (isna_sum clean_frame))];
       Rec INFO "Duplicate rows detected: %s" [AInt (Z.of_nat n)]] ++ later /\
    (columns clean_frame <> [] ->
     (n = 0 <->
      forall a b ra rb, a <> b ->
        nth_error (data clean_frame) a = Some ra ->
        nth_error (data clean_frame) b = Some rb ->
        ~ identical ra rb)) /\
    (data clean_frame <> [] -> n < length (data clean_frame)) /\
    (columns clean_frame = [] -> n = 0).
Proof.
  apply (check_quality_duplicate_count clean_df clean_world clean_frame).
  reflexivity.
Defined.

Lemma check_quality_missing_column_witness :
  exists labels w',
    check_quality narrow_df narrow_world = Raise (KeyError labels) w' /\
    labels = filter (fun l => negb (existsb (String.eqb l) (columns narrow_frame)))
                    NUMERIC_COLS /\
    In "bedrooms"%string labels /\
    (forall l, In l labels <-> In l NUMERIC_COLS /\ ~ In l (columns narrow_frame)) /\
    heap w' = heap narrow_world /\
    log w' = log narrow_world ++
      [Rec INFO "Checking missing values per column" [];
       Rec DEBUG "\n%s" [ACounts (sort_counts (isna_sum narrow_frame))];
       Rec INFO "Duplicate rows detected: %s"
           [AInt (Z.of_nat (count_true (duplicated narrow_frame)))];
       Rec INFO "Basic sanity check for numeric columns" []].
Proof.
  apply (check_quality_missing_column narrow_df narrow_world narrow_frame).
  - reflexivity.
  - simpl. tauto.
  - simpl. intuition discriminate.
Defined.


Lemma descriptive_stats_group_counts_witness :
  exists overall grouped w' g,
    descriptive_stats clean_df clean_world = Ok (overall, grouped) w' /\
    read w' grouped = Some g /\
    (forall a k m c,
        nth_error (index g) a = Some k ->
        nth_error NUMERIC_COLS m = Some c ->
        nth_error (columns g) (5 * m) = Some (c, "count"%string) /\
        cell (nth a (data g) []) (5 * m) =
          VInt (Z.of_nat (length (group_rows (col_pos GROUP_COL (columns clean_frame)) k
                                             (data clean_frame)))) /\
        1 <= length (group_rows (col_pos GROUP_COL (columns clean_frame)) k
                                (data clean_frame))) /\
    list_sum (map (fun k => length (group_rows (col_pos GROUP_COL (columns clean_frame)) k
                                               (data clean_frame)))
                  (index g)) = length (data clean_frame).
Proof.
  apply (descriptive_stats_group_counts clean_df clean_world clean_frame).
  - reflexivity.
  - exact clean_is_cleaned.
  - exact clean_group_column.
  - exact clean_numeric_schema.
  - exact clean_dtypes_respected.
  - exact clean_status_strings.
Defined.

Lemma descriptive_stats_text_column_witness :
  exists w' overall,
    descriptive_stats text_df text_world = Raise (TypeError mean_failed) w' /\
    log w' = log text_world ++
      [Rec INFO "Computing overall descriptive statistics" [];
       Rec DEBUG "\n%s" [AStats overall];
       Rec INFO "Computing descriptive statistics by %s" [AStr GROUP_COL]] /\
    only_logged text_world w' /\
    read w' text_df = Some text_frame.
Proof.
  apply (descriptive_stats_text_column text_df text_world text_frame
           "price"%string (nth 0 (data text_frame) []) "13,300,000"%string).
  - reflexivity.
  - vm_compute. reflexivity.
  - intros c' Hc'. simpl in Hc'.
    repeat (destruct Hc' as [<-|Hc']; [vm_compute; reflexivity|]). contradiction.
  - simpl. tauto.
  - simpl. tauto.
  - reflexivity.
  - reflexivity.
Defined.

Lemma correlation_matrix_no_rows_witness :
  exists d w' c,
    correlation_matrix empty_df empty_table_world = Ok d w' /\
    read w' d = Some c /\
    index c = NUMERIC_COLS /\
    columns c = NUMERIC_COLS /\
    length (data c) = 5 /\
    (forall i j, i < 5 -> j < 5 ->
       exists x, cell (nth i (data c) []) j = VFloat x /\
                 PrimFloat.is_nan x = true).
Proof.
  apply (correlation_matrix_no_rows empty_df empty_table_world empty_frame).
  - reflexivity.
  - intros c Hc. simpl in Hc.
    repeat (destruct Hc as [<-|Hc]; [vm_compute; reflexivity|]). contradiction.
  - reflexivity.
Defined.


(** Text that [float] accepts is converted: a price column holding "1"
    and "2" correlates like the numbers 1 and 2. *)
Example correlation_of_numeric_text :
  match corr_frame (Frame [0; 1]%Z ["price"; "area"]%string [object_; float64]
                          [[VStr "1"; VFloat 7420]; [VStr "2"; VFloat 8960]]) with
  | inr c => data c = [[VFloat 1; VFloat 1]; [VFloat 1; VFloat 1]]
  | inl _ => False
  end.
Proof. vm_compute. reflexivity. Qed.

Lemma statistics_missing_column_witness :
  exists labels,
    descriptive_stats narrow_df narrow_world =
      Raise (KeyError labels)
            (logged "Computing overall descriptive statistics" narrow_world) /\
    correlation_matrix narrow_df narrow_world =
      Raise (KeyError labels)
            (logged "Computing correlation matrix for numeric columns" narrow_world) /\
    In "stories"%string labels /\
    forall l, In l labels <-> In l NUMERIC_COLS /\ ~ In l (columns narrow_frame).
Proof.
  apply (statistics_missing_column narrow_df narrow_world narrow_frame).
  - reflexivity.
  - simpl. tauto.
  - simpl. intuition discriminate.
Defined.

Lemma make_plots_draws_witness :
  exists w',
    make_plots clean_df clean_world = Ok tt w' /\
    figures w' =
      removelast (current_figures clean_world) ++
      [scatter_figure (last (current_figures clean_world) empty_figure) clean_frame;
       box_figure clean_frame] /\
    shown w' = true /\
    log w' = log clean_world ++ [Rec INFO "Creating scatter plot: area vs price" []] /\
    heap w' = heap clean_world /\ stdout w' = stdout clean_world /\
    files w' = files clean_world /\
    (figures clean_world = [] ->
     figures w' = [scatter_figure empty_figure clean_frame; box_figure clean_frame]).
Proof.
  apply (make_plots_draws clean_df clean_world clean_frame).
  - reflexivity.
  - intros c Hc. simpl in Hc.
    repeat (destruct Hc as [<-|Hc]; [simpl; tauto|]). contradiction.
Defined.

Lemma make_plots_missing_column_witness :
  exists key val,
    make_plots priced_df priced_world =
      Raise (ValueError (plot_error key val))
            (logged "Creating scatter plot: area vs price" priced_world) /\
    In (key, val) [("x", "area"); ("y", "price"); ("hue", "furnishingstatus")]%string /\
    ~ In val (columns priced_frame) /\
    figures (final_world (make_plots priced_df priced_world)) = figures priced_world /\
    shown (final_world (make_plots priced_df priced_world)) = shown priced_world.
Proof.
  apply (make_plots_missing_column priced_df priced_world priced_frame "area"%string).
  - reflexivity.
  - simpl. tauto.
  - simpl. intuition discriminate.
Defined.

Lemma main_completes_witness :
  exists w' f_clean earlier,
    main world_with_sample = Ok tt w' /\
    clean_view_of (Frame (map Z.of_nat (seq 0 (length sample_records)))
                         sample_header sample_types sample_records)
      = inr f_clean /\
    figures w' =
      removelast (current_figures world_with_sample) ++
      [scatter_figure (last (current_figures world_with_sample) empty_figure) f_clean;
       box_figure f_clean] /\
    shown w' = true /\
    files w' = files world_with_sample /\
    stdout w' =
      stdout world_with_sample ++
      [info_report_of (Frame (map Z.of_nat (seq 0 (length sample_records)))
                             sample_header sample_types sample_records)] /\
    log w' =
      log world_with_sample ++ earlier ++
      [Rec INFO "EDA workflow complete" [];
       Rec INFO "IMPORTANT: This script creates chart windows." [];
       Rec INFO "Close any chart windows and terminate this process with CTRL+c as needed." []].
Proof.
  apply (main_completes world_with_sample sample_header sample_types sample_records).
  - reflexivity.
  - exact sample_numeric_schema.
  - exact sample_group_column.
  - exact sample_dtypes_respected.
Defined.

Lemma make_clean_view_missing_key_witness :
  exists labels,
    make_clean_view ungrouped_df ungrouped_world =
      Raise (KeyError labels)
            (logged "Creating cleaned view for EDA (dropping rows with key missing values)"
                    ungrouped_world) /\
    labels = filter (fun l => negb (existsb (String.eqb l) (columns ungrouped_frame)))
                    (NUMERIC_COLS ++ [GROUP_COL]) /\
    In "furnishingstatus"%string labels /\
    (forall l, In l labels <->
               In l (NUMERIC_COLS ++ [GROUP_COL]) /\ ~ In l (columns ungrouped_frame)).
Proof.
  apply (make_clean_view_missing_key ungrouped_df ungrouped_world ungrouped_frame).
  - reflexivity.
  - simpl. tauto.
  - simpl. intuition discriminate.
Defined.


Lemma main_missing_numeric_column_witness :
  exists labels w' earlier,
    main world_without_stories = Raise (KeyError labels) w' /\
    In "stories"%string labels /\
    (forall l, In l labels <->
       In l NUMERIC_COLS /\
       ~ In l ["price"; "area"; "bedrooms"; "bathrooms"; "furnishingstatus"]%string) /\
    figures w' = figures world_without_stories /\
    shown w' = shown world_without_stories /\
    files w' = files world_without_stories /\
    log w' = log world_without_stories ++ earlier ++
             [Rec INFO "Basic sanity check for numeric columns" []].
Proof.
  apply (main_missing_numeric_column world_without_stories
           ["price"; "area"; "bedrooms"; "bathrooms"; "furnishingstatus"]%string
           [int64; float64; int64; int64; object_]
           [[VInt 13300000; VFloat 7420; VInt 4; VInt 2; VStr "furnished"]]).
  - reflexivity.
  - simpl. tauto.
  - simpl. intuition discriminate.
Defined.

Lemma main_missing_status_column_witness :
  exists w' earlier,
    main world_without_status = Raise (KeyError [GROUP_COL]) w' /\
    figures w' = figures world_without_status /\
    shown w' = shown world_without_status /\
    files w' = files world_without_status /\
    log w' =
      log world_without_status ++ earlier ++
      [Rec INFO "Section 5: Create a cleaned view for EDA" [];
       Rec INFO "Creating cleaned view for EDA (dropping rows with key missing values)" []].
Proof.
  apply (main_missing_status_column world_without_status
           ungrouped_header ungrouped_types ungrouped_records).
  - reflexivity.
  - exact ungrouped_numeric_schema.
  - simpl. intuition discriminate.
Defined.

Lemma stages_leave_tables_alone_witness :
  read (final_world (inspect_basic other_df other_world))
       (Obj [0; 1; 3; 4]%Z sample_header sample_types 0) = Some clean_frame /\
  read (final_world (build_data_dictionary other_df other_world))
       (Obj [0; 1; 3; 4]%Z sample_header sample_types 0) = Some clean_frame /\
  read (final_world (check_quality other_df other_world))
       (Obj [0; 1; 3; 4]%Z sample_header sample_types 0) = Some clean_frame /\
  read (final_world (descriptive_stats other_df other_world))
       (Obj [0; 1; 3; 4]%Z sample_header sample_types 0) = Some clean_frame /\
  read (final_world (correlation_matrix other_df other_world))
       (Obj [0; 1; 3; 4]%Z sample_header sample_types 0) = Some clean_frame /\
  read (final_world (make_plots other_df other_world))
       (Obj [0; 1; 3; 4]%Z sample_header sample_types 0) = Some clean_frame.
Proof.
  apply (stages_leave_tables_alone other_df other_world sample_frame).
  - reflexivity.
  - reflexivity.
Defined.

Lemma main_text_in_numeric_column_witness :
  exists w' earlier,
    main world_with_text_price = Raise (TypeError mean_failed) w' /\
    figures w' = figures world_with_text_price /\
    shown w' = shown world_with_text_price /\
    files w' = files world_with_text_price /\
    log w' =
      log world_with_text_price ++ earlier ++
      [Rec INFO "Computing descriptive statistics by %s" [AStr GROUP_COL]].
Proof.
  apply (main_text_in_numeric_column world_with_text_price
           (columns text_frame) (dtypes text_frame) (data text_frame)
           "price"%string (nth 0 (data text_frame) []) "13,300,000"%string).
  - reflexivity.
  - intros c' Hc'. simpl in Hc'.
    repeat (destruct Hc' as [<-|Hc']; [vm_compute; reflexivity|]). contradiction.
  - simpl. tauto.
  - simpl. tauto.
  - reflexivity.
  - apply keeps_spec. vm_compute. reflexivity.
Defined.
